(** * Authentication core of the jewellery inventory API

    A shallow embedding of [backend/auth.py] (password hashing, bearer
    tokens, identity resolution and the role guard) together with the parts
    of [backend/models.py] it uses, and the properties of the specification
    that concern them.

    The module talks to three collaborators that are not part of the
    repository: the [bcrypt] package, the [jwt] package (PyJWT) and the
    MongoDB collection [db.users].  Each is modelled up to the behaviour the
    module relies on; the two cryptographic primitives (the Blowfish key
    schedule behind bcrypt and HMAC-SHA256) stay abstract. *)

From Stdlib Require Import ZArith Lia Ascii String FunInd.
From stdpp Require Import gmap strings list.

Open Scope Z_scope.

(** ** Python values, exceptions and the world the module runs in *)

(** Python [str] is modelled by its UTF-8 bytes, so [str.encode()] and
    [bytes.decode()] only change the container. *)
Definition bytes := list ascii.

Definition str_encode (s : string) : bytes := list_ascii_of_string s.
Definition bytes_decode (b : bytes) : string := string_of_list_ascii b.

(** The exception classes of PyJWT that [jwt.decode] can raise.  All of them
    derive from [InvalidTokenError]. *)
Inductive jwt_error :=
  | DecodeError
  | InvalidSignatureError
  | InvalidAlgorithmError
  | ExpiredSignatureError
  | ImmatureSignatureError
  | InvalidIssuedAtError
  | InvalidAudienceError
  | InvalidSubjectError
  | InvalidJTIError.

Inductive exn :=
  | HTTPException (status_code : Z) (detail : string)
  | JWTError (e : jwt_error)
  | ValueError (msg : string)
  | TypeError (msg : string)
  | OverflowError (msg : string)
  | NotImplementedError (msg : string).

Inductive outcome (A : Type) :=
  | Return (a : A)
  | Raise (e : exn).
Arguments Return {A} a.
Arguments Raise {A} e.

(** ** The bcrypt package (pyca/bcrypt 4)

    [hashpw] cuts the password to its first 72 bytes, reads version, cost
    and salt from its second argument, and answers with the hash string;
    whatever it cannot read is a [ValueError] ("Invalid salt").  [checkpw]
    hashes again and compares. *)

Module bcrypt.

(** *** bcrypt's base64: 6-bit groups, most significant bit first *)

Inductive sextet := Sextet (b5 b4 b3 b2 b1 b0 : bool).

Definition alphabet : bytes :=
  str_encode "./ABCDEFGHIJKLMNOPQRSTUVWXYZabcdefghijklmnopqrstuvwxyz0123456789".

Definition sextet_index (s : sextet) : nat :=
  let 'Sextet b5 b4 b3 b2 b1 b0 := s in
  let w (b : bool) (n : nat) : nat := if b then n else 0%nat in
  (w b5 32 + w b4 16 + w b3 8 + w b2 4 + w b1 2 + w b0 1)%nat.

Definition char_of_sextet (s : sextet) : ascii :=
  nth (sextet_index s) alphabet "."%char.

Definition all_sextets : list sextet :=
  let bs := [false; true] in
  b5 ← bs; b4 ← bs; b3 ← bs; b2 ← bs; b1 ← bs; b0 ← bs;
  [Sextet b5 b4 b3 b2 b1 b0].

Definition sextet_of_char (c : ascii) : option sextet :=
  List.find (fun s => Ascii.eqb (char_of_sextet s) c) all_sextets.

Definition bits_of_byte (a : ascii) : list bool :=
  let 'Ascii b0 b1 b2 b3 b4 b5 b6 b7 := a in
  [b7; b6; b5; b4; b3; b2; b1; b0].

Definition bits_of_sextet (s : sextet) : list bool :=
  let 'Sextet b5 b4 b3 b2 b1 b0 := s in [b5; b4; b3; b2; b1; b0].

(** Groups of six bits; the last group is filled up with zero bits. *)
Function sextets_of_bits (l : list bool) : list sextet :=
  match l with
  | [] => []
  | a :: b :: c :: d :: e :: f :: tl =>
      Sextet a b c d e f :: sextets_of_bits tl
  | [a; b; c; d; e] => [Sextet a b c d e false]
  | [a; b; c; d] => [Sextet a b c d false false]
  | [a; b; c] => [Sextet a b c false false false]
  | [a; b] => [Sextet a b false false false false]
  | [a] => [Sextet a false false false false false]
  end.

(** Groups of eight bits, and the bits left over at the end. *)
Function bytes_of_bits (l : list bool) : bytes * list bool :=
  match l with
  | b7 :: b6 :: b5 :: b4 :: b3 :: b2 :: b1 :: b0 :: tl =>
      let '(bs, rest) := bytes_of_bits tl in
      (Ascii b0 b1 b2 b3 b4 b5 b6 b7 :: bs, rest)
  | rest => ([], rest)
  end.

Definition b64_encode (data : bytes) : bytes :=
  char_of_sextet <$> sextets_of_bits (data ≫= bits_of_byte).

(** Strict decoding: a character outside the alphabet, or a set bit among
    the unused trailing bits, is an error. *)
Definition b64_decode (text : bytes) : option bytes :=
  ss ← mapM sextet_of_char text;
  let '(bs, rest) := bytes_of_bits (ss ≫= bits_of_sextet) in
  if forallb negb rest then Some bs else None.

(** *** Hash strings: [$<version>$<cost>$<22 characters of salt><digest>] *)

(** Cuts at every delimiter; empty pieces are kept. *)
Fixpoint split_on (d : ascii) (l : bytes) : list bytes :=
  match l with
  | [] => [[]]
  | c :: tl =>
      if Ascii.eqb c d then [] :: split_on d tl
      else match split_on d tl with
           | p :: ps => (c :: p) :: ps
           | [] => [[c]]
           end
  end.

Definition nonempty (p : bytes) : bool :=
  match p with [] => false | _ :: _ => true end.

Definition digit_value (c : ascii) : option N :=
  let n := N_of_ascii c in
  if ((48 <=? n) && (n <=? 57))%N then Some (n - 48)%N else None.

Definition digits_value (ds : bytes) : option N :=
  foldl (fun acc c => a ← acc; d ← digit_value c; Some (10 * a + d)%N)
        (Some 0%N) ds.

(** An unsigned 32-bit decimal number, with an optional plus sign. *)
Definition parse_u32 (text : bytes) : option N :=
  let body := match text with
              | c :: tl => if Ascii.eqb c "+" then tl else text
              | [] => text
              end in
  if nonempty body then
    n ← digits_value body;
    if (n <=? 4294967295)%N then Some n else None
  else None.

(** Two decimal digits, for a cost below one hundred. *)
Definition format_cost (cost : N) : bytes :=
  [ascii_of_N (48 + cost / 10); ascii_of_N (48 + cost mod 10)].

Definition versions : list bytes :=
  [str_encode "2y"; str_encode "2b"; str_encode "2a"; str_encode "2x"].

Record salt_params := SaltParams {
  sp_version : bytes;
  sp_cost : N;
  sp_salt : bytes
}.

(** What [hashpw] reads from its second argument, which is either the
    output of [gensalt] or a complete hash. *)
Definition parse_salt (salt : bytes) : option salt_params :=
  match List.filter nonempty (split_on "$" salt) with
  | [version; cost; remainder] =>
      if bool_decide (version ∈ versions) then
        cost ← parse_u32 cost;
        if (22 <=? length remainder)%nat then
          raw_salt ← b64_decode (take 22 remainder);
          if ((4 <=? cost) && (cost <=? 31))%N
          then Some (SaltParams version cost raw_salt)
          else None
        else None
      else None
  | _ => None
  end.

Section Bcrypt.

(** The expensive key schedule and encryption: cost, 16 bytes of salt
    and at most 72 bytes of password give 23 bytes of digest. *)
Variable eks_blowfish : N -> bytes -> bytes -> bytes.

Definition format_hash (p : salt_params) (password : bytes) : bytes :=
  str_encode "$" ++ sp_version p ++ str_encode "$" ++ format_cost (sp_cost p)
    ++ str_encode "$" ++ b64_encode (sp_salt p)
    ++ b64_encode (eks_blowfish (sp_cost p) (sp_salt p) password).

Definition hashpw (password salt : bytes) : outcome bytes :=
  let password := take 72 password in
  match parse_salt salt with
  | Some p => Return (format_hash p password)
  | None => Raise (ValueError "Invalid salt")
  end.

Definition checkpw (password hashed_password : bytes) : outcome bool :=
  match hashpw password hashed_password with
  | Return h => Return (bool_decide (h = hashed_password))
  | Raise e => Raise e
  end.

End Bcrypt.

(** [gensalt()] with its defaults (12 rounds, prefix 2b), given the 16
    bytes it draws from the operating system. *)
Definition gensalt_from (random : bytes) : bytes :=
  str_encode "$2b$12$" ++ b64_encode random.

End bcrypt.

(** ** models.py *)

Module models.

Inductive UserRole := ADMIN | MANAGER | SALESPERSON.

(** The string each member of the enumeration carries. *)
Definition value (r : UserRole) : string :=
  match r with
  | ADMIN => "admin"
  | MANAGER => "manager"
  | SALESPERSON => "salesperson"
  end.

#[export] Instance UserRole_eq_dec : EqDecision UserRole.
Proof. solve_decision. Defined.

(** A user document as it is persisted; [created_at] is an instant in
    microseconds since the epoch. *)
Record User := {
  id : string;
  username : string;
  email : string;
  hashed_password : string;
  role : UserRole;
  created_at : Z
}.

End models.
Export models.

(** ** Dictionaries, the heap and the world *)

(** JSON values as they occur in token claims: null, booleans, integers
    and strings. *)
Inductive json :=
  | JNull
  | JBool (b : bool)
  | JInt (n : Z)
  | JStr (s : string).

(** What a Python dictionary of claims can hold: a JSON value or a
    [datetime] (an aware UTC instant, in microseconds since the epoch). *)
Inductive py_value :=
  | Json (j : json)
  | Datetime (us : Z).

#[export] Instance json_eq_dec : EqDecision json.
Proof. solve_decision. Defined.
#[export] Instance py_value_eq_dec : EqDecision py_value.
Proof. solve_decision. Defined.

Abbreviation dict := (gmap string py_value).
Abbreviation loc := positive.

(** Python truthiness of a JSON value. *)
Definition truthy (v : json) : bool :=
  match v with
  | JNull => false
  | JBool b => b
  | JInt n => negb (n =? 0)
  | JStr s => negb (String.eqb s "")
  end.

(** [datetime.min] and [datetime.max], in microseconds since the epoch. *)
Definition datetime_min : Z := -62135596800 * 1000000.
Definition datetime_max : Z := 253402300799 * 1000000 + 999999.

Record world := World {
  (** what [datetime.now(timezone.utc)] reads *)
  clock : Z;
  (** the bytes [os.urandom] hands out, and how many were taken *)
  entropy : nat -> ascii;
  consumed : nat;
  (** the dictionaries alive in the process *)
  heap : gmap loc dict;
  (** the collection [db.users], in its natural order *)
  users : list User;
  (** the [username] filters [find_one] was called with, latest first *)
  queries : list json
}.

Definition set_clock (t : Z) (w : world) : world :=
  World t (entropy w) (consumed w) (heap w) (users w) (queries w).
Definition set_consumed (n : nat) (w : world) : world :=
  World (clock w) (entropy w) n (heap w) (users w) (queries w).
Definition set_heap (h : gmap loc dict) (w : world) : world :=
  World (clock w) (entropy w) (consumed w) h (users w) (queries w).
Definition set_users (us : list User) (w : world) : world :=
  World (clock w) (entropy w) (consumed w) (heap w) us (queries w).
Definition set_queries (qs : list json) (w : world) : world :=
  World (clock w) (entropy w) (consumed w) (heap w) (users w) qs.

(** Computations that read and change the world and may raise. *)
Definition M (A : Type) : Type := world -> outcome A * world.

#[export] Instance M_ret : MRet M := fun A a w => (Return a, w).
#[export] Instance M_bind : MBind M := fun A B f m w =>
  match m w with
  | (Return a, w') => f a w'
  | (Raise e, w') => (Raise e, w')
  end.

Definition raise {A} (e : exn) : M A := fun w => (Raise e, w).

Definition lift {A} (o : outcome A) : M A := fun w => (o, w).

(** [try: body except ...]: the handler picks the exceptions it catches. *)
Definition try_except {A} (body : M A) (handler : exn -> option (M A)) : M A :=
  fun w =>
    match body w with
    | (Return a, w') => (Return a, w')
    | (Raise e, w') =>
        match handler e with
        | Some h => h w'
        | None => (Raise e, w')
        end
    end.

Definition datetime_now : M Z := fun w => (Return (clock w), w).

(** [datetime + timedelta] *)
Definition datetime_add (d delta : Z) : M Z :=
  if bool_decide (datetime_min <= d + delta <= datetime_max)
  then mret (d + delta)
  else raise (OverflowError "date value out of range").

Definition os_urandom (n : nat) : M bytes := fun w =>
  (Return (entropy w <$> seq (consumed w) n), set_consumed (consumed w + n) w).

(** [d.copy()]: a new dictionary with the same items. *)
Definition dict_copy (d : loc) : M loc := fun w =>
  match heap w !! d with
  | Some items =>
      let l := fresh (dom (heap w)) in
      (Return l, set_heap (<[l := items]> (heap w)) w)
  | None => (Raise (TypeError "not a dict"), w)
  end.

(** [d.update(other)]: the items of [other] replace those of [d]. *)
Definition dict_update (d : loc) (other : dict) : M unit := fun w =>
  match heap w !! d with
  | Some items => (Return tt, set_heap (<[d := other ∪ items]> (heap w)) w)
  | None => (Raise (TypeError "not a dict"), w)
  end.

Definition dict_items (d : loc) : M dict := fun w =>
  match heap w !! d with
  | Some items => (Return items, w)
  | None => (Raise (TypeError "not a dict"), w)
  end.

(** [await db.users.find_one({"username": name})]: the first document whose
    username equals the filter value. *)
Definition find_one_by_username (name : json) : M (option User) := fun w =>
  (Return (List.find (fun u => bool_decide (JStr (username u) = name)) (users w)),
   set_queries (name :: queries w) w).

(** ** The jwt package (PyJWT 2.10)

    [encode] writes a [datetime] under [exp], [iat] or [nbf] as whole
    seconds and signs header and claims.  [decode] checks the structure,
    the algorithm and the signature, and then the registered claims in the
    order [iat], [nbf], [exp], [aud], [sub], [jti], against the clock and
    without leeway. *)

Module jwt.

Record jose_header := JoseHeader { typ : string; alg : string }.

(** A bearer string as PyJWT's parser sees it: either three base64url
    segments holding a JSON header, a JSON object of claims and a signature,
    or anything else. *)
Inductive token :=
  | Compact (header : jose_header) (payload : gmap string json) (signature : bytes)
  | Undecodable (raw : string).

(** [timegm(d.utctimetuple())]: whole seconds since the epoch, the
    microseconds are dropped. *)
Definition timegm (us : Z) : Z := us / 1000000.

(** [encode] turns a [datetime] under a time claim into whole seconds. *)
Definition convert_time_claim (time_claim : string) (payload : dict) : dict :=
  match payload !! time_claim with
  | Some (Datetime us) => <[time_claim := Json (JInt (timegm us))]> payload
  | _ => payload
  end.

Definition as_json (v : py_value) : option json :=
  match v with
  | Json j => Some j
  | Datetime _ => None
  end.

Definition serializable (payload : dict) : bool :=
  bool_decide (map_Forall (fun _ v => is_Some (as_json v)) payload).

Definition json_dumps (payload : dict) : outcome (gmap string json) :=
  if serializable payload then Return (omap as_json payload)
  else Raise (TypeError "Object of type datetime is not JSON serializable").

Definition is_str (v : json) : bool :=
  match v with JStr _ => true | _ => false end.

Definition nonempty_algorithms (algorithms : list string) : bool :=
  match algorithms with [] => false | _ :: _ => true end.

Definition is_ValueError (e : exn) : bool :=
  match e with ValueError _ => true | _ => false end.

Section PyJWT.

(** HMAC with SHA-256 over the serialised header and claims.  The key is a
    secret PyJWT accepts for HMAC (it refuses PEM and SSH public keys). *)
Variable hmac_sha256 : bytes -> jose_header -> gmap string json -> bytes.

(** Python's [int()] on a string; [None] stands for its [ValueError]. *)
Variable int_of_str : string -> option Z.

Definition int_of (v : json) : outcome Z :=
  match v with
  | JInt n => Return n
  | JBool b => Return (if b then 1 else 0)
  | JStr s =>
      match int_of_str s with
      | Some n => Return n
      | None => Raise (ValueError "invalid literal for int() with base 10")
      end
  | JNull => Raise (TypeError "int() argument must be a string or a real number")
  end.

Definition encode (payload : dict) (key : string) (algorithm : string)
  : outcome token :=
  let payload := convert_time_claim "exp" payload in
  let payload := convert_time_claim "iat" payload in
  let payload := convert_time_claim "nbf" payload in
  match payload !! "iss" with
  | Some (Datetime _) | Some (Json JNull) | Some (Json (JBool _))
  | Some (Json (JInt _)) =>
      Raise (TypeError "Issuer (iss) must be a string.")
  | _ =>
      match json_dumps payload with
      | Raise e => Raise e
      | Return claims =>
          if String.eqb algorithm "HS256" then
            let header := JoseHeader "JWT" algorithm in
            Return (Compact header claims
                      (hmac_sha256 (str_encode key) header claims))
          else Raise (NotImplementedError "Algorithm not supported")
      end
  end.

(** [int(payload[claim])], a [ValueError] becoming the given jwt error. *)
Definition int_claim (v : json) (on_value_error : jwt_error) : outcome Z :=
  match int_of v with
  | Return n => Return n
  | Raise e => if is_ValueError e then Raise (JWTError on_value_error)
               else Raise e
  end.

Definition check (ok : bool) (e : jwt_error) : outcome unit :=
  if ok then Return tt else Raise (JWTError e).

Definition validate_iat (payload : gmap string json) (now : Z) : outcome unit :=
  match payload !! "iat" with
  | None => Return tt
  | Some v =>
      match int_claim v InvalidIssuedAtError with
      | Return iat => check (negb (now <? iat * 1000000)) ImmatureSignatureError
      | Raise e => Raise e
      end
  end.

Definition validate_nbf (payload : gmap string json) (now : Z) : outcome unit :=
  match payload !! "nbf" with
  | None => Return tt
  | Some v =>
      match int_claim v DecodeError with
      | Return nbf => check (negb (now <? nbf * 1000000)) ImmatureSignatureError
      | Raise e => Raise e
      end
  end.

(** [exp <= now] raises: the token is expired from the very second [exp]
    names. *)
Definition validate_exp (payload : gmap string json) (now : Z) : outcome unit :=
  match payload !! "exp" with
  | None => Return tt
  | Some v =>
      match int_claim v DecodeError with
      | Return exp => check (negb (exp * 1000000 <=? now)) ExpiredSignatureError
      | Raise e => Raise e
      end
  end.

(** [decode] is called without an audience: a token that names one is
    refused. *)
Definition validate_aud (payload : gmap string json) : outcome unit :=
  match payload !! "aud" with
  | None => Return tt
  | Some v => check (negb (truthy v)) InvalidAudienceError
  end.

Definition validate_str (claim : string) (e : jwt_error)
    (payload : gmap string json) : outcome unit :=
  match payload !! claim with
  | None => Return tt
  | Some v => check (is_str v) e
  end.

Definition and_then (a b : outcome unit) : outcome unit :=
  match a with
  | Return _ => b
  | Raise e => Raise e
  end.

Definition validate_claims (payload : gmap string json) (now : Z) : outcome unit :=
  and_then (validate_iat payload now)
  (and_then (validate_nbf payload now)
  (and_then (validate_exp payload now)
  (and_then (validate_aud payload)
  (and_then (validate_str "sub" InvalidSubjectError payload)
            (validate_str "jti" InvalidJTIError payload))))).

Definition decode (t : token) (key : string) (algorithms : list string)
  : M (gmap string json) :=
  match t with
  | Undecodable _ => raise (JWTError DecodeError)
  | Compact header payload signature =>
      if negb (nonempty_algorithms algorithms)
      then raise (JWTError DecodeError)
      else if negb (bool_decide (alg header ∈ algorithms))
      then raise (JWTError InvalidAlgorithmError)
      else if negb (String.eqb (alg header) "HS256")
      then raise (JWTError InvalidAlgorithmError)
      else if negb (bool_decide
                      (signature = hmac_sha256 (str_encode key) header payload))
      then raise (JWTError InvalidSignatureError)
      else
        now ← datetime_now;
        _ ← lift (validate_claims payload now);
        mret payload
  end.

End PyJWT.

End jwt.

(** ** auth.py

    The functions keep their names.  The [request] argument only gives
    access to [request.app.state.db], which is part of the world here; a
    document of [db.users] is a [User] record, so building the [User] from
    [user_data] gives the document itself; [await] is sequential. *)

(** What [HTTPBearer] extracts from the [Authorization] header. *)
Record HTTPAuthorizationCredentials := {
  scheme : string;
  credentials : jwt.token
}.

Definition ALGORITHM : string := "HS256".
Definition ACCESS_TOKEN_EXPIRE_MINUTES : Z := 60 * 24.

(** [timedelta(minutes=m)], in microseconds. *)
Definition timedelta_minutes (m : Z) : Z := m * 60 * 1000000.

(** [expires_delta or default]: [None] and the zero duration are falsy. *)
Definition or_default (expires_delta : option Z) (default : Z) : Z :=
  match expires_delta with
  | Some d => if d =? 0 then default else d
  | None => default
  end.

(** The Python literal of a list of strings, as an f-string prints it. *)
Definition repr_list (items : list string) : string :=
  "[" +:+ String.concat ", " ((fun s => "'" +:+ s +:+ "'") <$> items) +:+ "]".

Section Auth.

Variable eks_blowfish : N -> bytes -> bytes -> bytes.
Variable hmac_sha256 : bytes -> jwt.jose_header -> gmap string json -> bytes.
Variable int_of_str : string -> option Z.

(** [os.getenv("JWT_SECRET_KEY", ...)], read once when the module loads. *)
Variable SECRET_KEY : string.

Definition hash_password (password : string) : M string :=
  random ← os_urandom 16;
  let salt := bcrypt.gensalt_from random in
  hashed ← lift (bcrypt.hashpw eks_blowfish (str_encode password) salt);
  mret (bytes_decode hashed).

Definition verify_password (plain_password hashed_password : string) : M bool :=
  lift (bcrypt.checkpw eks_blowfish (str_encode plain_password)
          (str_encode hashed_password)).

Definition create_access_token (data : loc) (expires_delta : option Z)
  : M jwt.token :=
  to_encode ← dict_copy data;
  now ← datetime_now;
  expire ← datetime_add now
             (or_default expires_delta
                (timedelta_minutes ACCESS_TOKEN_EXPIRE_MINUTES));
  _ ← dict_update to_encode {[ "exp" := Datetime expire ]};
  payload ← dict_items to_encode;
  lift (jwt.encode hmac_sha256 payload SECRET_KEY ALGORITHM).

Definition decode_access_token (token : jwt.token) : M (gmap string json) :=
  try_except
    (payload ← jwt.decode hmac_sha256 int_of_str token SECRET_KEY [ALGORITHM];
     mret payload)
    (fun e =>
       match e with
       | JWTError ExpiredSignatureError =>
           Some (raise (HTTPException 401 "Token has expired"))
       | JWTError _ =>
           Some (raise (HTTPException 401 "Invalid token"))
       | _ => None
       end).

Definition get_current_user (creds : HTTPAuthorizationCredentials) : M User :=
  let token := credentials creds in
  payload ← decode_access_token token;
  let username := default JNull (payload !! "sub") in
  if negb (truthy username)
  then raise (HTTPException 401 "Invalid token payload")
  else
    user_data ← find_one_by_username username;
    match user_data with
    | None => raise (HTTPException 401 "User not found")
    | Some user => mret user
    end.

Definition access_denied (allowed_roles : list UserRole) : exn :=
  HTTPException 403
    ("Access denied. Required roles: " +:+ repr_list (models.value <$> allowed_roles)).

Definition require_role (allowed_roles : list UserRole)
  : HTTPAuthorizationCredentials -> M User :=
  let role_checker (creds : HTTPAuthorizationCredentials) : M User :=
    user ← get_current_user creds;
    if bool_decide (role user ∉ allowed_roles)
    then raise (access_denied allowed_roles)
    else mret user
  in role_checker.

End Auth.

(** ** Notions the statements use *)

(** The header [jwt.encode] writes for [ALGORITHM]. *)
Definition HS256_header : jwt.jose_header := jwt.JoseHeader "JWT" ALGORITHM.

(** The time to live [create_access_token] applies: the default of 24 hours
    stands in for an absent and for a zero [expires_delta]. *)
Definition ttl_of (expires_delta : option Z) : Z :=
  or_default expires_delta (timedelta_minutes ACCESS_TOKEN_EXPIRE_MINUTES).

Definition in_datetime_range (t : Z) : Prop :=
  datetime_min <= t <= datetime_max.

Definition absent (claim : string) (c : gmap string json) : bool :=
  bool_decide (c !! claim = None).

Definition str_if_present (claim : string) (c : gmap string json) : bool :=
  match c !! claim with
  | Some v => jwt.is_str v
  | None => true
  end.

(** Claim sets of the application: none of the registered claims that
    PyJWT checks by itself at verification ([exp], [iat], [nbf], [aud]),
    and strings under [iss], [sub] and [jti] when these are present. *)
Definition application_claims (c : gmap string json) : bool :=
  absent "exp" c && absent "iat" c && absent "nbf" c && absent "aud" c
  && str_if_present "iss" c && str_if_present "sub" c && str_if_present "jti" c.

(** The document [find_one] answers with for a username. *)
Definition stored_user (name : string) (store : list User) : option User :=
  List.find (fun u => bool_decide (JStr (username u) = JStr name)) store.

(** The credentials of a request that presents the token [t]. *)
Definition bearer (t : jwt.token) : HTTPAuthorizationCredentials :=
  {| scheme := "Bearer"; credentials := t |}.

(** The claims a token carries when it was issued for [c] with the
    expiration instant [expire]. *)
Definition with_exp (expire : Z) (c : gmap string json) : gmap string json :=
  <["exp" := JInt (jwt.timegm expire)]> c.

(** ** A concrete process to run the model on *)

Module Sample.

(** Stand-ins for the two primitives: any functions do for running the
    code; this MAC keeps its key readable, so it binds the key. *)
Definition eks_blowfish (cost : N) (salt password : bytes) : bytes :=
  salt ++ password.

Definition hmac_sha256 (key : bytes) (header : jwt.jose_header)
    (claims : gmap string json) : bytes :=
  key ++ str_encode (jwt.alg header).

Definition int_of_str (s : string) : option Z := None.

Definition SECRET_KEY : string := "your-secret-key-change-in-production".

Definition alice (r : UserRole) : User :=
  {| id := "0b7c1d"; username := "alice"; email := "alice@example.com";
     hashed_password := "$2b$12$......................";
     role := r; created_at := 1761990000000000 |}.

(** The claims [login] and [register] pass to [create_access_token]. *)
Definition login_claims (u : User) : gmap string json :=
  {[ "sub" := JStr (username u); "role" := JStr (models.value (role u)) ]}.

(** A process on 1 November 2025 whose heap holds one dictionary of claims
    and whose store holds one user. *)
Definition process (claims : gmap string json) (r : UserRole) : world :=
  {| clock := 1762000000200000;
     entropy := fun n => ascii_of_nat n;
     consumed := 0;
     heap := {[ 1%positive := Json <$> claims ]};
     users := [alice r];
     queries := [] |}.

(** The token [create_access_token] returns in that process for a given
    [expires_delta], and the process after the call. *)
Definition issue (claims : gmap string json) (r : UserRole)
    (expires_delta : option Z) : outcome jwt.token * world :=
  create_access_token hmac_sha256 SECRET_KEY 1%positive expires_delta
    (process claims r).

Definition issued_token (claims : gmap string json) (expires_delta : option Z)
  : jwt.token :=
  match issue claims ADMIN expires_delta with
  | (Return t, _) => t
  | (Raise _, _) => jwt.Undecodable ""
  end.

End Sample.

(** ** The request and response models of models.py *)

Module UserCreate.
Record t := {
  username : string;
  email : string;
  password : string;
  role : UserRole
}.
End UserCreate.

Module UserLogin.
Record t := {
  username : string;
  password : string
}.
End UserLogin.

Module UserResponse.
Record t := {
  id : string;
  username : string;
  email : string;
  role : UserRole;
  created_at : Z
}.
End UserResponse.

Module Token.
Record t := {
  access_token : jwt.token;
  token_type : string;
  user : UserResponse.t
}.
End Token.

Inductive MetalType := GOLD | SILVER | PLATINUM.

(** A Python [float], by its IEEE 754 binary64 bit pattern.  It is falsy
    exactly when it is one of the two zeros. *)
Definition float := N.
Definition float_zero : float := 0%N.
Definition float_truthy (x : float) : bool :=
  negb ((x =? 0)%N || (x =? 2 ^ 63)%N).

Module MetalPrice.
Record t := {
  id : string;
  gold_price : float;
  silver_price : float;
  platinum_price : float;
  updated_at : Z;
  updated_by : string
}.
End MetalPrice.

Module MetalPriceUpdate.
Record t := {
  gold_price : float;
  silver_price : float;
  platinum_price : option float
}.
End MetalPriceUpdate.

Module InventoryItem.
Record t := {
  id : string;
  sku : string;
  name : string;
  metal_type : MetalType;
  weight_grams : float;
  cost_price : float;
  photo_base64 : option string;
  description : option string;
  created_at : Z;
  updated_at : Z;
  created_by : string
}.
End InventoryItem.

Module InventoryItemCreate.
Record t := {
  sku : string;
  name : string;
  metal_type : MetalType;
  weight_grams : float;
  cost_price : float;
  photo_base64 : option string;
  description : option string
}.
End InventoryItemCreate.

Module InventoryItemUpdate.
Record t := {
  name : option string;
  metal_type : option MetalType;
  weight_grams : option float;
  cost_price : option float;
  photo_base64 : option string;
  description : option string
}.
End InventoryItemUpdate.

(** The [UserResponse] built from [user.model_dump()]: the fields of the
    user that the response model has; the hashed password is not one of
    them. *)
Definition user_response (u : User) : UserResponse.t :=
  {| UserResponse.id := models.id u;
     UserResponse.username := models.username u;
     UserResponse.email := models.email u;
     UserResponse.role := models.role u;
     UserResponse.created_at := models.created_at u |}.

(** ** uuid.uuid4 *)

Definition hex_digit (n : N) : ascii :=
  nth (N.to_nat n) (str_encode "0123456789abcdef") "0"%char.

Definition hex_byte (b : ascii) : bytes :=
  [hex_digit (N_of_ascii b / 16); hex_digit (N_of_ascii b mod 16)].

(** Version 4 in the high half of byte 6, the RFC 4122 variant in the two
    high bits of byte 8. *)
Definition stamp_version (i : nat) (b : ascii) : ascii :=
  if (i =? 6)%nat then ascii_of_N (N_of_ascii b mod 16 + 64)
  else if (i =? 8)%nat then ascii_of_N (N_of_ascii b mod 64 + 128)
  else b.

(** [str(UUID(bytes=random, version=4))] *)
Definition uuid4_from (random : bytes) : string :=
  let hex := imap stamp_version random ≫= hex_byte in
  bytes_decode
    (take 8 hex ++ str_encode "-" ++ take 4 (drop 8 hex) ++ str_encode "-"
     ++ take 4 (drop 12 hex) ++ str_encode "-" ++ take 4 (drop 16 hex)
     ++ str_encode "-" ++ drop 20 hex).

Definition uuid4 : M string :=
  random ← os_urandom 16;
  mret (uuid4_from random).

(** ** server.py: the authentication endpoints

    The application has started, so [request.app.state.db] exists and
    [_ensure_db] returns it. *)

(** A dictionary display: a new dictionary with the given items. *)
Definition dict_new (items : dict) : M loc := fun w =>
  let l := fresh (dom (heap w)) in
  (Return l, set_heap (<[l := items]> (heap w)) w).

(** The first document of a store with the given email address. *)
Definition email_taken (address : string) (store : list User) : option User :=
  List.find (fun u => String.eqb (models.email u) address) store.

(** [await db.users.find_one({"email": address})] *)
Definition find_one_by_email (address : string) : M (option User) := fun w =>
  (Return (email_taken address (users w)), w).

(** BSON keeps a [datetime] to the millisecond. *)
Definition bson_datetime (us : Z) : Z := us / 1000 * 1000.

Definition stored_user_document (u : User) : User :=
  {| models.id := models.id u;
     models.username := models.username u;
     models.email := models.email u;
     models.hashed_password := models.hashed_password u;
     models.role := models.role u;
     models.created_at := bson_datetime (models.created_at u) |}.

(** [await db.users.insert_one(user.model_dump())]: the document goes to
    the end of the collection. *)
Definition insert_one_user (u : User) : M unit := fun w =>
  (Return tt, set_users (users w ++ [stored_user_document u]) w).

Section AuthEndpoints.

Variable eks_blowfish : N -> bytes -> bytes -> bytes.
Variable hmac_sha256 : bytes -> jwt.jose_header -> gmap string json -> bytes.
Variable int_of_str : string -> option Z.
Variable SECRET_KEY : string.

(** The claims both endpoints put into the token. *)
Definition token_data (u : User) : dict :=
  {[ "sub" := Json (JStr (models.username u));
     "role" := Json (JStr (models.value (models.role u))) ]}.

Definition register (user_create : UserCreate.t) : M Token.t :=
  existing_user ← find_one_by_username (JStr (UserCreate.username user_create));
  if bool_decide (is_Some existing_user)
  then raise (HTTPException 400 "Username already exists")
  else
    existing_email ← find_one_by_email (UserCreate.email user_create);
    if bool_decide (is_Some existing_email)
    then raise (HTTPException 400 "Email already exists")
    else
      hashed ← hash_password eks_blowfish (UserCreate.password user_create);
      new_id ← uuid4;
      now ← datetime_now;
      let user :=
        {| models.id := new_id;
           models.username := UserCreate.username user_create;
           models.email := UserCreate.email user_create;
           models.hashed_password := hashed;
           models.role := UserCreate.role user_create;
           models.created_at := now |} in
      _ ← insert_one_user user;
      data ← dict_new (token_data user);
      access_token ← create_access_token hmac_sha256 SECRET_KEY data None;
      mret {| Token.access_token := access_token;
              Token.token_type := "bearer";
              Token.user := user_response user |}.

Definition login (user_login : UserLogin.t) : M Token.t :=
  user_data ← find_one_by_username (JStr (UserLogin.username user_login));
  match user_data with
  | None => raise (HTTPException 401 "Invalid username or password")
  | Some user =>
      ok ← verify_password eks_blowfish (UserLogin.password user_login)
             (models.hashed_password user);
      if negb ok
      then raise (HTTPException 401 "Invalid username or password")
      else
        data ← dict_new (token_data user);
        access_token ← create_access_token hmac_sha256 SECRET_KEY data None;
        mret {| Token.access_token := access_token;
                Token.token_type := "bearer";
                Token.user := user_response user |}
  end.

Definition get_current_user_info (creds : HTTPAuthorizationCredentials)
  : M UserResponse.t :=
  user ← get_current_user hmac_sha256 int_of_str SECRET_KEY creds;
  mret (user_response user).

End AuthEndpoints.

(** ** server.py: metal prices and inventory *)

(** The application: the world of the authentication module and the two
    other collections, each in its natural order. *)
Record app_state := AppState {
  base : world;
  metal_prices : list MetalPrice.t;
  inventory_items : list InventoryItem.t
}.

Definition set_base (w : world) (a : app_state) : app_state :=
  AppState w (metal_prices a) (inventory_items a).
Definition set_metal_prices (ps : list MetalPrice.t) (a : app_state) : app_state :=
  AppState (base a) ps (inventory_items a).
Definition set_inventory_items (items : list InventoryItem.t) (a : app_state) : app_state :=
  AppState (base a) (metal_prices a) items.

(** Request handlers. *)
Definition H (A : Type) : Type := app_state -> outcome A * app_state.

#[export] Instance H_ret : MRet H := fun A x a => (Return x, a).
#[export] Instance H_bind : MBind H := fun A B f m a =>
  match m a with
  | (Return x, a') => f x a'
  | (Raise e, a') => (Raise e, a')
  end.

Definition fail {A} (e : exn) : H A := fun a => (Raise e, a).

(** A computation of the authentication module, run inside a handler. *)
Definition in_world {A} (m : M A) : H A := fun a =>
  let '(r, w) := m (base a) in (r, set_base w a).

(** [find_one({"sku": sku})] and [find_one({"id": item_id})] on
    [db.inventory_items]. *)
Definition find_item_by_sku (sku : string) : H (option InventoryItem.t) := fun a =>
  (Return (List.find (fun i => String.eqb (InventoryItem.sku i) sku)
             (inventory_items a)), a).

Definition find_item_by_id (item_id : string) : H (option InventoryItem.t) := fun a =>
  (Return (List.find (fun i => String.eqb (InventoryItem.id i) item_id)
             (inventory_items a)), a).

Definition stored_item (i : InventoryItem.t) : InventoryItem.t :=
  {| InventoryItem.id := InventoryItem.id i;
     InventoryItem.sku := InventoryItem.sku i;
     InventoryItem.name := InventoryItem.name i;
     InventoryItem.metal_type := InventoryItem.metal_type i;
     InventoryItem.weight_grams := InventoryItem.weight_grams i;
     InventoryItem.cost_price := InventoryItem.cost_price i;
     InventoryItem.photo_base64 := InventoryItem.photo_base64 i;
     InventoryItem.description := InventoryItem.description i;
     InventoryItem.created_at := bson_datetime (InventoryItem.created_at i);
     InventoryItem.updated_at := bson_datetime (InventoryItem.updated_at i);
     InventoryItem.created_by := InventoryItem.created_by i |}.

Definition stored_metal_price (p : MetalPrice.t) : MetalPrice.t :=
  {| MetalPrice.id := MetalPrice.id p;
     MetalPrice.gold_price := MetalPrice.gold_price p;
     MetalPrice.silver_price := MetalPrice.silver_price p;
     MetalPrice.platinum_price := MetalPrice.platinum_price p;
     MetalPrice.updated_at := bson_datetime (MetalPrice.updated_at p);
     MetalPrice.updated_by := MetalPrice.updated_by p |}.

(** [insert_one(item.model_dump())] on the two collections. *)
Definition insert_item (i : InventoryItem.t) : H unit := fun a =>
  (Return tt, set_inventory_items (inventory_items a ++ [stored_item i]) a).

Definition insert_metal_price (p : MetalPrice.t) : H unit := fun a =>
  (Return tt, set_metal_prices (metal_prices a ++ [stored_metal_price p]) a).

(** [update_one({"id": item_id}, {"$set": ...})]: the first document with
    that id is changed, the others are not. *)
Fixpoint update_first (item_id : string) (f : InventoryItem.t -> InventoryItem.t)
    (items : list InventoryItem.t) : list InventoryItem.t :=
  match items with
  | [] => []
  | i :: rest =>
      if String.eqb (InventoryItem.id i) item_id then f i :: rest
      else i :: update_first item_id f rest
  end.

(** [delete_one({"id": item_id})]: the first document with that id goes;
    the count of deleted documents comes back. *)
Fixpoint delete_first (item_id : string) (items : list InventoryItem.t)
  : list InventoryItem.t * Z :=
  match items with
  | [] => ([], 0)
  | i :: rest =>
      if String.eqb (InventoryItem.id i) item_id then (rest, 1)
      else let '(rest', n) := delete_first item_id rest in (i :: rest', n)
  end.

Definition update_one_item (item_id : string)
    (f : InventoryItem.t -> InventoryItem.t) : H unit := fun a =>
  (Return tt, set_inventory_items (update_first item_id f (inventory_items a)) a).

Definition delete_one_item (item_id : string) : H Z := fun a =>
  let '(items, deleted_count) := delete_first item_id (inventory_items a) in
  (Return deleted_count, set_inventory_items items a).

(** What [$set] does to a stored item: the fields of the update that are
    not [None] replace those of the item, and [updated_at] is set. *)
Definition set_fields (u : InventoryItemUpdate.t) (now : Z)
    (i : InventoryItem.t) : InventoryItem.t :=
  {| InventoryItem.id := InventoryItem.id i;
     InventoryItem.sku := InventoryItem.sku i;
     InventoryItem.name :=
       default (InventoryItem.name i) (InventoryItemUpdate.name u);
     InventoryItem.metal_type :=
       default (InventoryItem.metal_type i) (InventoryItemUpdate.metal_type u);
     InventoryItem.weight_grams :=
       default (InventoryItem.weight_grams i) (InventoryItemUpdate.weight_grams u);
     InventoryItem.cost_price :=
       default (InventoryItem.cost_price i) (InventoryItemUpdate.cost_price u);
     InventoryItem.photo_base64 :=
       match InventoryItemUpdate.photo_base64 u with
       | Some photo => Some photo
       | None => InventoryItem.photo_base64 i
       end;
     InventoryItem.description :=
       match InventoryItemUpdate.description u with
       | Some text => Some text
       | None => InventoryItem.description i
       end;
     InventoryItem.created_at := InventoryItem.created_at i;
     InventoryItem.updated_at := bson_datetime now;
     InventoryItem.created_by := InventoryItem.created_by i |}.

Section Endpoints.

Variable hmac_sha256 : bytes -> jwt.jose_header -> gmap string json -> bytes.
Variable int_of_str : string -> option Z.
Variable SECRET_KEY : string.

(** [Depends(require_role(...))]: the guard runs before the body of the
    handler. *)
Definition depends_role (allowed_roles : list UserRole)
    (creds : HTTPAuthorizationCredentials) : H User :=
  in_world (require_role hmac_sha256 int_of_str SECRET_KEY allowed_roles creds).

Definition update_metal_prices (price_update : MetalPriceUpdate.t)
    (creds : HTTPAuthorizationCredentials) : H MetalPrice.t :=
  user ← depends_role [ADMIN] creds;
  new_id ← in_world uuid4;
  now ← in_world datetime_now;
  let metal_price :=
    {| MetalPrice.id := new_id;
       MetalPrice.gold_price := MetalPriceUpdate.gold_price price_update;
       MetalPrice.silver_price := MetalPriceUpdate.silver_price price_update;
       MetalPrice.platinum_price :=
         match MetalPriceUpdate.platinum_price price_update with
         | Some p => if float_truthy p then p else float_zero
         | None => float_zero
         end;
       MetalPrice.updated_at := now;
       MetalPrice.updated_by := models.username user |} in
  _ ← insert_metal_price metal_price;
  mret metal_price.

Definition create_inventory_item (item_create : InventoryItemCreate.t)
    (creds : HTTPAuthorizationCredentials) : H InventoryItem.t :=
  user ← depends_role [ADMIN; MANAGER] creds;
  existing_item ← find_item_by_sku (InventoryItemCreate.sku item_create);
  if bool_decide (is_Some existing_item)
  then fail (HTTPException 400 "SKU already exists")
  else
    new_id ← in_world uuid4;
    created ← in_world datetime_now;
    updated ← in_world datetime_now;
    let item :=
      {| InventoryItem.id := new_id;
         InventoryItem.sku := InventoryItemCreate.sku item_create;
         InventoryItem.name := InventoryItemCreate.name item_create;
         InventoryItem.metal_type := InventoryItemCreate.metal_type item_create;
         InventoryItem.weight_grams := InventoryItemCreate.weight_grams item_create;
         InventoryItem.cost_price := InventoryItemCreate.cost_price item_create;
         InventoryItem.photo_base64 := InventoryItemCreate.photo_base64 item_create;
         InventoryItem.description := InventoryItemCreate.description item_create;
         InventoryItem.created_at := created;
         InventoryItem.updated_at := updated;
         InventoryItem.created_by := models.username user |} in
    _ ← insert_item item;
    mret item.

Definition get_inventory_item (item_id : string)
    (creds : HTTPAuthorizationCredentials) : H InventoryItem.t :=
  user ← depends_role [ADMIN; MANAGER; SALESPERSON] creds;
  item_data ← find_item_by_id item_id;
  match item_data with
  | None => fail (HTTPException 404 "Item not found")
  | Some item => mret item
  end.

Definition update_inventory_item (item_id : string)
    (item_update : InventoryItemUpdate.t)
    (creds : HTTPAuthorizationCredentials) : H InventoryItem.t :=
  user ← depends_role [ADMIN; MANAGER] creds;
  item_data ← find_item_by_id item_id;
  match item_data with
  | None => fail (HTTPException 404 "Item not found")
  | Some _ =>
      now ← in_world datetime_now;
      _ ← update_one_item item_id (set_fields item_update now);
      updated_item ← find_item_by_id item_id;
      match updated_item with
      | Some item => mret item
      | None => fail (TypeError "argument after ** must be a mapping")
      end
  end.

(** What the handler answers after a deletion. *)
Definition deleted : string := "Item deleted successfully".

Definition delete_inventory_item (item_id : string)
    (creds : HTTPAuthorizationCredentials) : H string :=
  user ← depends_role [ADMIN; MANAGER] creds;
  deleted_count ← delete_one_item item_id;
  if deleted_count =? 0
  then fail (HTTPException 404 "Item not found")
  else mret deleted.

End Endpoints.

(** ** server.py: the cache of agents

    The agent classes live outside this module; an agent is known here by
    its kind and by the configuration it was built from. *)

Section Agents.

Variable AgentConfig : Type.

Inductive agent :=
  | SearchAgent (config : AgentConfig)
  | ChatAgent (config : AgentConfig).

(** [request.app.state], as far as agents are concerned: the cache is an
    attribute that may not be set yet. *)
Record agent_state := AgentState {
  agent_config : AgentConfig;
  agent_cache : option (gmap string agent)
}.

Definition _get_agent_cache (s : agent_state) : gmap string agent * agent_state :=
  match agent_cache s with
  | Some cache => (cache, s)
  | None => (∅, AgentState (agent_config s) (Some ∅))
  end.

Definition _get_or_create_agent (agent_type : string) (s : agent_state)
  : outcome agent * agent_state :=
  let '(cache, s) := _get_agent_cache s in
  match cache !! agent_type with
  | Some a => (Return a, s)
  | None =>
      let config := agent_config s in
      if String.eqb agent_type "search" then
        let a := SearchAgent config in
        (Return a, AgentState config (Some (<[agent_type := a]> cache)))
      else if String.eqb agent_type "chat" then
        let a := ChatAgent config in
        (Return a, AgentState config (Some (<[agent_type := a]> cache)))
      else
        (Raise (HTTPException 400
                  ("Unknown agent type '" +:+ agent_type +:+ "'")), s)
  end.

End Agents.

(** ** A sample shop

    Requests and an application for running the handlers: the store of
    users is that of [Sample.process], the inventory holds one ring. *)

Module Shop.

Definition bob : UserCreate.t :=
  {| UserCreate.username := "bob";
     UserCreate.email := "bob@example.com";
     UserCreate.password := "correct horse";
     UserCreate.role := MANAGER |}.

Definition nameless : UserCreate.t :=
  {| UserCreate.username := "";
     UserCreate.email := "nobody@example.com";
     UserCreate.password := "battery staple";
     UserCreate.role := SALESPERSON |}.

(** Requests that [register] and [login] refuse in [Sample.process]: the
    username of alice again, her email address under another name, a login
    of somebody unknown, a login of alice with a wrong password. *)
Definition again : UserCreate.t :=
  {| UserCreate.username := "alice";
     UserCreate.email := "a@example.com";
     UserCreate.password := "s3cret";
     UserCreate.role := SALESPERSON |}.

Definition alias : UserCreate.t :=
  {| UserCreate.username := "alicia";
     UserCreate.email := "alice@example.com";
     UserCreate.password := "s3cret";
     UserCreate.role := SALESPERSON |}.

Definition stranger : UserLogin.t :=
  {| UserLogin.username := "mallory"; UserLogin.password := "s3cret" |}.

Definition guess : UserLogin.t :=
  {| UserLogin.username := "alice"; UserLogin.password := "guess" |}.

(** A user document whose password was never hashed. *)
Definition carol : User :=
  {| id := "7f3a9e"; username := "carol"; email := "carol@example.com";
     hashed_password := "plaintext"; role := SALESPERSON;
     created_at := 1761990000000000 |}.

Definition carol_login : UserLogin.t :=
  {| UserLogin.username := "carol"; UserLogin.password := "plaintext" |}.

(** 5.0 grams, bought for 300.0 *)
Definition ring : InventoryItem.t :=
  {| InventoryItem.id := "item-1";
     InventoryItem.sku := "RING-001";
     InventoryItem.name := "Gold ring";
     InventoryItem.metal_type := GOLD;
     InventoryItem.weight_grams := 0x4014000000000000%N;
     InventoryItem.cost_price := 0x4072C00000000000%N;
     InventoryItem.photo_base64 := None;
     InventoryItem.description := Some "Plain band";
     InventoryItem.created_at := 1761990000000000;
     InventoryItem.updated_at := 1761990000000000;
     InventoryItem.created_by := "alice" |}.

Definition ring_create : InventoryItemCreate.t :=
  {| InventoryItemCreate.sku := "RING-001";
     InventoryItemCreate.name := "Another ring";
     InventoryItemCreate.metal_type := SILVER;
     InventoryItemCreate.weight_grams := 0x4014000000000000%N;
     InventoryItemCreate.cost_price := 0x4072C00000000000%N;
     InventoryItemCreate.photo_base64 := None;
     InventoryItemCreate.description := None |}.

Definition chain_create : InventoryItemCreate.t :=
  {| InventoryItemCreate.sku := "CHAIN-001";
     InventoryItemCreate.name := "Silver chain";
     InventoryItemCreate.metal_type := SILVER;
     InventoryItemCreate.weight_grams := 0x4014000000000000%N;
     InventoryItemCreate.cost_price := 0x4072C00000000000%N;
     InventoryItemCreate.photo_base64 := None;
     InventoryItemCreate.description := Some "Curb links" |}.

Definition engrave : InventoryItemUpdate.t :=
  {| InventoryItemUpdate.name := Some "Gold ring, engraved";
     InventoryItemUpdate.metal_type := None;
     InventoryItemUpdate.weight_grams := None;
     InventoryItemUpdate.cost_price := None;
     InventoryItemUpdate.photo_base64 := None;
     InventoryItemUpdate.description := None |}.

(** Gold at 65.5, silver at 1.0, no price for platinum. *)
Definition prices : MetalPriceUpdate.t :=
  {| MetalPriceUpdate.gold_price := 0x4050600000000000%N;
     MetalPriceUpdate.silver_price := 0x3FF0000000000000%N;
     MetalPriceUpdate.platinum_price := None |}.

(** The application in which alice has role [r]. *)
Definition shop (r : UserRole) : app_state :=
  {| base := Sample.process ∅ r; metal_prices := []; inventory_items := [ring] |}.

(** The credentials of alice: a token issued for her with the default
    lifetime. *)
Definition alice_credentials : HTTPAuthorizationCredentials :=
  bearer (Sample.issued_token (Sample.login_claims (Sample.alice ADMIN)) None).

End Shop.

(** * Properties *)

(** ** bcrypt: the hash of a password verifies against it *)

Section BcryptFacts.

Import bcrypt.

Lemma sextet_of_char_of_sextet s : sextet_of_char (char_of_sextet s) = Some s.
Proof. destruct s as [[] [] [] [] [] []]; vm_compute; reflexivity. Qed.

Lemma char_of_sextet_not_dollar s : char_of_sextet s ≠ "$"%char.
Proof. destruct s as [[] [] [] [] [] []]; vm_compute; discriminate. Qed.

(** Regrouping by six only appends zero bits, fewer than six of them. *)
Lemma bits_of_sextets_of_bits l :
  ∃ k, (k < 6)%nat
       ∧ sextets_of_bits l ≫= bits_of_sextet = l ++ replicate k false
       ∧ (6 * length (sextets_of_bits l) = length l + k)%nat.
Proof.
  functional induction (sextets_of_bits l).
  - exists 0%nat. split; [lia|]. done.
  - destruct IHl0 as (k & Hk & IH & Hl). exists k. split; [done|]. split.
    + unfold mbind in *. simpl. by rewrite IH.
    + simpl. lia.
  - exists 1%nat; split; [lia|]; done.
  - exists 2%nat; split; [lia|]; done.
  - exists 3%nat; split; [lia|]; done.
  - exists 4%nat; split; [lia|]; done.
  - exists 5%nat; split; [lia|]; done.
Qed.

Lemma bytes_of_bits_of_bytes bs pad :
  (length pad < 8)%nat -> bytes_of_bits ((bs ≫= bits_of_byte) ++ pad) = (bs, pad).
Proof.
  intros Hp. induction bs as [|a bs IH].
  - simpl. do 8 (destruct pad as [|? pad]; [done|]). simpl in Hp. lia.
  - destruct a. unfold mbind in *. simpl. by rewrite IH.
Qed.

Lemma bits_of_bytes_length (bs : bytes) :
  length (bs ≫= bits_of_byte) = (8 * length bs)%nat.
Proof.
  unfold mbind. induction bs as [|[] bs IH]; simpl; [done|].
  rewrite IH. lia.
Qed.

Lemma b64_decode_encode data : b64_decode (b64_encode data) = Some data.
Proof.
  unfold b64_decode, b64_encode.
  rewrite (mapM_fmap_Some _ _ _ sextet_of_char_of_sextet). simpl.
  destruct (bits_of_sextets_of_bits (data ≫= bits_of_byte)) as (k & Hk & -> & _).
  rewrite bytes_of_bits_of_bytes by (rewrite length_replicate; lia).
  assert (forallb negb (replicate k false) = true) as ->; [|done].
  clear. induction k; simpl; auto.
Qed.

Lemma b64_encode_inj d1 d2 : b64_encode d1 = b64_encode d2 -> d1 = d2.
Proof.
  intros H. apply (f_equal b64_decode) in H.
  rewrite !b64_decode_encode in H. congruence.
Qed.

Lemma b64_encode_length_16 data :
  length data = 16%nat -> length (b64_encode data) = 22%nat.
Proof.
  intros H. unfold b64_encode. rewrite length_fmap.
  destruct (bits_of_sextets_of_bits (data ≫= bits_of_byte)) as (k & Hk & _ & Hl).
  rewrite bits_of_bytes_length in Hl. lia.
Qed.

Lemma b64_encode_no_dollar data : "$"%char ∉ b64_encode data.
Proof.
  unfold b64_encode. intros (s & Hs & _)%list_elem_of_fmap.
  by eapply char_of_sextet_not_dollar.
Qed.

(** A text without the delimiter is a single piece. *)
Lemma split_on_absent d l : d ∉ l -> split_on d l = [l].
Proof.
  induction l as [|c l IH]; [done|]. intros Hd.
  apply not_elem_of_cons in Hd as [Hc Hl]. simpl.
  destruct (Ascii.eqb_spec c d); [congruence|]. by rewrite IH.
Qed.

End BcryptFacts.

Section HasherFacts.

Import bcrypt.

Variable eks_blowfish : N -> bytes -> bytes -> bytes.

Lemma parse_salt_gensalt random rest :
  length random = 16%nat -> "$"%char ∉ rest ->
  parse_salt (gensalt_from random ++ rest)
  = Some (SaltParams (str_encode "2b") 12 random).
Proof.
  intros Hlen Hrest. unfold parse_salt, gensalt_from.
  pose proof (b64_encode_length_16 _ Hlen) as H22.
  pose proof (b64_encode_no_dollar random) as Hno.
  set (salt := b64_encode random) in *.
  assert (split_on "$" ((str_encode "$2b$12$" ++ salt) ++ rest)
          = [[]; str_encode "2b"; str_encode "12"; salt ++ rest]) as ->.
  { simpl. rewrite split_on_absent; [done|].
    rewrite elem_of_app. tauto. }
  destruct salt as [|c cs] eqn:Hsalt; [done|].
  replace (List.filter nonempty
             [[]; str_encode "2b"; str_encode "12"; (c :: cs) ++ rest])
    with [str_encode "2b"; str_encode "12"; (c :: cs) ++ rest] by done.
  cbv beta iota.
  replace (bool_decide (str_encode "2b" ∈ versions)) with true by done.
  replace (parse_u32 (str_encode "12")) with (Some 12%N) by done.
  cbn [mbind option_bind].
  replace (22 <=? length ((c :: cs) ++ rest))%nat with true
    by (symmetry; apply Nat.leb_le; rewrite length_app, H22; lia).
  replace (take 22 ((c :: cs) ++ rest)) with (c :: cs)
    by (rewrite take_app_length'; done).
  rewrite <- Hsalt. subst salt. rewrite b64_decode_encode. done.
Qed.

(** Hashing with a fresh salt puts the salt in front of the digest. *)
Lemma hashpw_gensalt password random :
  length random = 16%nat ->
  hashpw eks_blowfish password (gensalt_from random)
  = Return (gensalt_from random
              ++ b64_encode (eks_blowfish 12 random (take 72 password))).
Proof.
  intros Hlen. unfold hashpw.
  rewrite <- (app_nil_r (gensalt_from random)) at 1.
  rewrite parse_salt_gensalt by (done || apply not_elem_of_nil).
  unfold format_hash, gensalt_from. simpl. done.
Qed.

(** Hashing against a complete hash reads the salt back from it. *)
Lemma hashpw_rehash password random digest :
  length random = 16%nat ->
  hashpw eks_blowfish password (gensalt_from random ++ b64_encode digest)
  = Return (gensalt_from random
              ++ b64_encode (eks_blowfish 12 random (take 72 password))).
Proof.
  intros Hlen. unfold hashpw.
  rewrite parse_salt_gensalt by (done || apply b64_encode_no_dollar).
  unfold format_hash, gensalt_from. simpl. done.
Qed.

Lemma gensalt_hash_inj r1 r2 d1 d2 :
  length r1 = 16%nat -> length r2 = 16%nat ->
  gensalt_from r1 ++ d1 = gensalt_from r2 ++ d2 -> r1 = r2.
Proof.
  intros H1 H2 Heq. unfold gensalt_from in Heq.
  rewrite <- !(assoc_L (++)) in Heq. apply app_inv_head in Heq.
  apply app_inj_1 in Heq as [Heq _].
  - by apply b64_encode_inj.
  - by rewrite !b64_encode_length_16.
Qed.

Lemma os_urandom_length n w : length (entropy w <$> seq (consumed w) n) = n.
Proof. by rewrite length_fmap, length_seq. Qed.

Lemma hash_password_run password w :
  let random := entropy w <$> seq (consumed w) 16 in
  hash_password eks_blowfish password w
  = (Return (bytes_decode
               (gensalt_from random
                  ++ b64_encode (eks_blowfish 12 random
                                   (take 72 (str_encode password))))),
     set_consumed (consumed w + 16) w).
Proof.
  intros random. unfold hash_password, os_urandom, mbind, M_bind, lift.
  fold random. rewrite hashpw_gensalt by apply os_urandom_length. done.
Qed.

Lemma verify_hashed password random w :
  length random = 16%nat ->
  verify_password eks_blowfish password
    (bytes_decode
       (gensalt_from random
          ++ b64_encode (eks_blowfish 12 random (take 72 (str_encode password)))))
    w
  = (Return true, w).
Proof.
  intros Hlen. unfold verify_password, lift, checkpw, str_encode, bytes_decode.
  rewrite list_ascii_of_string_of_list_ascii.
  rewrite hashpw_rehash by done. by rewrite bool_decide_eq_true_2.
Qed.

Lemma bytes_decode_inj b1 b2 : bytes_decode b1 = bytes_decode b2 -> b1 = b2.
Proof.
  unfold bytes_decode. intros H. apply (f_equal list_ascii_of_string) in H.
  by rewrite !list_ascii_of_string_of_list_ascii in H.
Qed.

(** C7. For every secret [s], two successive calls of [hash_password s]
    both return a hash that [verify_password] accepts for [s]; and the two
    hashes differ whenever the two calls drew different salts (the 16 bytes
    each takes from [os.urandom]). *)
Theorem hash_then_verify (s : string) (w : world) :
  ∃ h1 w1 h2 w2,
    hash_password eks_blowfish s w = (Return h1, w1)
    ∧ hash_password eks_blowfish s w1 = (Return h2, w2)
    ∧ verify_password eks_blowfish s h1 w2 = (Return true, w2)
    ∧ verify_password eks_blowfish s h2 w2 = (Return true, w2)
    ∧ (entropy w <$> seq (consumed w) 16
       ≠ entropy w <$> seq (consumed w + 16) 16 ->
       h1 ≠ h2).
Proof.
  eexists _, _, _, _.
  split; [apply hash_password_run|].
  split; [apply hash_password_run|].
  split; [apply verify_hashed, os_urandom_length|].
  split; [apply verify_hashed, os_urandom_length|].
  intros fresh_salt Heq%bytes_decode_inj.
  apply gensalt_hash_inj in Heq; [|apply os_urandom_length..].
  by apply fresh_salt.
Qed.

End HasherFacts.

Lemma hash_then_verify_witness :
  ∃ h1 w1 h2 w2,
    hash_password Sample.eks_blowfish "s3cret" (Sample.process ∅ ADMIN)
      = (Return h1, w1)
    ∧ hash_password Sample.eks_blowfish "s3cret" w1 = (Return h2, w2)
    ∧ verify_password Sample.eks_blowfish "s3cret" h1 w2 = (Return true, w2)
    ∧ verify_password Sample.eks_blowfish "s3cret" h2 w2 = (Return true, w2)
    ∧ h1 ≠ h2.
Proof.
  destruct (hash_then_verify Sample.eks_blowfish "s3cret"
              (Sample.process ∅ ADMIN))
    as (h1 & w1 & h2 & w2 & Hh1 & Hh2 & Hv1 & Hv2 & Hfresh).
  exists h1, w1, h2, w2. repeat (split; [assumption|]).
  apply Hfresh. vm_compute. discriminate.
Defined.

(** ** Tokens: what issuing builds and what verifying answers *)

Section TokenFacts.

Variable hmac_sha256 : bytes -> jwt.jose_header -> gmap string json -> bytes.
Variable int_of_str : string -> option Z.

Lemma convert_time_claim_json k (p : dict) :
  (∀ us, p !! k ≠ Some (Datetime us)) -> jwt.convert_time_claim k p = p.
Proof.
  intros H. unfold jwt.convert_time_claim.
  destruct (p !! k) as [[j|us]|] eqn:E; try done. by destruct (H us).
Qed.

Lemma omap_as_json_fmap (c : gmap string json) : omap jwt.as_json (Json <$> c) = c.
Proof.
  apply map_eq. intros k. rewrite lookup_omap, lookup_fmap.
  by destruct (c !! k).
Qed.

Lemma json_dumps_json (c : gmap string json) :
  jwt.json_dumps (Json <$> c) = Return c.
Proof.
  unfold jwt.json_dumps, jwt.serializable.
  rewrite bool_decide_eq_true_2, omap_as_json_fmap; [done|].
  apply map_Forall_fmap, map_Forall_lookup. intros k j _. by eexists.
Qed.

(** [jwt.encode] on a dictionary of JSON claims plus the [datetime] that
    [create_access_token] stores under [exp]. *)
Lemma encode_claims (c : gmap string json) (expire : Z) (key : string) :
  str_if_present "iss" c = true ->
  jwt.encode hmac_sha256 (<["exp" := Datetime expire]> (Json <$> c)) key ALGORITHM
  = Return (jwt.Compact HS256_header (with_exp expire c)
              (hmac_sha256 (str_encode key) HS256_header (with_exp expire c))).
Proof.
  intros Hiss. unfold jwt.encode.
  assert (jwt.convert_time_claim "exp" (<["exp" := Datetime expire]> (Json <$> c))
          = Json <$> with_exp expire c) as ->.
  { unfold jwt.convert_time_claim, with_exp.
    by rewrite lookup_insert_eq, insert_insert_eq, fmap_insert. }
  assert (∀ k us, (Json <$> with_exp expire c) !! k ≠ Some (Datetime us)) as Hjson.
  { intros k us. rewrite lookup_fmap. by destruct (with_exp expire c !! k). }
  rewrite (convert_time_claim_json "iat") by apply Hjson.
  rewrite (convert_time_claim_json "nbf") by apply Hjson.
  unfold str_if_present in Hiss.
  assert ((Json <$> with_exp expire c) !! "iss" = Json <$> (c !! "iss")) as ->.
  { unfold with_exp. by rewrite lookup_fmap, lookup_insert_ne. }
  rewrite json_dumps_json.
  destruct (c !! "iss") as [[| | |]|]; done.
Qed.

Lemma create_access_token_run key (c : gmap string json) data expires_delta w :
  heap w !! data = Some (Json <$> c) ->
  str_if_present "iss" c = true ->
  in_datetime_range (clock w + ttl_of expires_delta) ->
  let expire := clock w + ttl_of expires_delta in
  create_access_token hmac_sha256 key data expires_delta w
  = (Return (jwt.Compact HS256_header (with_exp expire c)
               (hmac_sha256 (str_encode key) HS256_header (with_exp expire c))),
     set_heap (<[fresh (dom (heap w)) := <["exp" := Datetime expire]> (Json <$> c)]>
                 (heap w)) w).
Proof.
  intros Hdata Hiss Hrange expire.
  unfold create_access_token, mbind, M_bind, dict_copy.
  rewrite Hdata. cbn [datetime_now clock set_heap].
  unfold datetime_add. fold (ttl_of expires_delta). fold expire.
  rewrite bool_decide_eq_true_2 by done.
  cbn [mret M_ret]. unfold dict_update, dict_items. cbn [heap set_heap].
  rewrite !lookup_insert_eq. cbn [heap set_heap].
  rewrite lookup_insert_eq, insert_insert_eq.
  rewrite <- insert_union_singleton_l.
  unfold lift. by rewrite encode_claims.
Qed.

(** Verification never changes the world. *)
Lemma decode_access_token_world key t w :
  (decode_access_token hmac_sha256 int_of_str key t w).2 = w.
Proof.
  unfold decode_access_token, try_except, jwt.decode, mbind, M_bind, raise, lift,
    datetime_now, mret, M_ret.
  destruct t as [h p sig|raw]; [|done].
  repeat (match goal with |- context [if ?b then _ else _] => destruct b end;
          try done).
  destruct (jwt.validate_claims _ _ _) as [[]|[| [] | | | |]]; done.
Qed.

(** The checks that come before the expiration check pass when the claims
    have neither [iat] nor [nbf]. *)
Lemma validate_expired (c : gmap string json) expire now :
  absent "iat" c = true -> absent "nbf" c = true ->
  jwt.timegm expire * 1000000 <= now ->
  jwt.validate_claims int_of_str (with_exp expire c) now
  = Raise (JWTError ExpiredSignatureError).
Proof.
  intros Hiat%bool_decide_eq_true Hnbf%bool_decide_eq_true Hle.
  unfold jwt.validate_claims, jwt.validate_iat, jwt.validate_nbf,
    jwt.validate_exp, with_exp.
  rewrite !lookup_insert_ne, Hiat, Hnbf by done.
  rewrite lookup_insert_eq. cbn.
  by rewrite (proj2 (Z.leb_le _ _) Hle).
Qed.

Lemma validate_application_claims (c : gmap string json) expire now :
  application_claims c = true ->
  now < jwt.timegm expire * 1000000 ->
  jwt.validate_claims int_of_str (with_exp expire c) now = Return tt.
Proof.
  unfold application_claims, absent, str_if_present.
  rewrite !andb_true_iff, !bool_decide_eq_true.
  intros [[[[[[_ Hiat] Hnbf] Haud] _] Hsub] Hjti] Hlt.
  unfold jwt.validate_claims, jwt.validate_iat, jwt.validate_nbf,
    jwt.validate_exp, jwt.validate_aud, jwt.validate_str, with_exp.
  rewrite (lookup_insert_ne _ "exp" "iat"), (lookup_insert_ne _ "exp" "nbf"),
    (lookup_insert_ne _ "exp" "aud"), (lookup_insert_ne _ "exp" "sub"),
    (lookup_insert_ne _ "exp" "jti"), Hiat, Hnbf, Haud by done.
  rewrite lookup_insert_eq. cbn.
  rewrite (proj2 (Z.leb_gt _ _) Hlt). cbn.
  destruct (c !! "sub") as [v|]; [rewrite Hsub|]; cbn;
    (destruct (c !! "jti") as [v'|]; [rewrite Hjti|]); done.
Qed.

Lemma decode_own_signature key (p : gmap string json) w :
  decode_access_token hmac_sha256 int_of_str key
    (jwt.Compact HS256_header p (hmac_sha256 (str_encode key) HS256_header p)) w
  = match jwt.validate_claims int_of_str p (clock w) with
    | Return _ => (Return p, w)
    | Raise (JWTError ExpiredSignatureError) =>
        (Raise (HTTPException 401 "Token has expired"), w)
    | Raise (JWTError _) => (Raise (HTTPException 401 "Invalid token"), w)
    | Raise e => (Raise e, w)
    end.
Proof.
  unfold decode_access_token, try_except, jwt.decode, mbind, M_bind, raise, lift,
    datetime_now, mret, M_ret.
  cbn [jwt.nonempty_algorithms negb jwt.alg HS256_header].
  rewrite bool_decide_eq_true_2 by (apply list_elem_of_singleton; done).
  cbn [negb]. replace (String.eqb ALGORITHM "HS256") with true by done.
  cbn [negb]. rewrite bool_decide_eq_true_2 by done. cbn [negb].
  destruct (jwt.validate_claims _ _ _) as [[]|[| [] | | | |]]; done.
Qed.


End TokenFacts.


Lemma timegm_after now t : 1000000 <= t -> now < jwt.timegm (now + t) * 1000000.
Proof.
  intros Ht. unfold jwt.timegm.
  pose proof (Z.div_mod (now + t) 1000000 ltac:(lia)).
  pose proof (Z.mod_pos_bound (now + t) 1000000 ltac:(lia)). lia.
Qed.

Lemma timegm_before expire now : expire < now -> jwt.timegm expire * 1000000 <= now.
Proof.
  intros Hlt. unfold jwt.timegm.
  pose proof (Z.div_mod expire 1000000 ltac:(lia)).
  pose proof (Z.mod_pos_bound expire 1000000 ltac:(lia)). lia.
Qed.


Lemma application_claims_iss c :
  application_claims c = true -> str_if_present "iss" c = true.
Proof. unfold application_claims. rewrite !andb_true_iff. tauto. Qed.


Section TokenService.

Variable hmac_sha256 : bytes -> jwt.jose_header -> gmap string json -> bytes.
Variable int_of_str : string -> option Z.


(** C5, as amended.  Let [t] be the time to live in force: the
    [expires_delta] passed to [create_access_token] when that is not zero,
    and the default of 24 hours when it is zero or absent.  For every claim
    set without [iat] and [nbf] claims of its own (and whose [iss], if any,
    is a string), the token issued at [issued_at] is refused at every
    instant strictly after [issued_at + t] with the expired-token failure,
    status 401. *)
Theorem verify_after_expiry (key : string) (c : gmap string json) (data : loc)
    (expires_delta : option Z) (w : world) (later : Z) :
  heap w !! data = Some (Json <$> c) ->
  str_if_present "iss" c = true ->
  absent "iat" c = true ->
  absent "nbf" c = true ->
  in_datetime_range (clock w + ttl_of expires_delta) ->
  clock w + ttl_of expires_delta < later ->
  ∃ tok w1,
    create_access_token hmac_sha256 key data expires_delta w = (Return tok, w1)
    ∧ decode_access_token hmac_sha256 int_of_str key tok (set_clock later w1)
      = (Raise (HTTPException 401 "Token has expired"), set_clock later w1).
Proof.
  intros Hdata Hiss Hiat Hnbf Hrange Hlater.
  eexists _, _. split; [by apply create_access_token_run|].
  rewrite decode_own_signature. cbn [clock set_clock].
  rewrite validate_expired; [done..|by apply timegm_before].
Qed.

(** C10. [create_access_token] leaves the caller's dictionary as it was: the
    dictionary [data] refers to holds the same items after the call as
    before, whatever the call returns or raises, and so does every other
    dictionary that existed before the call. *)
Theorem create_access_token_keeps_data (key : string) (data : loc)
    (expires_delta : option Z) (w : world) :
  let w' := (create_access_token hmac_sha256 key data expires_delta w).2 in
  heap w' !! data = heap w !! data ∧ heap w ⊆ heap w'.
Proof.
  assert (heap w ⊆ heap (create_access_token hmac_sha256 key data expires_delta w).2)
    as Hsub.
  { unfold create_access_token, mbind, M_bind, dict_copy.
    destruct (heap w !! data) as [items|] eqn:Hdata; [|done].
    pose proof (is_fresh (dom (heap w))) as Hfresh%not_elem_of_dom.
    set (l := fresh (dom (heap w))) in *.
    cbn [datetime_now]. unfold datetime_add.
    case_bool_decide; cbn [mret M_ret raise snd set_heap heap].
    2: by apply insert_subseteq.
    unfold dict_update, dict_items. cbn [heap set_heap].
    rewrite !lookup_insert_eq. cbn [heap set_heap].
    rewrite lookup_insert_eq, insert_insert_eq. unfold lift. cbn [snd heap set_heap].
    by apply insert_subseteq. }
  split; [|done]. cbv zeta.
  destruct (heap w !! data) as [items|] eqn:Hdata.
  - by apply (lookup_weaken _ _ _ _ Hdata).
  - unfold create_access_token, mbind, M_bind, dict_copy. by rewrite Hdata.
Qed.

End TokenService.

Section SigningKeys.

Variable hmac_sha256 : bytes -> jwt.jose_header -> gmap string json -> bytes.
Variable int_of_str : string -> option Z.

(** HS256 binds the key: a signature made under one key is not the
    signature of the same content under another key. *)
Hypothesis hmac_binds_key :
  ∀ k1 k2 header claims,
    hmac_sha256 k1 header claims = hmac_sha256 k2 header claims -> k1 = k2.


End SigningKeys.

(** ** Identity resolution and the role guard *)

Section Identity.

Variable hmac_sha256 : bytes -> jwt.jose_header -> gmap string json -> bytes.
Variable int_of_str : string -> option Z.
Variable SECRET_KEY : string.

Implicit Types (creds : HTTPAuthorizationCredentials) (w : world).

Lemma get_current_user_refused creds w e w1 :
  decode_access_token hmac_sha256 int_of_str SECRET_KEY
        (credentials creds) w = (Raise e, w1) ->
  get_current_user hmac_sha256 int_of_str SECRET_KEY creds w = (Raise e, w1).
Proof.
  intros H. unfold get_current_user, mbind, M_bind. by rewrite H.
Qed.

Lemma get_current_user_falsy creds w p w1 :
  decode_access_token hmac_sha256 int_of_str SECRET_KEY
        (credentials creds) w = (Return p, w1) ->
  truthy (default JNull (p !! "sub")) = false ->
  get_current_user hmac_sha256 int_of_str SECRET_KEY creds w
  = (Raise (HTTPException 401 "Invalid token payload"), w1).
Proof.
  intros H Hsub. unfold get_current_user, mbind, M_bind.
  by rewrite H, Hsub.
Qed.

Lemma get_current_user_lookup creds w p w1 name :
  decode_access_token hmac_sha256 int_of_str SECRET_KEY
        (credentials creds) w = (Return p, w1) ->
  p !! "sub" = Some (JStr name) -> name ≠ "" ->
  get_current_user hmac_sha256 int_of_str SECRET_KEY creds w
  = (match List.find (fun u => bool_decide (JStr (username u) = JStr name))
             (users w1) with
     | Some u => Return u
     | None => Raise (HTTPException 401 "User not found")
     end,
     set_queries (JStr name :: queries w1) w1).
Proof.
  intros H Hsub Hname. unfold get_current_user, mbind, M_bind.
  rewrite H, Hsub. cbv [default from_option Datatypes.id]. cbn [truthy].
  destruct (String.eqb_spec name ""); [done|]. cbn [negb].
  unfold find_one_by_username.
  by destruct (List.find _ _).
Qed.

(** C8. [get_current_user] first verifies the token, and a token that does
    not verify is refused with the failure of the verification; a verified
    token without subject claim is refused with the missing-subject failure
    (401, "Invalid token payload"); otherwise the store is searched for the
    subject as username, and the request is refused with the unknown-user
    failure (401, "User not found") when no document matches, and answered
    with the first matching document as it is persisted, role included,
    when one does. *)
Theorem get_current_user_stages (creds : HTTPAuthorizationCredentials)
    (w : world) :
  (∀ e w1,
      decode_access_token hmac_sha256 int_of_str SECRET_KEY
        (credentials creds) w = (Raise e, w1) ->
      get_current_user hmac_sha256 int_of_str SECRET_KEY creds w = (Raise e, w1))
  ∧ (∀ p w1,
      decode_access_token hmac_sha256 int_of_str SECRET_KEY
        (credentials creds) w = (Return p, w1) ->
      p !! "sub" = None ->
      get_current_user hmac_sha256 int_of_str SECRET_KEY creds w
      = (Raise (HTTPException 401 "Invalid token payload"), w1))
  ∧ (∀ p w1 name,
      decode_access_token hmac_sha256 int_of_str SECRET_KEY
        (credentials creds) w = (Return p, w1) ->
      p !! "sub" = Some (JStr name) -> name ≠ "" ->
      (∀ u, u ∈ users w -> username u ≠ name) ->
      get_current_user hmac_sha256 int_of_str SECRET_KEY creds w
      = (Raise (HTTPException 401 "User not found"),
         set_queries (JStr name :: queries w1) w1))
  ∧ (∀ p w1 name before u after,
      decode_access_token hmac_sha256 int_of_str SECRET_KEY
        (credentials creds) w = (Return p, w1) ->
      p !! "sub" = Some (JStr name) -> name ≠ "" ->
      users w = before ++ u :: after ->
      username u = name ->
      (∀ u', u' ∈ before -> username u' ≠ name) ->
      get_current_user hmac_sha256 int_of_str SECRET_KEY creds w
      = (Return u, set_queries (JStr name :: queries w1) w1)).
Proof.
  split; [|split; [|split]].
  - intros e w1 H. by apply get_current_user_refused.
  - intros p w1 H Hsub. apply (get_current_user_falsy _ _ _ _ H).
    by rewrite Hsub.
  - intros p w1 name H Hsub Hname Hnone.
    rewrite (get_current_user_lookup _ _ _ _ _ H Hsub Hname).
    pose proof (decode_access_token_world hmac_sha256 int_of_str SECRET_KEY
                  (credentials creds) w) as Hw.
    rewrite H in Hw. cbn in Hw. subst w1.
    destruct (List.find _ _) as [u|] eqn:Hfind; [|done].
    apply find_some in Hfind as [Hin Heq].
    apply bool_decide_eq_true in Heq.
    destruct (Hnone u); [by apply list_elem_of_In|congruence].
  - intros p w1 name before u after H Hsub Hname Husers Hu Hbefore.
    rewrite (get_current_user_lookup _ _ _ _ _ H Hsub Hname).
    pose proof (decode_access_token_world hmac_sha256 int_of_str SECRET_KEY
                  (credentials creds) w) as Hw.
    rewrite H in Hw. cbn in Hw. subst w1. rewrite Husers.
    clear Husers H. induction before as [|u' before IH]; cbn [app List.find].
    + by rewrite bool_decide_eq_true_2 by congruence.
    + rewrite bool_decide_eq_false_2.
      * apply IH. intros u'' Hin. apply Hbefore. by right.
      * intros [= Heq]. by apply (Hbefore u'); [left|].
Qed.

(** C9. A verified token whose subject claim is the empty string is
    refused like a token without subject claim: with status 401 and
    "Invalid token payload", and without any query to the store. *)
Theorem empty_subject_is_missing (creds : HTTPAuthorizationCredentials)
    (w : world) (p : gmap string json) (w1 : world) :
  decode_access_token hmac_sha256 int_of_str SECRET_KEY
        (credentials creds) w = (Return p, w1) ->
  p !! "sub" = Some (JStr "") ->
  get_current_user hmac_sha256 int_of_str SECRET_KEY creds w
  = (Raise (HTTPException 401 "Invalid token payload"), w)
  ∧ queries (get_current_user hmac_sha256 int_of_str SECRET_KEY creds w).2 = queries w
  ∧ ∀ creds' p' w1',
      decode_access_token hmac_sha256 int_of_str SECRET_KEY
        (credentials creds') w = (Return p', w1') ->
      p' !! "sub" = None ->
      get_current_user hmac_sha256 int_of_str SECRET_KEY creds' w = get_current_user hmac_sha256 int_of_str SECRET_KEY creds w.
Proof.
  intros H Hsub.
  assert (∀ cr q v, decode_access_token hmac_sha256 int_of_str SECRET_KEY
        (credentials cr) w = (Return q, v) ->
                    v = w) as Hworld.
  { intros cr q v Hd.
    pose proof (decode_access_token_world hmac_sha256 int_of_str SECRET_KEY
                  (credentials cr) w) as Hw.
    by rewrite Hd in Hw. }
  assert (get_current_user hmac_sha256 int_of_str SECRET_KEY creds w
          = (Raise (HTTPException 401 "Invalid token payload"), w)) as Hrun.
  { rewrite (get_current_user_falsy _ _ _ _ H) by (by rewrite Hsub).
    by rewrite (Hworld _ _ _ H). }
  split; [done|]. split; [by rewrite Hrun|].
  intros creds' p' w1' H' Hsub'. rewrite Hrun.
  rewrite (get_current_user_falsy _ _ _ _ H') by (by rewrite Hsub').
  by rewrite (Hworld _ _ _ H').
Qed.

Lemma require_role_run allowed creds w u w1 :
  get_current_user hmac_sha256 int_of_str SECRET_KEY creds w = (Return u, w1) ->
  require_role hmac_sha256 int_of_str SECRET_KEY allowed creds w
  = (if bool_decide (role u ∈ allowed) then Return u
     else Raise (access_denied allowed), w1).
Proof.
  intros H. unfold require_role, mbind, M_bind. rewrite H.
  case_bool_decide; [by rewrite bool_decide_eq_false_2 by tauto|].
  by rewrite bool_decide_eq_true_2.
Qed.

(** C1. For every user that [get_current_user] resolves and every
    allow-list, the guard [require_role allowed_roles] raises the 403
    failure whose detail lists the allowed roles when the user's role is
    not in the list, and returns the user's record otherwise; so
    [require_role ADMIN] refuses a manager and lets an administrator
    through. *)
Theorem require_role_guard (allowed_roles : list UserRole)
    (creds : HTTPAuthorizationCredentials) (w : world) (u : User) (w1 : world) :
  get_current_user hmac_sha256 int_of_str SECRET_KEY creds w = (Return u, w1) ->
  (role u ∉ allowed_roles ->
     require_role hmac_sha256 int_of_str SECRET_KEY allowed_roles creds w
     = (Raise (HTTPException 403
                 ("Access denied. Required roles: "
                    +:+ repr_list (models.value <$> allowed_roles))), w1))
  ∧ (role u ∈ allowed_roles ->
     require_role hmac_sha256 int_of_str SECRET_KEY allowed_roles creds w
     = (Return u, w1))
  ∧ (role u = MANAGER ->
     require_role hmac_sha256 int_of_str SECRET_KEY [ADMIN] creds w
     = (Raise (HTTPException 403 "Access denied. Required roles: ['admin']"),
        w1))
  ∧ (role u = ADMIN ->
     require_role hmac_sha256 int_of_str SECRET_KEY [ADMIN] creds w
     = (Return u, w1)).
Proof.
  intros H. split; [|split; [|split]].
  - intros Hnot. rewrite (require_role_run _ _ _ _ _ H).
    by rewrite bool_decide_eq_false_2.
  - intros Hin. rewrite (require_role_run _ _ _ _ _ H).
    by rewrite bool_decide_eq_true_2.
  - intros Hrole. by rewrite (require_role_run _ _ _ _ _ H), Hrole.
  - intros Hrole. by rewrite (require_role_run _ _ _ _ _ H), Hrole.
Qed.

(** C3, as amended.  The guard decides on the role the store holds when the
    request is made, not on the role at issuance: for a token issued for any
    claim set of the application with subject [name] (whatever its [role]
    claim says), presented before it expires, and for any content of the
    store at that moment in which [u] is the document found for [name], the
    guard returns [u] when [role u] is in the allow-list and raises the 403
    failure when it is not. *)
Theorem guard_follows_store_role (c : gmap string json) (data : loc)
    (expires_delta : option Z) (w : world) (later : Z) (store : list User)
    (name : string) (u : User) (allowed_roles : list UserRole) :
  heap w !! data = Some (Json <$> c) ->
  application_claims c = true ->
  in_datetime_range (clock w + ttl_of expires_delta) ->
  c !! "sub" = Some (JStr name) -> name ≠ "" ->
  later < jwt.timegm (clock w + ttl_of expires_delta) * 1000000 ->
  stored_user name store = Some u ->
  ∃ tok w1,
    create_access_token hmac_sha256 SECRET_KEY data expires_delta w
    = (Return tok, w1)
    ∧ let request := set_users store (set_clock later w1) in
      require_role hmac_sha256 int_of_str SECRET_KEY allowed_roles (bearer tok)
        request
      = (if bool_decide (role u ∈ allowed_roles) then Return u
         else Raise (HTTPException 403
                       ("Access denied. Required roles: "
                          +:+ repr_list (models.value <$> allowed_roles))),
         set_queries (JStr name :: queries request) request).
Proof.
  intros Hdata Hc Hrange Hsub Hname Hlater Hstore.
  eexists _, _. split.
  { apply create_access_token_run; [done|by apply application_claims_iss|done]. }
  cbv zeta. apply require_role_run.
  set (request := set_users store (set_clock later _)).
  set (p := with_exp (clock w + ttl_of expires_delta) c).
  assert (decode_access_token hmac_sha256 int_of_str SECRET_KEY
            (credentials (bearer (jwt.Compact HS256_header p
               (hmac_sha256 (str_encode SECRET_KEY) HS256_header p)))) request
          = (Return p, request)) as Hverified.
  { cbn [bearer credentials]. rewrite decode_own_signature.
    subst request p. cbn [clock set_users set_clock set_heap].
    by rewrite validate_application_claims. }
  rewrite (get_current_user_lookup _ _ _ _ name Hverified); [|..|exact Hname].
  - subst request. cbn [users set_users].
    unfold stored_user in Hstore. by rewrite Hstore.
  - subst p. unfold with_exp. by rewrite lookup_insert_ne.
Qed.

End Identity.

(** ** Verification of a password against an arbitrary string *)

(** C4, as amended.  For every secret [s] and every string [h] that reads
    as a bcrypt hash (a version, a cost between 4 and 31 and 22 characters
    of salt), [verify_password s h] returns a boolean without raising: true
    exactly when hashing [s] with the version, cost and salt read from [h]
    gives [h] again, and false on any mismatch.  For a string [h] that does
    not read as a bcrypt hash it raises [ValueError] ("Invalid salt"). *)
Theorem verify_password_answers (eks_blowfish : N -> bytes -> bytes -> bytes)
    (s h : string) (w : world) :
  (∀ p, bcrypt.parse_salt (str_encode h) = Some p ->
     ∃ b : bool,
       verify_password eks_blowfish s h w = (Return b, w)
       ∧ (b = true
          <-> bcrypt.format_hash eks_blowfish p (take 72 (str_encode s))
              = str_encode h))
  ∧ (bcrypt.parse_salt (str_encode h) = None ->
     verify_password eks_blowfish s h w = (Raise (ValueError "Invalid salt"), w)).
Proof.
  unfold verify_password, lift, bcrypt.checkpw, bcrypt.hashpw. split.
  - intros p ->. eexists. split; [reflexivity|].
    apply bool_decide_eq_true.
  - by intros ->.
Qed.

(** ** Runs of the code on the sample process *)


Lemma verify_password_answers_witness :
  (∃ b : bool,
      verify_password Sample.eks_blowfish "s3cret"
        "$2b$12$......................" (Sample.process ∅ ADMIN)
      = (Return b, Sample.process ∅ ADMIN)
      ∧ (b = true
         <-> bcrypt.format_hash Sample.eks_blowfish
               (bcrypt.SaltParams (str_encode "2b") 12 (replicate 16 "000"%char))
               (take 72 (str_encode "s3cret"))
             = str_encode "$2b$12$......................"))
  ∧ verify_password Sample.eks_blowfish "s3cret" "not-a-bcrypt-hash"
      (Sample.process ∅ ADMIN)
    = (Raise (ValueError "Invalid salt"), Sample.process ∅ ADMIN).
Proof.
  split.
  - apply (proj1 (verify_password_answers Sample.eks_blowfish "s3cret"
                    "$2b$12$......................" (Sample.process ∅ ADMIN))).
    vm_compute. reflexivity.
  - apply (proj2 (verify_password_answers Sample.eks_blowfish "s3cret"
                    "not-a-bcrypt-hash" (Sample.process ∅ ADMIN))).
    vm_compute. reflexivity.
Defined.

(** C4, as stated, fails: a string that is not a bcrypt hash makes
    [verify_password] raise instead of answering false. *)
Lemma verify_password_malformed_raises :
  verify_password Sample.eks_blowfish "s3cret" "not-a-bcrypt-hash"
    (Sample.process ∅ ADMIN)
  = (Raise (ValueError "Invalid salt"), Sample.process ∅ ADMIN)
  ∧ (verify_password Sample.eks_blowfish "s3cret" "not-a-bcrypt-hash"
       (Sample.process ∅ ADMIN)).1 ≠ Return false.
Proof. split; vm_compute; [reflexivity|discriminate]. Qed.



Lemma verify_after_expiry_witness :
  let c := Sample.login_claims (Sample.alice MANAGER) in
  let w := Sample.process c MANAGER in
  ∃ tok w1,
    create_access_token Sample.hmac_sha256 Sample.SECRET_KEY 1%positive
      (Some 60000000) w = (Return tok, w1)
    ∧ decode_access_token Sample.hmac_sha256 Sample.int_of_str Sample.SECRET_KEY
        tok (set_clock (clock w + 60000001) w1)
      = (Raise (HTTPException 401 "Token has expired"),
         set_clock (clock w + 60000001) w1).
Proof.
  apply (verify_after_expiry Sample.hmac_sha256 Sample.int_of_str
           Sample.SECRET_KEY (Sample.login_claims (Sample.alice MANAGER))
           1%positive (Some 60000000)
           (Sample.process (Sample.login_claims (Sample.alice MANAGER)) MANAGER)).
  - vm_compute. reflexivity.
  - vm_compute. reflexivity.
  - vm_compute. reflexivity.
  - vm_compute. reflexivity.
  - unfold in_datetime_range. vm_compute. split; discriminate.
  - vm_compute. reflexivity.
Defined.

(** C5, as stated, fails in two ways: a time to live of zero counts as
    absent, so the token lives for the default 24 hours and is accepted one
    second after it was issued; and a token whose claims carry an [nbf] in
    the future is refused after its expiry as invalid, not as expired. *)
Lemma verify_after_expiry_counterexample :
  (let c := Sample.login_claims (Sample.alice MANAGER) in
   ∃ tok w1 p,
     Sample.issue c MANAGER (Some 0) = (Return tok, w1)
     ∧ decode_access_token Sample.hmac_sha256 Sample.int_of_str
         Sample.SECRET_KEY tok (set_clock (clock w1 + 0 + 1000000) w1)
       = (Return p, set_clock (clock w1 + 0 + 1000000) w1))
  ∧ (let c : gmap string json :=
       {[ "sub" := JStr "alice"; "nbf" := JInt 1800000000 ]} in
     ∃ tok w1,
       Sample.issue c MANAGER (Some 60000000) = (Return tok, w1)
       ∧ decode_access_token Sample.hmac_sha256 Sample.int_of_str
           Sample.SECRET_KEY tok (set_clock (clock w1 + 60000000 + 1) w1)
         = (Raise (HTTPException 401 "Invalid token"),
            set_clock (clock w1 + 60000000 + 1) w1)).
Proof.
  split; cbv zeta.
  - eexists _, _, _. split; vm_compute; reflexivity.
  - eexists _, _. split; vm_compute; reflexivity.
Qed.


Lemma get_current_user_stages_witness :
  let run (t : jwt.token) : outcome User :=
    (get_current_user Sample.hmac_sha256 Sample.int_of_str Sample.SECRET_KEY
       (bearer t) (Sample.process ∅ MANAGER)).1 in
  run (jwt.Undecodable "garbage") = Raise (HTTPException 401 "Invalid token")
  ∧ run (Sample.issued_token {[ "role" := JStr "manager" ]} None)
    = Raise (HTTPException 401 "Invalid token payload")
  ∧ run (Sample.issued_token {[ "sub" := JStr "bob" ]} None)
    = Raise (HTTPException 401 "User not found")
  ∧ run (Sample.issued_token (Sample.login_claims (Sample.alice MANAGER)) None)
    = Return (Sample.alice MANAGER).
Proof.
  cbv zeta. split; [|split; [|split]].
  - erewrite (proj1 (get_current_user_stages Sample.hmac_sha256
                       Sample.int_of_str Sample.SECRET_KEY
                       (bearer (jwt.Undecodable "garbage"))
                       (Sample.process ∅ MANAGER)));
      [reflexivity|vm_compute; reflexivity].
  - erewrite (proj1 (proj2 (get_current_user_stages Sample.hmac_sha256
                       Sample.int_of_str Sample.SECRET_KEY
                       (bearer (Sample.issued_token {[ "role" := JStr "manager" ]} None))
                       (Sample.process ∅ MANAGER))));
      [reflexivity|vm_compute; reflexivity|vm_compute; reflexivity].
  - erewrite (proj1 (proj2 (proj2 (get_current_user_stages Sample.hmac_sha256
                       Sample.int_of_str Sample.SECRET_KEY
                       (bearer (Sample.issued_token {[ "sub" := JStr "bob" ]} None))
                       (Sample.process ∅ MANAGER)))) _ _ "bob");
      [reflexivity|vm_compute; reflexivity|vm_compute; reflexivity|discriminate|].
    intros u Hu. apply list_elem_of_singleton in Hu as ->. discriminate.
  - erewrite (proj2 (proj2 (proj2 (get_current_user_stages Sample.hmac_sha256
                       Sample.int_of_str Sample.SECRET_KEY
                       (bearer (Sample.issued_token
                                  (Sample.login_claims (Sample.alice MANAGER)) None))
                       (Sample.process ∅ MANAGER)))) _ _ "alice" []
                (Sample.alice MANAGER) []);
      [reflexivity|vm_compute; reflexivity|vm_compute; reflexivity|discriminate
      |reflexivity|reflexivity|].
    intros u Hu. by apply elem_of_nil in Hu.
Defined.

Lemma empty_subject_is_missing_witness :
  let creds := bearer (Sample.issued_token {[ "sub" := JStr "" ]} None) in
  let w := Sample.process ∅ MANAGER in
  get_current_user Sample.hmac_sha256 Sample.int_of_str Sample.SECRET_KEY creds w
  = (Raise (HTTPException 401 "Invalid token payload"), w)
  ∧ queries (get_current_user Sample.hmac_sha256 Sample.int_of_str
               Sample.SECRET_KEY creds w).2 = queries w.
Proof.
  cbv zeta.
  destruct (empty_subject_is_missing Sample.hmac_sha256 Sample.int_of_str
              Sample.SECRET_KEY
              (bearer (Sample.issued_token {[ "sub" := JStr "" ]} None))
              (Sample.process ∅ MANAGER)
              (with_exp (1762000000200000 + 86400000000) {[ "sub" := JStr "" ]})
              (Sample.process ∅ MANAGER))
    as (Hrun & Hqueries & _).
  - vm_compute. reflexivity.
  - vm_compute. reflexivity.
  - split; [exact Hrun|exact Hqueries].
Defined.

Lemma require_role_guard_witness :
  let token := Sample.issued_token (Sample.login_claims (Sample.alice ADMIN)) None in
  let guard (allowed_roles : list UserRole) (r : UserRole) : outcome User :=
    (require_role Sample.hmac_sha256 Sample.int_of_str Sample.SECRET_KEY
       allowed_roles (bearer token) (Sample.process ∅ r)).1 in
  guard [ADMIN] MANAGER
  = Raise (HTTPException 403 "Access denied. Required roles: ['admin']")
  ∧ guard [ADMIN] ADMIN = Return (Sample.alice ADMIN)
  ∧ guard [ADMIN; MANAGER] MANAGER = Return (Sample.alice MANAGER)
  ∧ guard [ADMIN; MANAGER] SALESPERSON
    = Raise (HTTPException 403
               "Access denied. Required roles: ['admin', 'manager']").
Proof.
  cbv zeta.
  assert (∀ r,
    get_current_user Sample.hmac_sha256 Sample.int_of_str Sample.SECRET_KEY
      (bearer (Sample.issued_token (Sample.login_claims (Sample.alice ADMIN)) None))
      (Sample.process ∅ r)
    = (Return (Sample.alice r),
       set_queries [JStr "alice"] (Sample.process ∅ r))) as Hresolved
    by (intros []; vm_compute; reflexivity).
  pose proof (fun allowed r =>
    require_role_guard Sample.hmac_sha256 Sample.int_of_str Sample.SECRET_KEY
      allowed _ _ _ _ (Hresolved r)) as Hguard.
  split; [|split; [|split]].
  - destruct (Hguard [ADMIN] MANAGER) as (_ & _ & Hmanager & _).
    by rewrite Hmanager.
  - destruct (Hguard [ADMIN] ADMIN) as (_ & _ & _ & Hadmin).
    by rewrite Hadmin.
  - destruct (Hguard [ADMIN; MANAGER] MANAGER) as (_ & Hin & _ & _).
    rewrite Hin; [done|]. cbn. right. left.
  - destruct (Hguard [ADMIN; MANAGER] SALESPERSON) as (Hnot & _ & _ & _).
    rewrite Hnot; [done|]. cbn. intros Hin.
    repeat (apply elem_of_cons in Hin as [?|Hin]; [discriminate|]).
    by apply elem_of_nil in Hin.
Defined.

Lemma guard_follows_store_role_witness :
  let c := Sample.login_claims (Sample.alice ADMIN) in
  let w := Sample.process c ADMIN in
  ∃ tok w1,
    create_access_token Sample.hmac_sha256 Sample.SECRET_KEY 1%positive None w
    = (Return tok, w1)
    ∧ let request :=
        set_users [Sample.alice SALESPERSON] (set_clock (clock w + 1000000) w1) in
      require_role Sample.hmac_sha256 Sample.int_of_str Sample.SECRET_KEY [ADMIN]
        (bearer tok) request
      = (if bool_decide (role (Sample.alice SALESPERSON) ∈ [ADMIN])
         then Return (Sample.alice SALESPERSON)
         else Raise (HTTPException 403
                       ("Access denied. Required roles: "
                          +:+ repr_list (models.value <$> [ADMIN]))),
         set_queries (JStr "alice" :: queries request) request).
Proof.
  apply (guard_follows_store_role Sample.hmac_sha256 Sample.int_of_str
           Sample.SECRET_KEY (Sample.login_claims (Sample.alice ADMIN))
           1%positive None
           (Sample.process (Sample.login_claims (Sample.alice ADMIN)) ADMIN)
           (clock (Sample.process (Sample.login_claims (Sample.alice ADMIN)) ADMIN)
            + 1000000)
           [Sample.alice SALESPERSON] "alice" (Sample.alice SALESPERSON) [ADMIN]).
  - vm_compute. reflexivity.
  - vm_compute. reflexivity.
  - unfold in_datetime_range. vm_compute. split; discriminate.
  - vm_compute. reflexivity.
  - discriminate.
  - vm_compute. reflexivity.
  - vm_compute. reflexivity.
Defined.

(** C3, as stated, fails: alice is an administrator when her token is
    issued, and salesperson in the store one second later; the token still
    verifies and still says "admin", yet the guard for administrators, which
    would admit her on the role at issuance, refuses the request. *)
Lemma stale_role_counterexample :
  let c := Sample.login_claims (Sample.alice ADMIN) in
  ∃ tok w1,
    Sample.issue c ADMIN None = (Return tok, w1)
    ∧ users w1 = [Sample.alice ADMIN]
    ∧ let request :=
        set_users [Sample.alice SALESPERSON] (set_clock (clock w1 + 1000000) w1) in
      (∃ p, (decode_access_token Sample.hmac_sha256 Sample.int_of_str
               Sample.SECRET_KEY tok request).1 = Return p
            ∧ p !! "role" = Some (JStr "admin"))
      ∧ (require_role Sample.hmac_sha256 Sample.int_of_str Sample.SECRET_KEY
           [ADMIN] (bearer tok) request).1
        = Raise (HTTPException 403 "Access denied. Required roles: ['admin']").
Proof.
  cbv zeta. eexists _, _. split; [vm_compute; reflexivity|].
  split; [vm_compute; reflexivity|]. split.
  - eexists. split; vm_compute; reflexivity.
  - vm_compute. reflexivity.
Qed.

(** * Further properties of auth.py *)

Section VerificationFacts.

Variable hmac_sha256 : bytes -> jwt.jose_header -> gmap string json -> bytes.
Variable int_of_str : string -> option Z.
Variable SECRET_KEY : string.

Implicit Types (creds : HTTPAuthorizationCredentials) (w : world).

Lemma validate_exp_passed (p : gmap string json) now e :
  jwt.validate_claims int_of_str p now = Return tt ->
  p !! "exp" = Some (JInt e) -> now < e * 1000000.
Proof.
  unfold jwt.validate_claims, jwt.and_then. intros H Hexp.
  destruct (jwt.validate_iat _ _ _); [|done].
  destruct (jwt.validate_nbf _ _ _); [|done].
  destruct (jwt.validate_exp _ _ _) eqn:E; [|done].
  unfold jwt.validate_exp in E. rewrite Hexp in E. cbn in E.
  destruct (Z.leb_spec (e * 1000000) now); [done|lia].
Qed.

Lemma validate_sub_str (p : gmap string json) now v :
  jwt.validate_claims int_of_str p now = Return tt ->
  p !! "sub" = Some v -> ∃ name, v = JStr name.
Proof.
  unfold jwt.validate_claims, jwt.and_then. intros H Hsub.
  destruct (jwt.validate_iat _ _ _); [|done].
  destruct (jwt.validate_nbf _ _ _); [|done].
  destruct (jwt.validate_exp _ _ _); [|done].
  destruct (jwt.validate_aud _); [|done].
  destruct (jwt.validate_str "sub" _ _) eqn:E; [|done].
  unfold jwt.validate_str in E. rewrite Hsub in E.
  destruct v; try done. by eexists.
Qed.

(** What an accepted token is. *)
Lemma decode_access_token_inv t w p w' :
  decode_access_token hmac_sha256 int_of_str SECRET_KEY t w = (Return p, w') ->
  w' = w
  ∧ jwt.validate_claims int_of_str p (clock w) = Return tt
  ∧ ∃ header,
      jwt.alg header = "HS256"
      ∧ t = jwt.Compact header p
              (hmac_sha256 (str_encode SECRET_KEY) header p).
Proof.
  unfold decode_access_token, try_except, jwt.decode, mbind, M_bind, raise, lift,
    datetime_now, mret, M_ret.
  destruct t as [h q sig|raw]; [|done].
  cbn [jwt.nonempty_algorithms negb].
  case_bool_decide as Halg; cbn [negb]; [|done].
  destruct (String.eqb_spec (jwt.alg h) "HS256") as [Hhs|]; cbn [negb]; [|done].
  case_bool_decide as Hsig; cbn [negb]; [|done].
  destruct (jwt.validate_claims int_of_str q (clock w)) as [[]|e] eqn:Hv.
  - intros [= <- <-]. split; [done|]. split; [done|].
    exists h. by rewrite Hsig.
  - by destruct e as [| [] | | | |].
Qed.

(** X1. [decode_access_token] accepts a token only if it names HS256, its
    signature is the HMAC of its header and claims under [SECRET_KEY], and
    an integer [exp] among its claims lies strictly after the clock; it
    then returns the claims of the token and changes nothing. *)
Theorem accepted_token_is_signed_and_current (t : jwt.token) (w : world)
    (p : gmap string json) (w' : world) :
  decode_access_token hmac_sha256 int_of_str SECRET_KEY t w = (Return p, w') ->
  w' = w
  ∧ (∃ header,
       jwt.alg header = "HS256"
       ∧ t = jwt.Compact header p
               (hmac_sha256 (str_encode SECRET_KEY) header p))
  ∧ (∀ e, p !! "exp" = Some (JInt e) -> clock w < e * 1000000).
Proof.
  intros (-> & Hv & Hsigned)%decode_access_token_inv.
  split; [done|]. split; [done|].
  intros e He. by eapply validate_exp_passed.
Qed.

(** X2. A token whose header names any algorithm other than HS256 is
    refused with 401 "Invalid token", whatever its claims, its signature
    and the instant; so is a string that is not a token at all. *)
Theorem other_algorithms_are_refused (header : jwt.jose_header)
    (p : gmap string json) (signature : bytes) (raw : string) (w : world) :
  jwt.alg header ≠ "HS256" ->
  decode_access_token hmac_sha256 int_of_str SECRET_KEY
    (jwt.Compact header p signature) w
  = (Raise (HTTPException 401 "Invalid token"), w)
  ∧ decode_access_token hmac_sha256 int_of_str SECRET_KEY
      (jwt.Undecodable raw) w
    = (Raise (HTTPException 401 "Invalid token"), w).
Proof.
  intros Halg. split; [|done].
  unfold decode_access_token, try_except, jwt.decode, mbind, M_bind, raise.
  cbn [jwt.nonempty_algorithms negb].
  rewrite bool_decide_eq_false_2; [done|].
  intros Hin%list_elem_of_singleton. done.
Qed.

(** X3. A token without [exp] never expires: when its claims are claims of
    the application (in particular without [exp]) and it is signed under
    [SECRET_KEY], [decode_access_token] accepts it at every instant. *)
Theorem token_without_exp_never_expires (p : gmap string json) (w : world)
    (instant : Z) :
  application_claims p = true ->
  decode_access_token hmac_sha256 int_of_str SECRET_KEY
    (jwt.Compact HS256_header p
       (hmac_sha256 (str_encode SECRET_KEY) HS256_header p))
    (set_clock instant w)
  = (Return p, set_clock instant w).
Proof.
  unfold application_claims, absent, str_if_present.
  rewrite !andb_true_iff, !bool_decide_eq_true.
  intros [[[[[[Hexp Hiat] Hnbf] Haud] _] Hsub] Hjti].
  rewrite decode_own_signature.
  unfold jwt.validate_claims, jwt.validate_iat, jwt.validate_nbf,
    jwt.validate_exp, jwt.validate_aud, jwt.validate_str.
  rewrite Hexp, Hiat, Hnbf, Haud. cbn.
  destruct (p !! "sub") as [v|]; [rewrite Hsub|]; cbn;
    (destruct (p !! "jti") as [v'|]; [rewrite Hjti|]); done.
Qed.

Lemma get_current_user_inv creds w u w1 :
  get_current_user hmac_sha256 int_of_str SECRET_KEY creds w = (Return u, w1) ->
  ∃ p,
    decode_access_token hmac_sha256 int_of_str SECRET_KEY (credentials creds) w
    = (Return p, w)
    ∧ p !! "sub" = Some (JStr (username u))
    ∧ username u ≠ ""
    ∧ stored_user (username u) (users w) = Some u
    ∧ w1 = set_queries (JStr (username u) :: queries w) w.
Proof.
  intros H.
  destruct (decode_access_token hmac_sha256 int_of_str SECRET_KEY
              (credentials creds) w) as [[p|e] w0] eqn:Hd.
  2: { by rewrite (get_current_user_refused _ _ _ _ _ _ _ Hd) in H. }
  pose proof Hd as (-> & Hv & _)%decode_access_token_inv.
  destruct (p !! "sub") as [v|] eqn:Hsub.
  2: { rewrite (get_current_user_falsy _ _ _ _ _ _ _ Hd) in H; [done|].
       by rewrite Hsub. }
  destruct (validate_sub_str _ _ _ Hv Hsub) as [name ->].
  destruct (decide (name = "")) as [->|Hname].
  { rewrite (get_current_user_falsy _ _ _ _ _ _ _ Hd) in H; [done|].
    by rewrite Hsub. }
  rewrite (get_current_user_lookup _ _ _ _ _ _ _ _ Hd Hsub Hname) in H.
  destruct (List.find _ (users w)) as [u'|] eqn:Hfind; [|done].
  injection H as <- <-.
  pose proof Hfind as [_ Heq%bool_decide_eq_true]%find_some.
  injection Heq as <-.
  exists p. by repeat split.
Qed.

(** X4. [get_current_user] returns a user only for a token that verifies,
    whose subject is a non-empty string, and the user returned is the first
    document of the store whose username is that subject; the call then
    leaves one entry in the query log and changes nothing else. *)
Theorem resolved_user_is_the_subject (creds : HTTPAuthorizationCredentials)
    (w : world) (u : User) (w1 : world) :
  get_current_user hmac_sha256 int_of_str SECRET_KEY creds w = (Return u, w1) ->
  (∃ p,
     decode_access_token hmac_sha256 int_of_str SECRET_KEY (credentials creds) w
     = (Return p, w)
     ∧ p !! "sub" = Some (JStr (username u)))
  ∧ username u ≠ ""
  ∧ (∃ before after,
       users w = before ++ u :: after
       ∧ ∀ u', u' ∈ before -> username u' ≠ username u)
  ∧ w1 = set_queries (JStr (username u) :: queries w) w.
Proof.
  intros (p & Hd & Hsub & Hname & Hstored & ->)%get_current_user_inv.
  split; [by exists p|]. split; [done|]. split; [|done].
  unfold stored_user in Hstored. clear Hd Hsub Hname.
  induction (users w) as [|u' us IH]; [done|].
  cbn [List.find] in Hstored. case_bool_decide as Heq.
  - injection Hstored as ->. exists [], us. split; [done|].
    intros ? Hin. by apply elem_of_nil in Hin.
  - destruct (IH Hstored) as (before & after & -> & Hbefore).
    exists (u' :: before), after. split; [done|].
    intros u'' [->|Hin]%elem_of_cons; [congruence|by apply Hbefore].
Qed.

(** X5. The guard lets a request through only for a user that
    [get_current_user] resolves and whose stored role is in the allow-list;
    with an empty allow-list it lets nobody through. *)
Theorem guard_admits_only_allowed_roles (allowed_roles : list UserRole)
    (creds : HTTPAuthorizationCredentials) (w : world) (u : User) (w1 : world) :
  require_role hmac_sha256 int_of_str SECRET_KEY allowed_roles creds w
  = (Return u, w1) ->
  get_current_user hmac_sha256 int_of_str SECRET_KEY creds w = (Return u, w1)
  ∧ role u ∈ allowed_roles
  ∧ allowed_roles ≠ [].
Proof.
  intros H.
  destruct (get_current_user hmac_sha256 int_of_str SECRET_KEY creds w)
    as [[u'|e] w0] eqn:Hu.
  - rewrite (require_role_run _ _ _ _ _ _ _ _ Hu) in H.
    case_bool_decide as Hin; [|done]. injection H as <- <-.
    split; [done|]. split; [done|]. intros ->. by apply elem_of_nil in Hin.
  - unfold require_role, mbind, M_bind in H. by rewrite Hu in H.
Qed.

(** X6. Widening the allow-list never turns an admitted request into a
    refused one: if the guard for one list returns a user, the guard for
    any list that contains all its roles returns the same user; and a
    request that [get_current_user] refuses is refused with the same
    failure whatever the allow-list. *)
Theorem guard_is_monotone (allowed_roles wider : list UserRole)
    (creds : HTTPAuthorizationCredentials) (w : world) :
  allowed_roles ⊆ wider ->
  (∀ u w1,
     require_role hmac_sha256 int_of_str SECRET_KEY allowed_roles creds w
     = (Return u, w1) ->
     require_role hmac_sha256 int_of_str SECRET_KEY wider creds w
     = (Return u, w1))
  ∧ (∀ e w1,
     get_current_user hmac_sha256 int_of_str SECRET_KEY creds w = (Raise e, w1) ->
     require_role hmac_sha256 int_of_str SECRET_KEY allowed_roles creds w
     = (Raise e, w1)
     ∧ require_role hmac_sha256 int_of_str SECRET_KEY wider creds w
       = (Raise e, w1)).
Proof.
  intros Hsub. split.
  - intros u w1 H.
    destruct (get_current_user hmac_sha256 int_of_str SECRET_KEY creds w)
      as [[u'|e] w0] eqn:Hu.
    + rewrite (require_role_run _ _ _ _ _ _ _ _ Hu) in H.
      rewrite (require_role_run _ _ _ _ _ _ _ _ Hu).
      case_bool_decide as Hin; [|done]. injection H as <- <-.
      rewrite bool_decide_eq_true_2; [done|]. by apply Hsub.
    + unfold require_role, mbind, M_bind in H. by rewrite Hu in H.
  - intros e w1 Hu. unfold require_role, mbind, M_bind. by rewrite Hu.
Qed.

(** X7. Neither [get_current_user] nor the guard writes anything: whatever
    the outcome, the store, the heap, the clock and the entropy are as
    before, and the query log has grown by at most one entry. *)
Theorem guard_only_reads (allowed_roles : list UserRole)
    (creds : HTTPAuthorizationCredentials) (w : world) :
  let w' :=
    (require_role hmac_sha256 int_of_str SECRET_KEY allowed_roles creds w).2 in
  users w' = users w ∧ heap w' = heap w ∧ clock w' = clock w
  ∧ consumed w' = consumed w ∧ entropy w' = entropy w
  ∧ (queries w' = queries w ∨ ∃ q, queries w' = q :: queries w).
Proof.
  cbv zeta.
  assert (∀ r,
    (get_current_user hmac_sha256 int_of_str SECRET_KEY creds w) = r ->
    r.2 = w ∨ ∃ q, r.2 = set_queries (q :: queries w) w) as Hcases.
  { intros [o w0] <-. unfold get_current_user, mbind, M_bind.
    destruct (decode_access_token hmac_sha256 int_of_str SECRET_KEY
                (credentials creds) w) as [[p|e] w1] eqn:Hd;
      pose proof (decode_access_token_world hmac_sha256 int_of_str SECRET_KEY
                    (credentials creds) w) as Hw;
      rewrite Hd in Hw; cbn in Hw; subst w1; [|by left].
    destruct (negb (truthy _)); [by left|].
    unfold find_one_by_username. right. eexists.
    by destruct (List.find _ _). }
  assert ((require_role hmac_sha256 int_of_str SECRET_KEY allowed_roles creds w).2
          = (get_current_user hmac_sha256 int_of_str SECRET_KEY creds w).2) as ->.
  { unfold require_role, mbind, M_bind.
    destruct (get_current_user _ _ _ _ _) as [[u|e] w0]; [|done].
    by case_bool_decide. }
  destruct (Hcases _ eq_refl) as [->|[q ->]]; repeat split; eauto.
Qed.

End VerificationFacts.

Section HasherExtras.

Variable eks_blowfish : N -> bytes -> bytes -> bytes.

(** X8. Against a hash that [hash_password] produced, [verify_password]
    never raises: for every candidate password it returns a boolean, true
    exactly when the Blowfish digest of the candidate's first 72 bytes under
    the salt of the hash equals that of the hashed password.  So every
    password that shares its first 72 bytes with the hashed one is
    accepted. *)
Theorem verify_against_own_hash (s candidate : string) (w : world) :
  let salt := entropy w <$> seq (consumed w) 16 in
  ∃ h w1,
    hash_password eks_blowfish s w = (Return h, w1)
    ∧ ∀ w2, ∃ b : bool,
        verify_password eks_blowfish candidate h w2 = (Return b, w2)
        ∧ (b = true
           <-> eks_blowfish 12 salt (take 72 (str_encode candidate))
               = eks_blowfish 12 salt (take 72 (str_encode s)))
        ∧ (take 72 (str_encode candidate) = take 72 (str_encode s) -> b = true).
Proof.
  intros salt. eexists _, _. split; [apply hash_password_run|].
  fold salt. intros w2.
  assert (∀ b : bytes, str_encode (bytes_decode b) = b) as Hround
    by apply list_ascii_of_string_of_list_ascii.
  eexists. split.
  { unfold verify_password, lift, bcrypt.checkpw. rewrite Hround.
    rewrite hashpw_rehash by apply os_urandom_length. reflexivity. }
  assert (∀ d1 d2 : bytes,
    bcrypt.gensalt_from salt ++ bcrypt.b64_encode d1
    = bcrypt.gensalt_from salt ++ bcrypt.b64_encode d2 <-> d1 = d2) as Hinj.
  { intros d1 d2. split; [|by intros ->].
    by intros ?%app_inv_head%b64_encode_inj. }
  split.
  - rewrite bool_decide_eq_true. apply Hinj.
  - intros Heq. apply bool_decide_eq_true, Hinj. by rewrite Heq.
Qed.

End HasherExtras.

Section LifetimeFacts.

Variable hmac_sha256 : bytes -> jwt.jose_header -> gmap string json -> bytes.
Variable int_of_str : string -> option Z.
Variable SECRET_KEY : string.


End LifetimeFacts.

(** * Properties of server.py: registration and login *)

Lemma stored_user_None name store :
  stored_user name store = None <-> ∀ u, u ∈ store -> username u ≠ name.
Proof.
  unfold stored_user. split.
  - intros Hnone u Hin%list_elem_of_In Heq.
    apply (find_none _ _ Hnone) in Hin.
    apply bool_decide_eq_false in Hin. apply Hin. by rewrite Heq.
  - intros Hall. destruct (List.find _ store) as [u|] eqn:Hfind; [|done].
    apply find_some in Hfind as [Hin%list_elem_of_In Heq%bool_decide_eq_true].
    destruct (Hall u Hin). congruence.
Qed.

Lemma stored_user_Some name store u :
  stored_user name store = Some u -> u ∈ store ∧ username u = name.
Proof.
  unfold stored_user.
  intros [Hin%list_elem_of_In Heq%bool_decide_eq_true]%find_some.
  split; [done|congruence].
Qed.

Lemma stored_user_app_new name store u :
  stored_user name store = None -> username u = name ->
  stored_user name (store ++ [u]) = Some u.
Proof.
  unfold stored_user. intros Hnone Hname.
  induction store as [|u' store IH]; cbn [List.app List.find] in *.
  - by rewrite bool_decide_eq_true_2 by congruence.
  - destruct (bool_decide (JStr (username u') = JStr name)); [done|]. by apply IH.
Qed.

Lemma stored_user_app_old name store u extra :
  stored_user name store = Some u -> stored_user name (store ++ extra) = Some u.
Proof.
  unfold stored_user. induction store as [|u' store IH]; [done|].
  cbn [List.app List.find].
  destruct (bool_decide (JStr (username u') = JStr name)); [done|]. apply IH.
Qed.

Lemma token_data_json u : token_data u = Json <$> Sample.login_claims u.
Proof.
  unfold token_data, Sample.login_claims.
  by rewrite fmap_insert, map_fmap_singleton.
Qed.

Lemma login_claims_application u :
  application_claims (Sample.login_claims u) = true.
Proof.
  assert (∀ k, k ≠ "sub" -> k ≠ "role" -> Sample.login_claims u !! k = None)
    as Hother.
  { intros k H1 H2. unfold Sample.login_claims.
    by rewrite lookup_insert_ne, lookup_singleton_ne. }
  unfold application_claims, absent, str_if_present.
  rewrite !Hother by done.
  rewrite !bool_decide_eq_true_2 by done.
  unfold Sample.login_claims. by rewrite lookup_insert_eq.
Qed.

Lemma login_claims_sub u :
  Sample.login_claims u !! "sub" = Some (JStr (username u)).
Proof. unfold Sample.login_claims. by rewrite lookup_insert_eq. Qed.

Lemma login_claims_sub_exp u expire :
  with_exp expire (Sample.login_claims u) !! "sub" = Some (JStr (username u)).
Proof. unfold with_exp. by rewrite lookup_insert_ne, login_claims_sub. Qed.

Section AuthEndpointFacts.

Variable eks_blowfish : N -> bytes -> bytes -> bytes.
Variable hmac_sha256 : bytes -> jwt.jose_header -> gmap string json -> bytes.
Variable int_of_str : string -> option Z.
Variable SECRET_KEY : string.

(** The token both endpoints issue for a user, and the world after. *)
Lemma issue_for_user u w :
  in_datetime_range (clock w + 86400000000) ->
  ∃ h,
    create_access_token hmac_sha256 SECRET_KEY (fresh (dom (heap w))) None
      (set_heap (<[fresh (dom (heap w)) := token_data u]> (heap w)) w)
    = (Return (jwt.Compact HS256_header
                 (with_exp (clock w + 86400000000) (Sample.login_claims u))
                 (hmac_sha256 (str_encode SECRET_KEY) HS256_header
                    (with_exp (clock w + 86400000000) (Sample.login_claims u)))),
       set_heap h w).
Proof.
  intros Hrange.
  eexists. erewrite create_access_token_run.
  - cbn [clock set_heap heap]. reflexivity.
  - cbn [heap set_heap]. by rewrite lookup_insert_eq, token_data_json.
  - apply application_claims_iss, login_claims_application.
  - done.
Qed.

End AuthEndpointFacts.

Section RegistrationFacts.

Variable eks_blowfish : N -> bytes -> bytes -> bytes.
Variable hmac_sha256 : bytes -> jwt.jose_header -> gmap string json -> bytes.
Variable int_of_str : string -> option Z.
Variable SECRET_KEY : string.

Implicit Types (uc : UserCreate.t) (w : world).

Lemma register_run uc w :
  stored_user (UserCreate.username uc) (users w) = None ->
  email_taken (UserCreate.email uc) (users w) = None ->
  in_datetime_range (clock w + 86400000000) ->
  let salt := entropy w <$> seq (consumed w) 16 in
  let user :=
    {| id := uuid4_from (entropy w <$> seq (consumed w + 16) 16);
       username := UserCreate.username uc;
       email := UserCreate.email uc;
       hashed_password :=
         bytes_decode
           (bcrypt.gensalt_from salt
              ++ bcrypt.b64_encode
                   (eks_blowfish 12 salt
                      (take 72 (str_encode (UserCreate.password uc)))));
       role := UserCreate.role uc;
       created_at := clock w |} in
  ∃ h,
    register eks_blowfish hmac_sha256 SECRET_KEY uc w
    = (Return
         {| Token.access_token :=
              jwt.Compact HS256_header
                (with_exp (clock w + 86400000000) (Sample.login_claims user))
                (hmac_sha256 (str_encode SECRET_KEY) HS256_header
                   (with_exp (clock w + 86400000000) (Sample.login_claims user)));
            Token.token_type := "bearer";
            Token.user := user_response user |},
       set_heap h
         (set_users (users w ++ [stored_user_document user])
            (set_consumed (consumed w + 16 + 16)
               (set_queries (JStr (UserCreate.username uc) :: queries w) w)))).
Proof.
  intros Hname Hemail Hrange salt user.
  unfold register, mbind, M_bind, find_one_by_username, find_one_by_email.
  unfold stored_user in Hname.
  rewrite Hname.
  rewrite (bool_decide_eq_false_2 (is_Some None)) by (by intros [? ?]).
  cbv beta. cbn [users set_queries]. rewrite Hemail.
  rewrite (bool_decide_eq_false_2 (is_Some None)) by (by intros [? ?]).
  cbv beta.
  rewrite hash_password_run. cbn [entropy consumed set_queries].
  fold salt.
  unfold uuid4, mbind, M_bind, os_urandom. cbn [entropy consumed set_consumed].
  cbn [mret M_ret datetime_now clock set_consumed set_queries].
  unfold insert_one_user, dict_new.
  cbn [users heap set_users set_consumed set_queries].
  set (w3 := set_users _ _).
  destruct (issue_for_user hmac_sha256 SECRET_KEY user w3 Hrange) as [h Hissue].
  exists h. subst w3 user.
  cbn [clock entropy consumed heap users queries
       set_clock set_consumed set_heap set_users set_queries] in *.
  rewrite Hissue. reflexivity.
Qed.

Lemma email_taken_None address store :
  email_taken address store = None <-> ∀ u, u ∈ store -> email u ≠ address.
Proof.
  unfold email_taken. split.
  - intros Hnone u Hin%list_elem_of_In Heq.
    apply (find_none _ _ Hnone) in Hin.
    by apply String.eqb_neq in Hin.
  - intros Hall. destruct (List.find _ store) as [u|] eqn:Hfind; [|done].
    apply find_some in Hfind as [Hin%list_elem_of_In Heq%String.eqb_eq].
    by destruct (Hall u Hin).
Qed.

Lemma not_None_is_Some {A} (o : option A) : o ≠ None -> is_Some o.
Proof. destruct o; [by eexists|done]. Qed.

(** X10. [register] refuses a username that a stored user has with 400
    "Username already exists", and otherwise an email address that a stored
    user has with 400 "Email already exists"; in both cases nothing is
    hashed and nothing is stored: only the query log has grown. *)
Theorem register_refuses_duplicates (uc : UserCreate.t) (w : world) :
  ((∃ u, u ∈ users w ∧ username u = UserCreate.username uc) ->
   register eks_blowfish hmac_sha256 SECRET_KEY uc w
   = (Raise (HTTPException 400 "Username already exists"),
      set_queries (JStr (UserCreate.username uc) :: queries w) w))
  ∧ ((∀ u, u ∈ users w -> username u ≠ UserCreate.username uc) ->
     (∃ u, u ∈ users w ∧ email u = UserCreate.email uc) ->
     register eks_blowfish hmac_sha256 SECRET_KEY uc w
     = (Raise (HTTPException 400 "Email already exists"),
        set_queries (JStr (UserCreate.username uc) :: queries w) w)).
Proof.
  split.
  - intros (u & Hin & Hname).
    assert (is_Some (stored_user (UserCreate.username uc) (users w))) as Hsome.
    { apply not_None_is_Some. intros Hnone.
      by apply (proj1 (stored_user_None _ _) Hnone u). }
    unfold register, mbind, M_bind, find_one_by_username.
    unfold stored_user in Hsome. by rewrite bool_decide_eq_true_2.
  - intros Hfree (u & Hin & Hmail).
    apply stored_user_None in Hfree.
    assert (is_Some (email_taken (UserCreate.email uc) (users w))) as Hsome.
    { apply not_None_is_Some. intros Hnone.
      by apply (proj1 (email_taken_None _ _) Hnone u). }
    unfold register, mbind, M_bind, find_one_by_username, find_one_by_email.
    unfold stored_user in Hfree. rewrite Hfree.
    rewrite (bool_decide_eq_false_2 (is_Some None)) by (by intros [? ?]).
    cbv beta. cbn [users set_queries]. by rewrite bool_decide_eq_true_2.
Qed.

(** X11. For a username and an email address that no stored user has,
    [register] appends exactly one document to the store: it carries the
    requested username, email address and role, and a hashed password that
    [verify_password] accepts for the requested password.  The response is
    a bearer token together with the same user, without the hash. *)
Theorem register_stores_the_user (uc : UserCreate.t) (w : world) :
  (∀ u, u ∈ users w -> username u ≠ UserCreate.username uc) ->
  (∀ u, u ∈ users w -> email u ≠ UserCreate.email uc) ->
  in_datetime_range (clock w + 86400000000) ->
  ∃ response doc w',
    register eks_blowfish hmac_sha256 SECRET_KEY uc w = (Return response, w')
    ∧ users w' = users w ++ [doc]
    ∧ username doc = UserCreate.username uc
    ∧ email doc = UserCreate.email uc
    ∧ role doc = UserCreate.role uc
    ∧ verify_password eks_blowfish (UserCreate.password uc)
        (hashed_password doc) w' = (Return true, w')
    ∧ Token.token_type response = "bearer"
    ∧ UserResponse.id (Token.user response) = id doc
    ∧ UserResponse.username (Token.user response) = UserCreate.username uc
    ∧ UserResponse.email (Token.user response) = UserCreate.email uc
    ∧ UserResponse.role (Token.user response) = UserCreate.role uc.
Proof.
  intros Hname%stored_user_None Hemail%email_taken_None Hrange.
  destruct (register_run uc w Hname Hemail Hrange) as [h ->].
  eexists _, _, _. split; [reflexivity|].
  cbn [users set_heap set_users]. split; [reflexivity|].
  cbn [stored_user_document username email role hashed_password id
       Token.token_type Token.user user_response UserResponse.id
       UserResponse.username UserResponse.email UserResponse.role].
  repeat (split; [reflexivity|]). split; [|done].
  apply verify_hashed, os_urandom_length.
Qed.

(** Issuing a token changes the heap only. *)
Lemma create_access_token_frame data expires_delta w :
  ∃ h, (create_access_token hmac_sha256 SECRET_KEY data expires_delta w).2
       = set_heap h w.
Proof.
  unfold create_access_token, mbind, M_bind, dict_copy.
  destruct (heap w !! data) as [items|] eqn:Hdata.
  2: { exists (heap w). by destruct w. }
  cbn [datetime_now]. unfold datetime_add.
  case_bool_decide; cbn [mret M_ret raise snd set_heap heap].
  2: { by eexists. }
  unfold dict_update, dict_items. cbn [heap set_heap].
  rewrite !lookup_insert_eq. cbn [heap set_heap].
  rewrite lookup_insert_eq. unfold lift. cbn [snd heap set_heap].
  by eexists.
Qed.

(** What [register] can do to the store. *)
Lemma register_users uc w :
  let w' := (register eks_blowfish hmac_sha256 SECRET_KEY uc w).2 in
  users w' = users w
  ∨ (stored_user (UserCreate.username uc) (users w) = None
     ∧ email_taken (UserCreate.email uc) (users w) = None
     ∧ ∃ doc, username doc = UserCreate.username uc
              ∧ email doc = UserCreate.email uc
              ∧ users w' = users w ++ [doc]).
Proof.
  cbv zeta.
  destruct (stored_user (UserCreate.username uc) (users w)) as [u|] eqn:Hname.
  { left. unfold register, mbind, M_bind, find_one_by_username.
    unfold stored_user in Hname. rewrite Hname.
    by rewrite bool_decide_eq_true_2 by (by eexists). }
  destruct (email_taken (UserCreate.email uc) (users w)) as [u|] eqn:Hemail.
  { left. unfold register, mbind, M_bind, find_one_by_username,
      find_one_by_email.
    unfold stored_user in Hname. rewrite Hname.
    rewrite (bool_decide_eq_false_2 (is_Some None)) by (by intros [? ?]).
    cbv beta. cbn [users set_queries]. rewrite Hemail.
    by rewrite bool_decide_eq_true_2 by (by eexists). }
  right. split; [done|]. split; [done|].
  unfold register, mbind, M_bind, find_one_by_username, find_one_by_email.
  unfold stored_user in Hname. rewrite Hname.
  rewrite (bool_decide_eq_false_2 (is_Some None)) by (by intros [? ?]).
  cbv beta. cbn [users set_queries]. rewrite Hemail.
  rewrite (bool_decide_eq_false_2 (is_Some None)) by (by intros [? ?]).
  cbv beta. rewrite hash_password_run.
  unfold uuid4, mbind, M_bind, os_urandom.
  cbn [mret M_ret datetime_now]. unfold insert_one_user, dict_new.
  match goal with
  | |- context [create_access_token _ _ ?d ?e ?v] =>
      destruct (create_access_token_frame d e v) as [h Hframe];
      destruct (create_access_token hmac_sha256 SECRET_KEY d e v)
        as [[tok|e'] w4]
  end; cbn [snd] in *; subst w4;
    (eexists; split; [|split]; [| |cbn [users set_heap set_users]; reflexivity]);
    reflexivity.
Qed.

(** X12. [register] keeps usernames and email addresses unique: if no two
    stored users share a username and no two share an email address before
    the call, the same holds after it, whatever the call returns or
    raises. *)
Theorem register_keeps_users_unique (uc : UserCreate.t) (w : world) :
  NoDup (username <$> users w) ->
  NoDup (email <$> users w) ->
  let w' := (register eks_blowfish hmac_sha256 SECRET_KEY uc w).2 in
  NoDup (username <$> users w') ∧ NoDup (email <$> users w').
Proof.
  intros Hnames Hemails. cbv zeta.
  destruct (register_users uc w) as [->|(Hname & Hemail & doc & Hn & He & ->)];
    [done|].
  rewrite !fmap_app. cbn [fmap list_fmap].
  split; apply NoDup_app; (split; [done|]); (split; [|apply NoDup_singleton]).
  - intros x (u & -> & Hin)%list_elem_of_fmap Heq%list_elem_of_singleton.
    apply (proj1 (stored_user_None _ _) Hname u Hin). congruence.
  - intros x (u & -> & Hin)%list_elem_of_fmap Heq%list_elem_of_singleton.
    apply (proj1 (email_taken_None _ _) Hemail u Hin). congruence.
Qed.

(** The token issued for a user at [issued] verifies while it is young. *)
Lemma user_token_verifies u issued w :
  clock w < jwt.timegm (issued + 86400000000) * 1000000 ->
  decode_access_token hmac_sha256 int_of_str SECRET_KEY
    (jwt.Compact HS256_header
       (with_exp (issued + 86400000000) (Sample.login_claims u))
       (hmac_sha256 (str_encode SECRET_KEY) HS256_header
          (with_exp (issued + 86400000000) (Sample.login_claims u)))) w
  = (Return (with_exp (issued + 86400000000) (Sample.login_claims u)), w).
Proof.
  intros Hyoung. rewrite decode_own_signature.
  by rewrite validate_application_claims
    by (apply login_claims_application || done).
Qed.

(** X13. Registration and the guard fit together: the token that
    [register] returns for a new user with a non-empty username, presented
    right away, makes the guard return the document just stored when the
    registered role is in the allow-list, and raise the 403 failure when it
    is not. *)
Theorem registered_token_passes_guard (uc : UserCreate.t) (w : world) :
  (∀ u, u ∈ users w -> username u ≠ UserCreate.username uc) ->
  (∀ u, u ∈ users w -> email u ≠ UserCreate.email uc) ->
  in_datetime_range (clock w + 86400000000) ->
  UserCreate.username uc ≠ "" ->
  ∃ response doc w',
    register eks_blowfish hmac_sha256 SECRET_KEY uc w = (Return response, w')
    ∧ doc ∈ users w'
    ∧ username doc = UserCreate.username uc
    ∧ role doc = UserCreate.role uc
    ∧ ∀ allowed_roles,
        require_role hmac_sha256 int_of_str SECRET_KEY allowed_roles
          (bearer (Token.access_token response)) w'
        = (if bool_decide (UserCreate.role uc ∈ allowed_roles) then Return doc
           else Raise (HTTPException 403
                         ("Access denied. Required roles: "
                            +:+ repr_list (models.value <$> allowed_roles))),
           set_queries (JStr (UserCreate.username uc) :: queries w') w').
Proof.
  intros Hname%stored_user_None Hemail%email_taken_None Hrange Hnonempty.
  destruct (register_run uc w Hname Hemail Hrange) as [h ->].
  eexists _, _, _. split; [reflexivity|].
  cbn [users set_heap set_users]. split.
  { apply elem_of_app. right. apply list_elem_of_singleton. reflexivity. }
  split; [reflexivity|]. split; [reflexivity|].
  match goal with
  | |- context [set_heap h ?v] => set (w' := set_heap h v)
  end.
  match goal with
  | |- context [Return (stored_user_document ?v)] =>
      set (user := v) in *; set (doc := stored_user_document user) in *
  end.
  assert (decode_access_token hmac_sha256 int_of_str SECRET_KEY
            (jwt.Compact HS256_header
               (with_exp (clock w + 86400000000) (Sample.login_claims user))
               (hmac_sha256 (str_encode SECRET_KEY) HS256_header
                  (with_exp (clock w + 86400000000) (Sample.login_claims user))))
            w'
          = (Return (with_exp (clock w + 86400000000) (Sample.login_claims user)),
             w')) as Hverified.
  { apply user_token_verifies. subst w'.
    cbn [clock set_heap set_users set_consumed set_queries].
    apply timegm_after. lia. }
  assert (get_current_user hmac_sha256 int_of_str SECRET_KEY
            (bearer
               (jwt.Compact HS256_header
                  (with_exp (clock w + 86400000000) (Sample.login_claims user))
                  (hmac_sha256 (str_encode SECRET_KEY) HS256_header
                     (with_exp (clock w + 86400000000)
                        (Sample.login_claims user))))) w'
          = (Return doc,
             set_queries (JStr (UserCreate.username uc) :: queries w') w'))
    as Hresolved.
  { rewrite (get_current_user_lookup hmac_sha256 int_of_str SECRET_KEY
               (bearer _) _ _ _ (UserCreate.username uc)
               Hverified (login_claims_sub_exp user _) Hnonempty).
    subst w'. cbn [users set_heap set_users].
    fold (stored_user (UserCreate.username uc) (users w ++ [doc])).
    by rewrite (stored_user_app_new _ _ doc Hname). }
  intros allowed_roles. cbn [Token.access_token].
  by rewrite (require_role_run _ _ _ _ _ _ _ _ Hresolved).
Qed.

(** X14. A user can register with the empty username, but the token
    [register] returns for it is of no use: [get_current_user] refuses it
    with 401 "Invalid token payload", as it does every token whose subject
    is empty. *)
Theorem empty_username_cannot_authenticate (uc : UserCreate.t) (w : world) :
  (∀ u, u ∈ users w -> username u ≠ UserCreate.username uc) ->
  (∀ u, u ∈ users w -> email u ≠ UserCreate.email uc) ->
  in_datetime_range (clock w + 86400000000) ->
  UserCreate.username uc = "" ->
  ∃ response w',
    register eks_blowfish hmac_sha256 SECRET_KEY uc w = (Return response, w')
    ∧ get_current_user hmac_sha256 int_of_str SECRET_KEY
        (bearer (Token.access_token response)) w'
      = (Raise (HTTPException 401 "Invalid token payload"), w').
Proof.
  intros Hname%stored_user_None Hemail%email_taken_None Hrange Hempty.
  destruct (register_run uc w Hname Hemail Hrange) as [h ->].
  eexists _, _. split; [reflexivity|].
  cbn [Token.access_token].
  eapply (get_current_user_falsy hmac_sha256 int_of_str SECRET_KEY (bearer _)).
  - cbn [bearer credentials]. apply user_token_verifies.
    cbn [clock set_heap set_users set_consumed set_queries].
    apply timegm_after. lia.
  - rewrite login_claims_sub_exp. cbn [username]. by rewrite Hempty.
Qed.

(** [login] once the user document is found. *)
Lemma login_found (ul : UserLogin.t) w u :
  stored_user (UserLogin.username ul) (users w) = Some u ->
  let w1 := set_queries (JStr (UserLogin.username ul) :: queries w) w in
  login eks_blowfish hmac_sha256 SECRET_KEY ul w
  = match bcrypt.checkpw eks_blowfish (str_encode (UserLogin.password ul))
            (str_encode (hashed_password u)) with
    | Raise e => (Raise e, w1)
    | Return false =>
        (Raise (HTTPException 401 "Invalid username or password"), w1)
    | Return true =>
        match create_access_token hmac_sha256 SECRET_KEY
                (fresh (dom (heap w1))) None
                (set_heap (<[fresh (dom (heap w1)) := token_data u]> (heap w1)) w1)
        with
        | (Return access_token, w2) =>
            (Return {| Token.access_token := access_token;
                       Token.token_type := "bearer";
                       Token.user := user_response u |}, w2)
        | (Raise e, w2) => (Raise e, w2)
        end
    end.
Proof.
  intros Hfound w1. unfold stored_user in Hfound.
  unfold login, mbind, M_bind, find_one_by_username. rewrite Hfound.
  fold w1. unfold verify_password, lift.
  destruct (bcrypt.checkpw _ _ _) as [[|]|e]; [|done..].
  cbn [negb]. unfold dict_new.
  by destruct (create_access_token _ _ _ _ _) as [[tok|e] w2].
Qed.

(** X15. [login] gives nothing away about which part was wrong: an unknown
    username, and a known username with a password that does not hash to
    the stored hash, are refused with the same 401 "Invalid username or
    password"; in both cases only the query log has grown. *)
Theorem login_failures_look_alike (ul : UserLogin.t) (w : world) :
  let refused :=
    (Raise (HTTPException 401 "Invalid username or password"),
     set_queries (JStr (UserLogin.username ul) :: queries w) w) in
  ((∀ u, u ∈ users w -> username u ≠ UserLogin.username ul) ->
   login eks_blowfish hmac_sha256 SECRET_KEY ul w = refused)
  ∧ (∀ u p,
       stored_user (UserLogin.username ul) (users w) = Some u ->
       bcrypt.parse_salt (str_encode (hashed_password u)) = Some p ->
       bcrypt.format_hash eks_blowfish p
         (take 72 (str_encode (UserLogin.password ul)))
       ≠ str_encode (hashed_password u) ->
       login eks_blowfish hmac_sha256 SECRET_KEY ul w = refused).
Proof.
  cbv zeta. split.
  - intros Hnone%stored_user_None. unfold stored_user in Hnone.
    unfold login, mbind, M_bind, find_one_by_username. by rewrite Hnone.
  - intros u p Hfound Hparse Hwrong.
    rewrite (login_found ul w u Hfound).
    unfold bcrypt.checkpw, bcrypt.hashpw. rewrite Hparse.
    by rewrite bool_decide_eq_false_2.
Qed.

(** X16. When the stored hash of a user does not read as a bcrypt hash,
    [login] does not answer 401: the [ValueError] of bcrypt ("Invalid
    salt") leaves the handler. *)
Theorem login_raises_on_malformed_hash (ul : UserLogin.t) (w : world)
    (u : User) :
  stored_user (UserLogin.username ul) (users w) = Some u ->
  bcrypt.parse_salt (str_encode (hashed_password u)) = None ->
  login eks_blowfish hmac_sha256 SECRET_KEY ul w
  = (Raise (ValueError "Invalid salt"),
     set_queries (JStr (UserLogin.username ul) :: queries w) w).
Proof.
  intros Hfound Hparse. rewrite (login_found ul w u Hfound).
  unfold bcrypt.checkpw, bcrypt.hashpw. by rewrite Hparse.
Qed.

(** X17. Registration and login fit together: after [register] has stored
    a new user, [login] with the same username and password succeeds; it
    returns a bearer token and the stored user (same id, username, email
    address and role as in the answer of [register]) and leaves the store
    as it is. *)
Theorem register_then_login (uc : UserCreate.t) (w : world) :
  (∀ u, u ∈ users w -> username u ≠ UserCreate.username uc) ->
  (∀ u, u ∈ users w -> email u ≠ UserCreate.email uc) ->
  in_datetime_range (clock w + 86400000000) ->
  ∃ registered w' logged_in w'',
    register eks_blowfish hmac_sha256 SECRET_KEY uc w = (Return registered, w')
    ∧ login eks_blowfish hmac_sha256 SECRET_KEY
        {| UserLogin.username := UserCreate.username uc;
           UserLogin.password := UserCreate.password uc |} w'
      = (Return logged_in, w'')
    ∧ users w'' = users w'
    ∧ Token.token_type logged_in = "bearer"
    ∧ UserResponse.id (Token.user logged_in)
      = UserResponse.id (Token.user registered)
    ∧ UserResponse.username (Token.user logged_in) = UserCreate.username uc
    ∧ UserResponse.email (Token.user logged_in) = UserCreate.email uc
    ∧ UserResponse.role (Token.user logged_in) = UserCreate.role uc.
Proof.
  intros Hname%stored_user_None Hemail%email_taken_None Hrange.
  destruct (register_run uc w Hname Hemail Hrange) as [h ->].
  match goal with
  | |- context [set_heap h ?v] => set (w' := set_heap h v)
  end.
  match goal with
  | |- context [user_response ?v] =>
      set (user := v) in *; set (doc := stored_user_document user) in *
  end.
  assert (stored_user (UserCreate.username uc) (users w') = Some doc) as Hfound.
  { subst w'. cbn [users set_heap set_users].
    by apply stored_user_app_new. }
  set (ul := {| UserLogin.username := UserCreate.username uc;
                UserLogin.password := UserCreate.password uc |}).
  pose proof (login_found ul w' doc Hfound) as Hlogin. cbv zeta in Hlogin.
  assert (bcrypt.checkpw eks_blowfish (str_encode (UserLogin.password ul))
            (str_encode (hashed_password doc)) = Return true) as Hcheck.
  { pose proof (verify_hashed eks_blowfish (UserCreate.password uc)
                  (entropy w <$> seq (consumed w) 16) w
                  (os_urandom_length 16 w)) as Hv.
    unfold verify_password, lift in Hv. by injection Hv. }
  rewrite Hcheck in Hlogin.
  set (w1 := set_queries (JStr (UserLogin.username ul) :: queries w') w') in *.
  destruct (issue_for_user hmac_sha256 SECRET_KEY doc w1) as [h2 Hissue].
  { subst w1 w'. by cbn [clock set_heap set_users set_consumed set_queries]. }
  rewrite Hissue in Hlogin.
  eexists _, w', _, _. split; [reflexivity|]. split; [exact Hlogin|].
  by repeat split.
Qed.

End RegistrationFacts.

(** * Properties of server.py: metal prices and inventory *)

Lemma find_by_id_None item_id (items : list InventoryItem.t) :
  List.find (fun i => String.eqb (InventoryItem.id i) item_id) items = None
  <-> ∀ i, i ∈ items -> InventoryItem.id i ≠ item_id.
Proof.
  split.
  - intros Hnone i Hin%list_elem_of_In.
    apply (find_none _ _ Hnone) in Hin. by apply String.eqb_neq.
  - intros Hall. destruct (List.find _ items) as [i|] eqn:Hfind; [|done].
    apply find_some in Hfind as [Hin%list_elem_of_In Heq%String.eqb_eq].
    by destruct (Hall i Hin).
Qed.

Lemma find_by_sku_None sku (items : list InventoryItem.t) :
  List.find (fun i => String.eqb (InventoryItem.sku i) sku) items = None
  <-> ∀ i, i ∈ items -> InventoryItem.sku i ≠ sku.
Proof.
  split.
  - intros Hnone i Hin%list_elem_of_In.
    apply (find_none _ _ Hnone) in Hin. by apply String.eqb_neq.
  - intros Hall. destruct (List.find _ items) as [i|] eqn:Hfind; [|done].
    apply find_some in Hfind as [Hin%list_elem_of_In Heq%String.eqb_eq].
    by destruct (Hall i Hin).
Qed.

(** The first item with a given id, in a collection cut around it. *)
Lemma first_with_id item_id before (i : InventoryItem.t) after f :
  InventoryItem.id i = item_id ->
  (∀ j, j ∈ before -> InventoryItem.id j ≠ item_id) ->
  List.find (fun j => String.eqb (InventoryItem.id j) item_id)
    (before ++ i :: after) = Some i
  ∧ update_first item_id f (before ++ i :: after) = before ++ f i :: after
  ∧ delete_first item_id (before ++ i :: after) = (before ++ after, 1).
Proof.
  intros Hid Hbefore.
  induction before as [|j before IH]; cbn [List.app List.find update_first delete_first].
  - rewrite (proj2 (String.eqb_eq _ _) Hid). done.
  - rewrite (proj2 (String.eqb_neq _ _)) by (apply Hbefore; by left).
    destruct IH as (-> & -> & ->); [|done].
    intros j' Hin. apply Hbefore. by right.
Qed.

Lemma none_with_id item_id (items : list InventoryItem.t) f :
  (∀ j, j ∈ items -> InventoryItem.id j ≠ item_id) ->
  update_first item_id f items = items ∧ delete_first item_id items = (items, 0).
Proof.
  intros Hnone. induction items as [|j items IH]; [done|].
  cbn [update_first delete_first].
  rewrite (proj2 (String.eqb_neq _ _)) by (apply Hnone; by left).
  destruct IH as [-> ->]; [|done].
  intros j' Hin. apply Hnone. by right.
Qed.

Section EndpointFacts.

Variable hmac_sha256 : bytes -> jwt.jose_header -> gmap string json -> bytes.
Variable int_of_str : string -> option Z.
Variable SECRET_KEY : string.

Implicit Types (creds : HTTPAuthorizationCredentials) (a : app_state).

Lemma depends_role_run allowed creds a u w1 :
  get_current_user hmac_sha256 int_of_str SECRET_KEY creds (base a)
  = (Return u, w1) ->
  depends_role hmac_sha256 int_of_str SECRET_KEY allowed creds a
  = (if bool_decide (role u ∈ allowed) then Return u
     else Raise (access_denied allowed), set_base w1 a).
Proof.
  intros H. unfold depends_role, in_world.
  by rewrite (require_role_run _ _ _ _ _ _ _ _ H).
Qed.

Lemma depends_role_refused allowed creds a e w1 :
  get_current_user hmac_sha256 int_of_str SECRET_KEY creds (base a)
  = (Raise e, w1) ->
  depends_role hmac_sha256 int_of_str SECRET_KEY allowed creds a
  = (Raise e, set_base w1 a).
Proof.
  intros H. unfold depends_role, in_world, require_role, mbind, M_bind.
  by rewrite H.
Qed.

(** X18. The writing handlers are closed to the roles their guards leave
    out: for a resolved user who is not an administrator
    [update_metal_prices] raises the 403 failure, and for a salesperson so
    do [create_inventory_item], [update_inventory_item] and
    [delete_inventory_item]; none of them touches the two collections. *)
Theorem writes_need_the_role (creds : HTTPAuthorizationCredentials)
    (a : app_state) (u : User) (w1 : world)
    (price_update : MetalPriceUpdate.t) (item_create : InventoryItemCreate.t)
    (item_id : string) (item_update : InventoryItemUpdate.t) :
  get_current_user hmac_sha256 int_of_str SECRET_KEY creds (base a)
  = (Return u, w1) ->
  (role u ≠ ADMIN ->
   update_metal_prices hmac_sha256 int_of_str SECRET_KEY price_update creds a
   = (Raise (HTTPException 403 "Access denied. Required roles: ['admin']"),
      set_base w1 a))
  ∧ (role u = SALESPERSON ->
     let denied :=
       HTTPException 403 "Access denied. Required roles: ['admin', 'manager']" in
     create_inventory_item hmac_sha256 int_of_str SECRET_KEY item_create creds a
     = (Raise denied, set_base w1 a)
     ∧ update_inventory_item hmac_sha256 int_of_str SECRET_KEY item_id
         item_update creds a
       = (Raise denied, set_base w1 a)
     ∧ delete_inventory_item hmac_sha256 int_of_str SECRET_KEY item_id creds a
       = (Raise denied, set_base w1 a)).
Proof.
  intros H. split.
  - intros Hrole. unfold update_metal_prices, mbind, H_bind.
    rewrite (depends_role_run _ _ _ _ _ H).
    rewrite bool_decide_eq_false_2; [done|].
    by intros Heq%list_elem_of_singleton.
  - intros Hrole. cbv zeta.
    unfold create_inventory_item, update_inventory_item, delete_inventory_item,
      mbind, H_bind.
    rewrite (depends_role_run [ADMIN; MANAGER] _ _ _ _ H).
    rewrite bool_decide_eq_false_2; [done|].
    rewrite Hrole.
    intros [?|[?|[]%elem_of_nil]%elem_of_cons]%elem_of_cons; done.
Qed.

(** X19. A request that [get_current_user] refuses reaches no handler: each
    of the five guarded handlers raises the failure of [get_current_user]
    and leaves the two collections as they are. *)
Theorem unauthenticated_requests_are_stopped
    (creds : HTTPAuthorizationCredentials) (a : app_state) (e : exn)
    (w1 : world) (price_update : MetalPriceUpdate.t)
    (item_create : InventoryItemCreate.t) (item_id : string)
    (item_update : InventoryItemUpdate.t) :
  get_current_user hmac_sha256 int_of_str SECRET_KEY creds (base a)
  = (Raise e, w1) ->
  update_metal_prices hmac_sha256 int_of_str SECRET_KEY price_update creds a
  = (Raise e, set_base w1 a)
  ∧ create_inventory_item hmac_sha256 int_of_str SECRET_KEY item_create creds a
    = (Raise e, set_base w1 a)
  ∧ get_inventory_item hmac_sha256 int_of_str SECRET_KEY item_id creds a
    = (Raise e, set_base w1 a)
  ∧ update_inventory_item hmac_sha256 int_of_str SECRET_KEY item_id item_update
      creds a
    = (Raise e, set_base w1 a)
  ∧ delete_inventory_item hmac_sha256 int_of_str SECRET_KEY item_id creds a
    = (Raise e, set_base w1 a).
Proof.
  intros H.
  unfold update_metal_prices, create_inventory_item, get_inventory_item,
    update_inventory_item, delete_inventory_item, mbind, H_bind.
  by rewrite !(depends_role_refused _ _ _ _ _ H).
Qed.

(** X20. Reading an item is open to every role: for every resolved user
    [get_inventory_item] answers with the first stored item that has the
    id, or with 404 "Item not found" when no stored item has it, and
    leaves the two collections as they are. *)
Theorem every_role_may_read (creds : HTTPAuthorizationCredentials)
    (a : app_state) (u : User) (w1 : world) (item_id : string) :
  get_current_user hmac_sha256 int_of_str SECRET_KEY creds (base a)
  = (Return u, w1) ->
  ((∀ i, i ∈ inventory_items a -> InventoryItem.id i ≠ item_id) ->
   get_inventory_item hmac_sha256 int_of_str SECRET_KEY item_id creds a
   = (Raise (HTTPException 404 "Item not found"), set_base w1 a))
  ∧ (∀ before i after,
       inventory_items a = before ++ i :: after ->
       InventoryItem.id i = item_id ->
       (∀ j, j ∈ before -> InventoryItem.id j ≠ item_id) ->
       get_inventory_item hmac_sha256 int_of_str SECRET_KEY item_id creds a
       = (Return i, set_base w1 a)).
Proof.
  intros H.
  assert (get_inventory_item hmac_sha256 int_of_str SECRET_KEY item_id creds a
          = (match List.find (fun i => String.eqb (InventoryItem.id i) item_id)
                     (inventory_items a) with
             | Some i => Return i
             | None => Raise (HTTPException 404 "Item not found")
             end, set_base w1 a)) as ->.
  { unfold get_inventory_item, mbind, H_bind.
    rewrite (depends_role_run _ _ _ _ _ H).
    rewrite bool_decide_eq_true_2.
    2: { destruct (role u); repeat constructor. }
    unfold find_item_by_id. cbn [inventory_items set_base].
    by destruct (List.find _ _). }
  split.
  - intros Hnone%find_by_id_None. by rewrite Hnone.
  - intros before i after -> Hid Hbefore.
    by destruct (first_with_id item_id before i after (fun j => j) Hid Hbefore)
      as (-> & _).
Qed.

Lemma depends_role_admitted allowed creds a u w1 :
  get_current_user hmac_sha256 int_of_str SECRET_KEY creds (base a)
  = (Return u, w1) ->
  role u ∈ allowed ->
  depends_role hmac_sha256 int_of_str SECRET_KEY allowed creds a
  = (Return u, set_base w1 a).
Proof.
  intros H Hin. rewrite (depends_role_run _ _ _ _ _ H).
  by rewrite bool_decide_eq_true_2.
Qed.

Ltac run_handler :=
  unfold in_world, uuid4, os_urandom, datetime_now, mbind, M_bind, H_bind,
    mret, M_ret, H_ret, fail, find_item_by_sku, find_item_by_id, insert_item,
    insert_metal_price, update_one_item, delete_one_item;
  cbn [base metal_prices inventory_items set_base set_metal_prices
       set_inventory_items clock entropy consumed set_consumed].

(** X21. For an administrator or a manager, [create_inventory_item] refuses
    an SKU that a stored item has with 400 "SKU already exists" and stores
    nothing; for a new SKU it appends one item to the collection, with the
    fields of the request and the username of the caller as [created_by],
    and returns it. *)
Theorem create_inventory_item_stores (creds : HTTPAuthorizationCredentials)
    (a : app_state) (u : User) (w1 : world)
    (item_create : InventoryItemCreate.t) :
  get_current_user hmac_sha256 int_of_str SECRET_KEY creds (base a)
  = (Return u, w1) ->
  role u ∈ [ADMIN; MANAGER] ->
  ((∃ i, i ∈ inventory_items a
         ∧ InventoryItem.sku i = InventoryItemCreate.sku item_create) ->
   create_inventory_item hmac_sha256 int_of_str SECRET_KEY item_create creds a
   = (Raise (HTTPException 400 "SKU already exists"), set_base w1 a))
  ∧ ((∀ i, i ∈ inventory_items a ->
           InventoryItem.sku i ≠ InventoryItemCreate.sku item_create) ->
     ∃ item a',
       create_inventory_item hmac_sha256 int_of_str SECRET_KEY item_create creds a
       = (Return item, a')
       ∧ inventory_items a' = inventory_items a ++ [stored_item item]
       ∧ metal_prices a' = metal_prices a
       ∧ InventoryItem.created_by item = username u
       ∧ InventoryItem.sku item = InventoryItemCreate.sku item_create
       ∧ InventoryItem.name item = InventoryItemCreate.name item_create
       ∧ InventoryItem.metal_type item = InventoryItemCreate.metal_type item_create
       ∧ InventoryItem.weight_grams item
         = InventoryItemCreate.weight_grams item_create
       ∧ InventoryItem.cost_price item = InventoryItemCreate.cost_price item_create
       ∧ InventoryItem.photo_base64 item
         = InventoryItemCreate.photo_base64 item_create
       ∧ InventoryItem.description item
         = InventoryItemCreate.description item_create
       ∧ InventoryItem.created_at item = clock w1
       ∧ InventoryItem.updated_at item = clock w1).
Proof.
  intros H Hrole. split.
  - intros (i & Hin & Hsku).
    unfold create_inventory_item, mbind at 1, H_bind at 1.
    rewrite (depends_role_admitted _ _ _ _ _ H Hrole). run_handler.
    rewrite bool_decide_eq_true_2; [done|].
    apply not_None_is_Some. intros Hnone.
    by apply (proj1 (find_by_sku_None _ _) Hnone i).
  - intros Hfresh%find_by_sku_None.
    unfold create_inventory_item, mbind at 1, H_bind at 1.
    rewrite (depends_role_admitted _ _ _ _ _ H Hrole). run_handler.
    rewrite Hfresh.
    rewrite (bool_decide_eq_false_2 (is_Some None)) by (by intros [? ?]).
    eexists _, _. split; [reflexivity|].
    cbn [inventory_items metal_prices set_inventory_items set_base].
    by repeat split.
Qed.

(** X22. What was created can be read back: when no stored item has the
    SKU of the request nor the id drawn for the new item,
    [get_inventory_item] with the id of the item that
    [create_inventory_item] returned answers, for every resolved user, with
    the stored form of that item (its instants cut to the millisecond). *)
Theorem create_then_get (creds : HTTPAuthorizationCredentials)
    (a : app_state) (u : User) (w1 : world)
    (item_create : InventoryItemCreate.t) :
  get_current_user hmac_sha256 int_of_str SECRET_KEY creds (base a)
  = (Return u, w1) ->
  role u ∈ [ADMIN; MANAGER] ->
  (∀ i, i ∈ inventory_items a ->
        InventoryItem.sku i ≠ InventoryItemCreate.sku item_create) ->
  (∀ i, i ∈ inventory_items a ->
        InventoryItem.id i ≠ uuid4_from (entropy w1 <$> seq (consumed w1) 16)) ->
  ∃ item a',
    create_inventory_item hmac_sha256 int_of_str SECRET_KEY item_create creds a
    = (Return item, a')
    ∧ ∀ creds2 u2 w2,
        get_current_user hmac_sha256 int_of_str SECRET_KEY creds2 (base a')
        = (Return u2, w2) ->
        get_inventory_item hmac_sha256 int_of_str SECRET_KEY
          (InventoryItem.id item) creds2 a'
        = (Return (stored_item item), set_base w2 a').
Proof.
  intros H Hrole Hfresh%find_by_sku_None Hid.
  unfold create_inventory_item, mbind at 1, H_bind at 1.
  rewrite (depends_role_admitted _ _ _ _ _ H Hrole). run_handler.
  rewrite Hfresh.
  rewrite (bool_decide_eq_false_2 (is_Some None)) by (by intros [? ?]).
  eexists _, _. split; [reflexivity|].
  intros creds2 u2 w2 H2. cbn [InventoryItem.id].
  unfold get_inventory_item, mbind at 1, H_bind at 1.
  rewrite (depends_role_admitted _ _ _ _ _ H2)
    by (destruct (role u2); repeat constructor).
  run_handler.
  match goal with
  | |- context [inventory_items a ++ [?i]] =>
      destruct (first_with_id (uuid4_from (entropy w1 <$> seq (consumed w1) 16))
                  (inventory_items a) i [] (fun j => j) eq_refl Hid)
        as (-> & _)
  end.
  reflexivity.
Qed.

(** What [create_inventory_item] can do to the collection. *)
Lemma create_inventory_item_items creds a item_create :
  let a' :=
    (create_inventory_item hmac_sha256 int_of_str SECRET_KEY item_create creds a).2
  in
  inventory_items a' = inventory_items a
  ∨ ((∀ i, i ∈ inventory_items a ->
           InventoryItem.sku i ≠ InventoryItemCreate.sku item_create)
     ∧ ∃ item, InventoryItem.sku item = InventoryItemCreate.sku item_create
               ∧ inventory_items a' = inventory_items a ++ [item]).
Proof.
  cbv zeta. unfold create_inventory_item, mbind, H_bind.
  destruct (get_current_user hmac_sha256 int_of_str SECRET_KEY creds (base a))
    as [[u|e] w1] eqn:H.
  2: { rewrite (depends_role_refused _ _ _ _ _ H). by left. }
  rewrite (depends_role_run _ _ _ _ _ H).
  case_bool_decide; [|by left]. run_handler.
  destruct (List.find _ (inventory_items a)) as [i|] eqn:Hfind.
  { rewrite bool_decide_eq_true_2 by (by eexists). by left. }
  rewrite (bool_decide_eq_false_2 (is_Some None)) by (by intros [? ?]).
  right. split; [by apply find_by_sku_None|].
  eexists. split; [|reflexivity]. reflexivity.
Qed.

(** X23. [create_inventory_item] keeps SKUs unique: if no two stored items
    share an SKU before the call, none do after it, whoever calls and
    whatever the call returns or raises. *)
Theorem create_keeps_skus_unique (creds : HTTPAuthorizationCredentials)
    (a : app_state) (item_create : InventoryItemCreate.t) :
  NoDup (InventoryItem.sku <$> inventory_items a) ->
  NoDup (InventoryItem.sku
           <$> inventory_items
                 (create_inventory_item hmac_sha256 int_of_str SECRET_KEY
                    item_create creds a).2).
Proof.
  intros Hunique.
  destruct (create_inventory_item_items creds a item_create)
    as [->|(Hfresh & item & Hsku & ->)]; [done|].
  rewrite fmap_app. cbn [fmap list_fmap].
  apply NoDup_app. split; [done|]. split; [|apply NoDup_singleton].
  intros x (i & -> & Hin)%list_elem_of_fmap Heq%list_elem_of_singleton.
  apply (Hfresh i Hin). congruence.
Qed.

(** X24. For an administrator or a manager, [delete_inventory_item] answers
    404 "Item not found" and removes nothing when no stored item has the
    id; otherwise it removes the first stored item with the id and nothing
    else.  When no other item has that id, reading the id afterwards gives
    404. *)
Theorem delete_inventory_item_removes (creds : HTTPAuthorizationCredentials)
    (a : app_state) (u : User) (w1 : world) (item_id : string) :
  get_current_user hmac_sha256 int_of_str SECRET_KEY creds (base a)
  = (Return u, w1) ->
  role u ∈ [ADMIN; MANAGER] ->
  ((∀ i, i ∈ inventory_items a -> InventoryItem.id i ≠ item_id) ->
   delete_inventory_item hmac_sha256 int_of_str SECRET_KEY item_id creds a
   = (Raise (HTTPException 404 "Item not found"), set_base w1 a))
  ∧ (∀ before i after,
       inventory_items a = before ++ i :: after ->
       InventoryItem.id i = item_id ->
       (∀ j, j ∈ before -> InventoryItem.id j ≠ item_id) ->
       let a' := set_inventory_items (before ++ after) (set_base w1 a) in
       delete_inventory_item hmac_sha256 int_of_str SECRET_KEY item_id creds a
       = (Return deleted, a')
       ∧ ((∀ j, j ∈ after -> InventoryItem.id j ≠ item_id) ->
          ∀ creds2 u2 w2,
            get_current_user hmac_sha256 int_of_str SECRET_KEY creds2 (base a')
            = (Return u2, w2) ->
            get_inventory_item hmac_sha256 int_of_str SECRET_KEY item_id creds2 a'
            = (Raise (HTTPException 404 "Item not found"), set_base w2 a'))).
Proof.
  intros H Hrole. split.
  - intros Hnone.
    unfold delete_inventory_item, mbind at 1, H_bind at 1.
    rewrite (depends_role_admitted _ _ _ _ _ H Hrole). run_handler.
    by destruct (none_with_id item_id (inventory_items a) (fun j => j) Hnone)
      as [_ ->].
  - intros before i after Hitems Hid Hbefore. cbv zeta. split.
    + unfold delete_inventory_item, mbind at 1, H_bind at 1.
      rewrite (depends_role_admitted _ _ _ _ _ H Hrole). run_handler.
      rewrite Hitems.
      by destruct (first_with_id item_id before i after (fun j => j) Hid Hbefore)
        as (_ & _ & ->).
    + intros Hafter creds2 u2 w2 H2.
      unfold get_inventory_item, mbind at 1, H_bind at 1.
      rewrite (depends_role_admitted _ _ _ _ _ H2)
        by (destruct (role u2); repeat constructor).
      run_handler.
      assert (List.find (fun j => String.eqb (InventoryItem.id j) item_id)
                (before ++ after) = None) as ->; [|done].
      apply find_by_id_None. intros j [?|?]%elem_of_app; auto.
Qed.

(** X25. For an administrator or a manager, [update_inventory_item] answers
    404 "Item not found" and changes nothing when no stored item has the
    id; otherwise it changes the first stored item with the id, in place,
    and returns it.  The id, the SKU, the creator and the creation instant
    of the item stay; a field the request leaves out keeps its value, so a
    description can be replaced but not removed. *)
Theorem update_inventory_item_changes (creds : HTTPAuthorizationCredentials)
    (a : app_state) (u : User) (w1 : world) (item_id : string)
    (item_update : InventoryItemUpdate.t) :
  get_current_user hmac_sha256 int_of_str SECRET_KEY creds (base a)
  = (Return u, w1) ->
  role u ∈ [ADMIN; MANAGER] ->
  ((∀ i, i ∈ inventory_items a -> InventoryItem.id i ≠ item_id) ->
   update_inventory_item hmac_sha256 int_of_str SECRET_KEY item_id item_update
     creds a
   = (Raise (HTTPException 404 "Item not found"), set_base w1 a))
  ∧ (∀ before i after,
       inventory_items a = before ++ i :: after ->
       InventoryItem.id i = item_id ->
       (∀ j, j ∈ before -> InventoryItem.id j ≠ item_id) ->
       ∃ updated,
         update_inventory_item hmac_sha256 int_of_str SECRET_KEY item_id
           item_update creds a
         = (Return updated,
            set_inventory_items (before ++ updated :: after) (set_base w1 a))
         ∧ InventoryItem.id updated = InventoryItem.id i
         ∧ InventoryItem.sku updated = InventoryItem.sku i
         ∧ InventoryItem.created_by updated = InventoryItem.created_by i
         ∧ InventoryItem.created_at updated = InventoryItem.created_at i
         ∧ InventoryItem.updated_at updated = bson_datetime (clock w1)
         ∧ InventoryItem.name updated
           = default (InventoryItem.name i) (InventoryItemUpdate.name item_update)
         ∧ InventoryItem.cost_price updated
           = default (InventoryItem.cost_price i)
               (InventoryItemUpdate.cost_price item_update)
         ∧ (InventoryItemUpdate.description item_update = None ->
            InventoryItem.description updated = InventoryItem.description i)
         ∧ (∀ text, InventoryItemUpdate.description item_update = Some text ->
            InventoryItem.description updated = Some text)).
Proof.
  intros H Hrole. split.
  - intros Hnone%find_by_id_None.
    unfold update_inventory_item, mbind at 1, H_bind at 1.
    rewrite (depends_role_admitted _ _ _ _ _ H Hrole). run_handler.
    by rewrite Hnone.
  - intros before i after Hitems Hid Hbefore.
    unfold update_inventory_item, mbind at 1, H_bind at 1.
    rewrite (depends_role_admitted _ _ _ _ _ H Hrole). run_handler.
    rewrite Hitems.
    destruct (first_with_id item_id before i after
                (set_fields item_update (clock w1)) Hid Hbefore)
      as (Hfound & Hupdated & _).
    rewrite Hfound. run_handler. rewrite Hitems, Hupdated.
    destruct (first_with_id item_id before
                (set_fields item_update (clock w1) i) after (fun j => j)
                Hid Hbefore) as (-> & _).
    eexists. split; [reflexivity|].
    cbn [set_fields InventoryItem.id InventoryItem.sku InventoryItem.created_by
         InventoryItem.created_at InventoryItem.updated_at InventoryItem.name
         InventoryItem.cost_price InventoryItem.description].
    repeat (split; [reflexivity|]). split.
    + by intros ->.
    + by intros text ->.
Qed.

(** X26. For an administrator, [update_metal_prices] appends one price
    record to the collection and returns it: gold and silver as requested,
    the username of the caller as [updated_by], and for platinum the
    requested price, or zero when the request has none or a zero. *)
Theorem update_metal_prices_appends (creds : HTTPAuthorizationCredentials)
    (a : app_state) (u : User) (w1 : world)
    (price_update : MetalPriceUpdate.t) :
  get_current_user hmac_sha256 int_of_str SECRET_KEY creds (base a)
  = (Return u, w1) ->
  role u = ADMIN ->
  ∃ price a',
    update_metal_prices hmac_sha256 int_of_str SECRET_KEY price_update creds a
    = (Return price, a')
    ∧ metal_prices a' = metal_prices a ++ [stored_metal_price price]
    ∧ inventory_items a' = inventory_items a
    ∧ MetalPrice.updated_by price = username u
    ∧ MetalPrice.gold_price price = MetalPriceUpdate.gold_price price_update
    ∧ MetalPrice.silver_price price = MetalPriceUpdate.silver_price price_update
    ∧ MetalPrice.updated_at price = clock w1
    ∧ (∀ p, MetalPriceUpdate.platinum_price price_update = Some p ->
            float_truthy p = true -> MetalPrice.platinum_price price = p)
    ∧ (∀ p, MetalPriceUpdate.platinum_price price_update = Some p ->
            float_truthy p = false -> MetalPrice.platinum_price price = float_zero)
    ∧ (MetalPriceUpdate.platinum_price price_update = None ->
       MetalPrice.platinum_price price = float_zero).
Proof.
  intros H Hrole.
  unfold update_metal_prices, mbind at 1, H_bind at 1.
  rewrite (depends_role_admitted _ _ _ _ _ H)
    by (rewrite Hrole; apply list_elem_of_singleton; reflexivity).
  run_handler. eexists _, _. split; [reflexivity|].
  cbn [metal_prices inventory_items set_metal_prices set_base
       MetalPrice.updated_by MetalPrice.gold_price MetalPrice.silver_price
       MetalPrice.updated_at MetalPrice.platinum_price].
  repeat (split; [reflexivity|]). split; [|split].
  - by intros p -> ->.
  - by intros p -> ->.
  - by intros ->.
Qed.

End EndpointFacts.

(** * Properties of server.py: the profile of the caller *)

Section ProfileFacts.

Variable eks_blowfish : N -> bytes -> bytes -> bytes.
Variable hmac_sha256 : bytes -> jwt.jose_header -> gmap string json -> bytes.
Variable int_of_str : string -> option Z.
Variable SECRET_KEY : string.

(** The token of a fresh registration resolves to the stored document. *)
Lemma registered_user_resolves (uc : UserCreate.t) (w : world) :
  stored_user (UserCreate.username uc) (users w) = None ->
  email_taken (UserCreate.email uc) (users w) = None ->
  in_datetime_range (clock w + 86400000000) ->
  UserCreate.username uc ≠ "" ->
  ∃ response w',
    register eks_blowfish hmac_sha256 SECRET_KEY uc w = (Return response, w')
    ∧ ∃ user,
        Token.user response = user_response user
        ∧ get_current_user hmac_sha256 int_of_str SECRET_KEY
            (bearer (Token.access_token response)) w'
          = (Return (stored_user_document user),
             set_queries (JStr (UserCreate.username uc) :: queries w') w').
Proof.
  intros Hname Hemail Hrange Hnonempty.
  destruct (register_run eks_blowfish hmac_sha256 SECRET_KEY uc w
              Hname Hemail Hrange) as [h ->].
  eexists _, _. split; [reflexivity|].
  match goal with
  | |- context [set_heap h ?v] => set (w' := set_heap h v)
  end.
  match goal with
  | |- context [user_response ?v] => set (user := v) in *
  end.
  exists user. split; [reflexivity|]. cbn [Token.access_token].
  assert (decode_access_token hmac_sha256 int_of_str SECRET_KEY
            (jwt.Compact HS256_header
               (with_exp (clock w + 86400000000) (Sample.login_claims user))
               (hmac_sha256 (str_encode SECRET_KEY) HS256_header
                  (with_exp (clock w + 86400000000) (Sample.login_claims user))))
            w'
          = (Return (with_exp (clock w + 86400000000) (Sample.login_claims user)),
             w')) as Hverified.
  { apply user_token_verifies. subst w'.
    cbn [clock set_heap set_users set_consumed set_queries].
    apply timegm_after. lia. }
  rewrite (get_current_user_lookup hmac_sha256 int_of_str SECRET_KEY
             (bearer _) _ _ _ (UserCreate.username uc)
             Hverified (login_claims_sub_exp user _) Hnonempty).
  subst w'. cbn [users set_heap set_users].
  fold (stored_user (UserCreate.username uc)
          (users w ++ [stored_user_document user])).
  by rewrite (stored_user_app_new _ _ (stored_user_document user) Hname).
Qed.

(** X27. What [register] answers and what [get_current_user_info] answers
    for the token of that registration differ in one field only: the
    profile read back has the creation instant cut to the millisecond, as
    the store keeps it; id, username, email address and role agree. *)
Theorem profile_after_register (uc : UserCreate.t) (w : world) :
  (∀ u, u ∈ users w -> username u ≠ UserCreate.username uc) ->
  (∀ u, u ∈ users w -> email u ≠ UserCreate.email uc) ->
  in_datetime_range (clock w + 86400000000) ->
  UserCreate.username uc ≠ "" ->
  ∃ response w',
    register eks_blowfish hmac_sha256 SECRET_KEY uc w = (Return response, w')
    ∧ get_current_user_info hmac_sha256 int_of_str SECRET_KEY
        (bearer (Token.access_token response)) w'
      = (Return
           {| UserResponse.id := UserResponse.id (Token.user response);
              UserResponse.username := UserResponse.username (Token.user response);
              UserResponse.email := UserResponse.email (Token.user response);
              UserResponse.role := UserResponse.role (Token.user response);
              UserResponse.created_at :=
                bson_datetime (UserResponse.created_at (Token.user response)) |},
         set_queries (JStr (UserCreate.username uc) :: queries w') w')
    ∧ UserResponse.created_at (Token.user response) = clock w.
Proof.
  intros Hname%stored_user_None Hemail%email_taken_None Hrange Hnonempty.
  pose proof (register_run eks_blowfish hmac_sha256 SECRET_KEY uc w
                Hname Hemail Hrange) as [h Hrun].
  destruct (registered_user_resolves uc w Hname Hemail Hrange Hnonempty)
    as (response & w' & Hregister & user & Huser & Hresolved).
  exists response, w'. split; [done|]. split.
  - unfold get_current_user_info, mbind, M_bind. rewrite Hresolved, Huser.
    reflexivity.
  - rewrite Hrun in Hregister. by injection Hregister as <- _.
Qed.

End ProfileFacts.

(** * Properties of server.py: the cache of agents *)

Section AgentFacts.

Variable AgentConfig : Type.

Implicit Types (s : agent_state AgentConfig) (ag : agent AgentConfig).

(** X28. An agent is built once: after [_get_or_create_agent] has returned
    an agent for a type, every later call for that type returns that same
    agent and changes nothing, even when the configuration of the
    application has been replaced in between. *)
Theorem agent_is_built_once (agent_type : string) s s1 ag
    (later : AgentConfig) :
  _get_or_create_agent AgentConfig agent_type s = (Return ag, s1) ->
  let s2 := AgentState AgentConfig later (agent_cache AgentConfig s1) in
  _get_or_create_agent AgentConfig agent_type s2 = (Return ag, s2).
Proof.
  intros H s2. unfold _get_or_create_agent, _get_agent_cache in *.
  assert (∃ cache, agent_cache AgentConfig s1 = Some cache
                   ∧ cache !! agent_type = Some ag) as (cache & Hcache & Hag).
  { destruct (agent_cache AgentConfig s) as [cache|] eqn:Hs.
    - destruct (cache !! agent_type) as [ag'|] eqn:Hlookup.
      + injection H as <- <-. by exists cache.
      + cbn [agent_config agent_cache] in H.
        destruct (String.eqb agent_type "search"); [|destruct (String.eqb agent_type "chat")];
          [| |done]; injection H as <- <-; eexists; (split; [reflexivity|]);
          by rewrite lookup_insert_eq.
    - rewrite lookup_empty in H. cbn [agent_config agent_cache] in H.
      destruct (String.eqb agent_type "search"); [|destruct (String.eqb agent_type "chat")];
        [| |done]; injection H as <- <-; eexists; (split; [reflexivity|]);
        by rewrite lookup_insert_eq. }
  subst s2. cbn [agent_cache]. by rewrite Hcache, Hag.
Qed.

(** X29. The cache holds agents of the two known kinds only, each under its
    own name: if that is so before a call of [_get_or_create_agent], it is
    so after it; and then a call for any other type raises 400 "Unknown
    agent type" and adds nothing to the cache. *)
Theorem agent_cache_holds_known_kinds (agent_type : string) s :
  let known (s : agent_state AgentConfig) :=
    ∀ k ag, (_get_agent_cache AgentConfig s).1 !! k = Some ag ->
            (k = "search" ∧ ∃ config, ag = SearchAgent AgentConfig config)
            ∨ (k = "chat" ∧ ∃ config, ag = ChatAgent AgentConfig config) in
  known s ->
  known (_get_or_create_agent AgentConfig agent_type s).2
  ∧ (agent_type ≠ "search" -> agent_type ≠ "chat" ->
     _get_or_create_agent AgentConfig agent_type s
     = (Raise (HTTPException 400
                 ("Unknown agent type '" +:+ agent_type +:+ "'")),
        (_get_agent_cache AgentConfig s).2)).
Proof.
  cbv zeta beta. intros Hknown.
  unfold _get_or_create_agent.
  destruct (_get_agent_cache AgentConfig s) as [cache s0] eqn:Hget.
  assert (agent_cache AgentConfig s0 = Some cache) as Hs0.
  { unfold _get_agent_cache in Hget.
    destruct (agent_cache AgentConfig s) eqn:Hs; by injection Hget as <- <-. }
  cbn [fst snd] in *.
  assert ((_get_agent_cache AgentConfig s0).1 = cache) as Hagain.
  { unfold _get_agent_cache. by rewrite Hs0. }
  split.
  - destruct (cache !! agent_type) as [ag'|] eqn:Hlookup.
    { cbn [snd]. by rewrite Hagain. }
    destruct (String.eqb_spec agent_type "search") as [->|Hsearch];
      [|destruct (String.eqb_spec agent_type "chat") as [->|Hchat]];
      cbn [snd]; unfold _get_agent_cache; cbn [agent_cache fst].
    + intros k ag [[<- <-]|[_ Hold]]%lookup_insert_Some; [|by apply Hknown].
      left. split; [done|]. by eexists.
    + intros k ag [[<- <-]|[_ Hold]]%lookup_insert_Some; [|by apply Hknown].
      right. split; [done|]. by eexists.
    + rewrite Hs0. cbn [fst]. done.
  - intros Hsearch Hchat.
    destruct (cache !! agent_type) as [ag'|] eqn:Hlookup.
    { destruct (Hknown _ _ Hlookup) as [[? _]|[? _]]; done. }
    rewrite (proj2 (String.eqb_neq _ _) Hsearch).
    by rewrite (proj2 (String.eqb_neq _ _) Hchat).
Qed.

End AgentFacts.

(** * Runs of the further properties on the sample process and shop *)

Lemma alice_resolves r :
  get_current_user Sample.hmac_sha256 Sample.int_of_str Sample.SECRET_KEY
    Shop.alice_credentials (Sample.process ∅ r)
  = (Return (Sample.alice r), set_queries [JStr "alice"] (Sample.process ∅ r)).
Proof. destruct r; vm_compute; reflexivity. Qed.

Ltac by_members :=
  let Hin := fresh "Hin" in
  let Heq := fresh "Heq" in
  intros ? Hin;
  repeat (apply elem_of_cons in Hin as [->|Hin];
          [intros Heq; vm_compute in Heq; discriminate Heq|]);
  by apply elem_of_nil in Hin.

Lemma accepted_token_is_signed_and_current_witness :
  let t := Sample.issued_token (Sample.login_claims (Sample.alice ADMIN)) None in
  let w := Sample.process ∅ ADMIN in
  let p := with_exp (1762000000200000 + 86400000000)
             (Sample.login_claims (Sample.alice ADMIN)) in
  w = w
  ∧ (∃ header,
       jwt.alg header = "HS256"
       ∧ t = jwt.Compact header p
               (Sample.hmac_sha256 (str_encode Sample.SECRET_KEY) header p))
  ∧ (∀ e, p !! "exp" = Some (JInt e) -> clock w < e * 1000000).
Proof.
  cbv zeta.
  apply (accepted_token_is_signed_and_current Sample.hmac_sha256
           Sample.int_of_str Sample.SECRET_KEY).
  vm_compute. reflexivity.
Defined.

Lemma other_algorithms_are_refused_witness :
  let w := Sample.process ∅ ADMIN in
  decode_access_token Sample.hmac_sha256 Sample.int_of_str Sample.SECRET_KEY
    (jwt.Compact (jwt.JoseHeader "JWT" "none") {[ "sub" := JStr "alice" ]} []) w
  = (Raise (HTTPException 401 "Invalid token"), w)
  ∧ decode_access_token Sample.hmac_sha256 Sample.int_of_str Sample.SECRET_KEY
      (jwt.Undecodable "garbage") w
    = (Raise (HTTPException 401 "Invalid token"), w).
Proof.
  cbv zeta.
  apply (other_algorithms_are_refused Sample.hmac_sha256 Sample.int_of_str
           Sample.SECRET_KEY (jwt.JoseHeader "JWT" "none")).
  vm_compute. discriminate.
Defined.

Lemma token_without_exp_never_expires_witness :
  let p : gmap string json := {[ "sub" := JStr "alice" ]} in
  let w := set_clock 4102444800000000 (Sample.process ∅ ADMIN) in
  decode_access_token Sample.hmac_sha256 Sample.int_of_str Sample.SECRET_KEY
    (jwt.Compact HS256_header p
       (Sample.hmac_sha256 (str_encode Sample.SECRET_KEY) HS256_header p)) w
  = (Return p, w).
Proof.
  cbv zeta.
  apply (token_without_exp_never_expires Sample.hmac_sha256 Sample.int_of_str
           Sample.SECRET_KEY {[ "sub" := JStr "alice" ]}
           (Sample.process ∅ ADMIN) 4102444800000000).
  vm_compute. reflexivity.
Defined.

Lemma resolved_user_is_the_subject_witness :
  let w := Sample.process ∅ MANAGER in
  let u := Sample.alice MANAGER in
  (∃ p,
     decode_access_token Sample.hmac_sha256 Sample.int_of_str Sample.SECRET_KEY
       (credentials Shop.alice_credentials) w = (Return p, w)
     ∧ p !! "sub" = Some (JStr (username u)))
  ∧ username u ≠ ""
  ∧ (∃ before after,
       users w = before ++ u :: after
       ∧ ∀ u', u' ∈ before -> username u' ≠ username u)
  ∧ set_queries [JStr "alice"] w
    = set_queries (JStr (username u) :: queries w) w.
Proof.
  cbv zeta.
  apply (resolved_user_is_the_subject Sample.hmac_sha256 Sample.int_of_str
           Sample.SECRET_KEY Shop.alice_credentials (Sample.process ∅ MANAGER)
           (Sample.alice MANAGER)
           (set_queries [JStr "alice"] (Sample.process ∅ MANAGER))).
  vm_compute. reflexivity.
Defined.

Lemma guard_admits_only_allowed_roles_witness :
  let w := Sample.process ∅ MANAGER in
  get_current_user Sample.hmac_sha256 Sample.int_of_str Sample.SECRET_KEY
    Shop.alice_credentials w
  = (Return (Sample.alice MANAGER), set_queries [JStr "alice"] w)
  ∧ role (Sample.alice MANAGER) ∈ [ADMIN; MANAGER]
  ∧ [ADMIN; MANAGER] ≠ [].
Proof.
  cbv zeta.
  apply (guard_admits_only_allowed_roles Sample.hmac_sha256 Sample.int_of_str
           Sample.SECRET_KEY [ADMIN; MANAGER] Shop.alice_credentials
           (Sample.process ∅ MANAGER)).
  vm_compute. reflexivity.
Defined.

Lemma guard_is_monotone_witness :
  let w := Sample.process ∅ ADMIN in
  (∀ u w1,
     require_role Sample.hmac_sha256 Sample.int_of_str Sample.SECRET_KEY [ADMIN]
       Shop.alice_credentials w = (Return u, w1) ->
     require_role Sample.hmac_sha256 Sample.int_of_str Sample.SECRET_KEY
       [ADMIN; MANAGER] Shop.alice_credentials w = (Return u, w1))
  ∧ (∀ e w1,
     get_current_user Sample.hmac_sha256 Sample.int_of_str Sample.SECRET_KEY
       Shop.alice_credentials w = (Raise e, w1) ->
     require_role Sample.hmac_sha256 Sample.int_of_str Sample.SECRET_KEY [ADMIN]
       Shop.alice_credentials w = (Raise e, w1)
     ∧ require_role Sample.hmac_sha256 Sample.int_of_str Sample.SECRET_KEY
         [ADMIN; MANAGER] Shop.alice_credentials w = (Raise e, w1)).
Proof.
  cbv zeta.
  apply (guard_is_monotone Sample.hmac_sha256 Sample.int_of_str
           Sample.SECRET_KEY [ADMIN] [ADMIN; MANAGER]).
  intros r Hin. apply list_elem_of_singleton in Hin as ->. left.
Defined.

Lemma verify_against_own_hash_witness :
  let w := Sample.process ∅ ADMIN in
  let salt := entropy w <$> seq (consumed w) 16 in
  ∃ h w1,
    hash_password Sample.eks_blowfish "s3cret" w = (Return h, w1)
    ∧ ∀ w2, ∃ b : bool,
        verify_password Sample.eks_blowfish "s3cret!" h w2 = (Return b, w2)
        ∧ (b = true
           <-> Sample.eks_blowfish 12 salt (take 72 (str_encode "s3cret!"))
               = Sample.eks_blowfish 12 salt (take 72 (str_encode "s3cret")))
        ∧ (take 72 (str_encode "s3cret!") = take 72 (str_encode "s3cret")
           -> b = true).
Proof.
  exact (verify_against_own_hash Sample.eks_blowfish "s3cret" "s3cret!"
           (Sample.process ∅ ADMIN)).
Defined.


Lemma register_refuses_duplicates_witness :
  let w := Sample.process ∅ ADMIN in
  register Sample.eks_blowfish Sample.hmac_sha256 Sample.SECRET_KEY Shop.again w
  = (Raise (HTTPException 400 "Username already exists"),
     set_queries (JStr "alice" :: queries w) w)
  ∧ register Sample.eks_blowfish Sample.hmac_sha256 Sample.SECRET_KEY Shop.alias w
    = (Raise (HTTPException 400 "Email already exists"),
       set_queries (JStr "alicia" :: queries w) w).
Proof.
  cbv zeta. split.
  - apply (proj1 (register_refuses_duplicates Sample.eks_blowfish
                    Sample.hmac_sha256 Sample.SECRET_KEY Shop.again
                    (Sample.process ∅ ADMIN))).
    exists (Sample.alice ADMIN). split; [left|reflexivity].
  - apply (proj2 (register_refuses_duplicates Sample.eks_blowfish
                    Sample.hmac_sha256 Sample.SECRET_KEY Shop.alias
                    (Sample.process ∅ ADMIN))).
    + by_members.
    + exists (Sample.alice ADMIN). split; [left|reflexivity].
Defined.

Lemma register_stores_the_user_witness :
  let w := Sample.process ∅ ADMIN in
  ∃ response doc w',
    register Sample.eks_blowfish Sample.hmac_sha256 Sample.SECRET_KEY Shop.bob w
    = (Return response, w')
    ∧ users w' = users w ++ [doc]
    ∧ username doc = "bob"
    ∧ email doc = "bob@example.com"
    ∧ role doc = MANAGER
    ∧ verify_password Sample.eks_blowfish "correct horse"
        (hashed_password doc) w' = (Return true, w')
    ∧ Token.token_type response = "bearer"
    ∧ UserResponse.id (Token.user response) = id doc
    ∧ UserResponse.username (Token.user response) = "bob"
    ∧ UserResponse.email (Token.user response) = "bob@example.com"
    ∧ UserResponse.role (Token.user response) = MANAGER.
Proof.
  cbv zeta.
  apply (register_stores_the_user Sample.eks_blowfish Sample.hmac_sha256
           Sample.SECRET_KEY Shop.bob (Sample.process ∅ ADMIN)).
  - by_members.
  - by_members.
  - unfold in_datetime_range. vm_compute. split; discriminate.
Defined.

Lemma register_keeps_users_unique_witness :
  let w' :=
    (register Sample.eks_blowfish Sample.hmac_sha256 Sample.SECRET_KEY Shop.bob
       (Sample.process ∅ ADMIN)).2 in
  NoDup (username <$> users w') ∧ NoDup (email <$> users w').
Proof.
  apply (register_keeps_users_unique Sample.eks_blowfish Sample.hmac_sha256
           Sample.SECRET_KEY Shop.bob (Sample.process ∅ ADMIN));
    vm_compute; apply NoDup_singleton.
Defined.

Lemma registered_token_passes_guard_witness :
  let w := Sample.process ∅ ADMIN in
  ∃ response doc w',
    register Sample.eks_blowfish Sample.hmac_sha256 Sample.SECRET_KEY Shop.bob w
    = (Return response, w')
    ∧ doc ∈ users w'
    ∧ username doc = "bob"
    ∧ role doc = MANAGER
    ∧ ∀ allowed_roles,
        require_role Sample.hmac_sha256 Sample.int_of_str Sample.SECRET_KEY
          allowed_roles (bearer (Token.access_token response)) w'
        = (if bool_decide (MANAGER ∈ allowed_roles) then Return doc
           else Raise (HTTPException 403
                         ("Access denied. Required roles: "
                            +:+ repr_list (models.value <$> allowed_roles))),
           set_queries (JStr "bob" :: queries w') w').
Proof.
  cbv zeta.
  apply (registered_token_passes_guard Sample.eks_blowfish Sample.hmac_sha256
           Sample.int_of_str Sample.SECRET_KEY Shop.bob (Sample.process ∅ ADMIN)).
  - by_members.
  - by_members.
  - unfold in_datetime_range. vm_compute. split; discriminate.
  - discriminate.
Defined.

Lemma empty_username_cannot_authenticate_witness :
  let w := Sample.process ∅ ADMIN in
  ∃ response w',
    register Sample.eks_blowfish Sample.hmac_sha256 Sample.SECRET_KEY
      Shop.nameless w = (Return response, w')
    ∧ get_current_user Sample.hmac_sha256 Sample.int_of_str Sample.SECRET_KEY
        (bearer (Token.access_token response)) w'
      = (Raise (HTTPException 401 "Invalid token payload"), w').
Proof.
  cbv zeta.
  apply (empty_username_cannot_authenticate Sample.eks_blowfish
           Sample.hmac_sha256 Sample.int_of_str Sample.SECRET_KEY Shop.nameless
           (Sample.process ∅ ADMIN)).
  - by_members.
  - by_members.
  - unfold in_datetime_range. vm_compute. split; discriminate.
  - reflexivity.
Defined.

Lemma login_failures_look_alike_witness :
  let w := Sample.process ∅ ADMIN in
  login Sample.eks_blowfish Sample.hmac_sha256 Sample.SECRET_KEY Shop.stranger w
  = (Raise (HTTPException 401 "Invalid username or password"),
     set_queries (JStr "mallory" :: queries w) w)
  ∧ login Sample.eks_blowfish Sample.hmac_sha256 Sample.SECRET_KEY Shop.guess w
    = (Raise (HTTPException 401 "Invalid username or password"),
       set_queries (JStr "alice" :: queries w) w).
Proof.
  cbv zeta. split.
  - apply (proj1 (login_failures_look_alike Sample.eks_blowfish
                    Sample.hmac_sha256 Sample.SECRET_KEY Shop.stranger
                    (Sample.process ∅ ADMIN))).
    by_members.
  - apply (proj2 (login_failures_look_alike Sample.eks_blowfish
                    Sample.hmac_sha256 Sample.SECRET_KEY Shop.guess
                    (Sample.process ∅ ADMIN))
             (Sample.alice ADMIN)
             (bcrypt.SaltParams (str_encode "2b") 12 (replicate 16 "000"%char))).
    + vm_compute. reflexivity.
    + vm_compute. reflexivity.
    + vm_compute. discriminate.
Defined.

Lemma login_raises_on_malformed_hash_witness :
  let w := set_users [Shop.carol] (Sample.process ∅ ADMIN) in
  login Sample.eks_blowfish Sample.hmac_sha256 Sample.SECRET_KEY
    Shop.carol_login w
  = (Raise (ValueError "Invalid salt"),
     set_queries (JStr "carol" :: queries w) w).
Proof.
  cbv zeta.
  apply (login_raises_on_malformed_hash Sample.eks_blowfish Sample.hmac_sha256
           Sample.SECRET_KEY Shop.carol_login
           (set_users [Shop.carol] (Sample.process ∅ ADMIN)) Shop.carol).
  - vm_compute. reflexivity.
  - vm_compute. reflexivity.
Defined.

Lemma register_then_login_witness :
  let w := Sample.process ∅ ADMIN in
  ∃ registered w' logged_in w'',
    register Sample.eks_blowfish Sample.hmac_sha256 Sample.SECRET_KEY Shop.bob w
    = (Return registered, w')
    ∧ login Sample.eks_blowfish Sample.hmac_sha256 Sample.SECRET_KEY
        {| UserLogin.username := "bob"; UserLogin.password := "correct horse" |}
        w'
      = (Return logged_in, w'')
    ∧ users w'' = users w'
    ∧ Token.token_type logged_in = "bearer"
    ∧ UserResponse.id (Token.user logged_in)
      = UserResponse.id (Token.user registered)
    ∧ UserResponse.username (Token.user logged_in) = "bob"
    ∧ UserResponse.email (Token.user logged_in) = "bob@example.com"
    ∧ UserResponse.role (Token.user logged_in) = MANAGER.
Proof.
  cbv zeta.
  apply (register_then_login Sample.eks_blowfish Sample.hmac_sha256
           Sample.SECRET_KEY Shop.bob (Sample.process ∅ ADMIN)).
  - by_members.
  - by_members.
  - unfold in_datetime_range. vm_compute. split; discriminate.
Defined.

Lemma profile_after_register_witness :
  let w := Sample.process ∅ ADMIN in
  ∃ response w',
    register Sample.eks_blowfish Sample.hmac_sha256 Sample.SECRET_KEY Shop.bob w
    = (Return response, w')
    ∧ get_current_user_info Sample.hmac_sha256 Sample.int_of_str
        Sample.SECRET_KEY (bearer (Token.access_token response)) w'
      = (Return
           {| UserResponse.id := UserResponse.id (Token.user response);
              UserResponse.username := UserResponse.username (Token.user response);
              UserResponse.email := UserResponse.email (Token.user response);
              UserResponse.role := UserResponse.role (Token.user response);
              UserResponse.created_at :=
                bson_datetime (UserResponse.created_at (Token.user response)) |},
         set_queries (JStr "bob" :: queries w') w')
    ∧ UserResponse.created_at (Token.user response) = 1762000000200000.
Proof.
  cbv zeta.
  apply (profile_after_register Sample.eks_blowfish Sample.hmac_sha256
           Sample.int_of_str Sample.SECRET_KEY Shop.bob (Sample.process ∅ ADMIN)).
  - by_members.
  - by_members.
  - unfold in_datetime_range. vm_compute. split; discriminate.
  - discriminate.
Defined.

Lemma writes_need_the_role_witness :
  let asked r := set_base (set_queries [JStr "alice"] (Sample.process ∅ r))
                   (Shop.shop r) in
  let denied :=
    HTTPException 403 "Access denied. Required roles: ['admin', 'manager']" in
  update_metal_prices Sample.hmac_sha256 Sample.int_of_str Sample.SECRET_KEY
    Shop.prices Shop.alice_credentials (Shop.shop MANAGER)
  = (Raise (HTTPException 403 "Access denied. Required roles: ['admin']"),
     asked MANAGER)
  ∧ create_inventory_item Sample.hmac_sha256 Sample.int_of_str Sample.SECRET_KEY
      Shop.chain_create Shop.alice_credentials (Shop.shop SALESPERSON)
    = (Raise denied, asked SALESPERSON)
  ∧ update_inventory_item Sample.hmac_sha256 Sample.int_of_str Sample.SECRET_KEY
      "item-1" Shop.engrave Shop.alice_credentials (Shop.shop SALESPERSON)
    = (Raise denied, asked SALESPERSON)
  ∧ delete_inventory_item Sample.hmac_sha256 Sample.int_of_str Sample.SECRET_KEY
      "item-1" Shop.alice_credentials (Shop.shop SALESPERSON)
    = (Raise denied, asked SALESPERSON).
Proof.
  cbv zeta. split.
  - apply (proj1 (writes_need_the_role Sample.hmac_sha256 Sample.int_of_str
                    Sample.SECRET_KEY Shop.alice_credentials (Shop.shop MANAGER)
                    (Sample.alice MANAGER)
                    (set_queries [JStr "alice"] (Sample.process ∅ MANAGER))
                    Shop.prices Shop.chain_create "item-1" Shop.engrave
                    (alice_resolves MANAGER))).
    discriminate.
  - apply (proj2 (writes_need_the_role Sample.hmac_sha256 Sample.int_of_str
                    Sample.SECRET_KEY Shop.alice_credentials
                    (Shop.shop SALESPERSON) (Sample.alice SALESPERSON)
                    (set_queries [JStr "alice"] (Sample.process ∅ SALESPERSON))
                    Shop.prices Shop.chain_create "item-1" Shop.engrave
                    (alice_resolves SALESPERSON))).
    reflexivity.
Defined.

Lemma unauthenticated_requests_are_stopped_witness :
  let creds := bearer (jwt.Undecodable "garbage") in
  let a := Shop.shop ADMIN in
  let e := HTTPException 401 "Invalid token" in
  update_metal_prices Sample.hmac_sha256 Sample.int_of_str Sample.SECRET_KEY
    Shop.prices creds a = (Raise e, a)
  ∧ create_inventory_item Sample.hmac_sha256 Sample.int_of_str Sample.SECRET_KEY
      Shop.chain_create creds a = (Raise e, a)
  ∧ get_inventory_item Sample.hmac_sha256 Sample.int_of_str Sample.SECRET_KEY
      "item-1" creds a = (Raise e, a)
  ∧ update_inventory_item Sample.hmac_sha256 Sample.int_of_str Sample.SECRET_KEY
      "item-1" Shop.engrave creds a = (Raise e, a)
  ∧ delete_inventory_item Sample.hmac_sha256 Sample.int_of_str Sample.SECRET_KEY
      "item-1" creds a = (Raise e, a).
Proof.
  cbv zeta.
  apply (unauthenticated_requests_are_stopped Sample.hmac_sha256
           Sample.int_of_str Sample.SECRET_KEY
           (bearer (jwt.Undecodable "garbage")) (Shop.shop ADMIN)
           (HTTPException 401 "Invalid token") (Sample.process ∅ ADMIN)).
  vm_compute. reflexivity.
Defined.

Lemma every_role_may_read_witness :
  let a := Shop.shop SALESPERSON in
  let asked := set_base (set_queries [JStr "alice"] (Sample.process ∅ SALESPERSON))
                 a in
  get_inventory_item Sample.hmac_sha256 Sample.int_of_str Sample.SECRET_KEY
    "item-2" Shop.alice_credentials a
  = (Raise (HTTPException 404 "Item not found"), asked)
  ∧ get_inventory_item Sample.hmac_sha256 Sample.int_of_str Sample.SECRET_KEY
      "item-1" Shop.alice_credentials a
    = (Return Shop.ring, asked).
Proof.
  cbv zeta. split.
  - apply (proj1 (every_role_may_read Sample.hmac_sha256 Sample.int_of_str
                    Sample.SECRET_KEY Shop.alice_credentials
                    (Shop.shop SALESPERSON) (Sample.alice SALESPERSON)
                    (set_queries [JStr "alice"] (Sample.process ∅ SALESPERSON))
                    "item-2" (alice_resolves SALESPERSON))).
    by_members.
  - apply (proj2 (every_role_may_read Sample.hmac_sha256 Sample.int_of_str
                    Sample.SECRET_KEY Shop.alice_credentials
                    (Shop.shop SALESPERSON) (Sample.alice SALESPERSON)
                    (set_queries [JStr "alice"] (Sample.process ∅ SALESPERSON))
                    "item-1" (alice_resolves SALESPERSON))
             [] Shop.ring []).
    + reflexivity.
    + reflexivity.
    + by_members.
Defined.

Lemma create_inventory_item_stores_witness :
  let a := Shop.shop MANAGER in
  let w1 := set_queries [JStr "alice"] (Sample.process ∅ MANAGER) in
  create_inventory_item Sample.hmac_sha256 Sample.int_of_str Sample.SECRET_KEY
    Shop.ring_create Shop.alice_credentials a
  = (Raise (HTTPException 400 "SKU already exists"), set_base w1 a)
  ∧ ∃ item a',
      create_inventory_item Sample.hmac_sha256 Sample.int_of_str
        Sample.SECRET_KEY Shop.chain_create Shop.alice_credentials a
      = (Return item, a')
      ∧ inventory_items a' = [Shop.ring; stored_item item]
      ∧ InventoryItem.created_by item = "alice"
      ∧ InventoryItem.sku item = "CHAIN-001".
Proof.
  cbv zeta. split.
  - apply (proj1 (create_inventory_item_stores Sample.hmac_sha256
                    Sample.int_of_str Sample.SECRET_KEY Shop.alice_credentials
                    (Shop.shop MANAGER) (Sample.alice MANAGER)
                    (set_queries [JStr "alice"] (Sample.process ∅ MANAGER))
                    Shop.ring_create (alice_resolves MANAGER)
                    ltac:(right; left))).
    exists Shop.ring. split; [left|reflexivity].
  - destruct (proj2 (create_inventory_item_stores Sample.hmac_sha256
                    Sample.int_of_str Sample.SECRET_KEY Shop.alice_credentials
                    (Shop.shop MANAGER) (Sample.alice MANAGER)
                    (set_queries [JStr "alice"] (Sample.process ∅ MANAGER))
                    Shop.chain_create (alice_resolves MANAGER)
                    ltac:(right; left)))
      as (item & a' & Hrun & Hitems & _ & Hby & Hsku & _).
    + by_members.
    + exists item, a'. by repeat split.
Defined.

Lemma create_then_get_witness :
  ∃ item a',
    create_inventory_item Sample.hmac_sha256 Sample.int_of_str Sample.SECRET_KEY
      Shop.chain_create Shop.alice_credentials (Shop.shop ADMIN)
    = (Return item, a')
    ∧ ∀ creds2 u2 w2,
        get_current_user Sample.hmac_sha256 Sample.int_of_str Sample.SECRET_KEY
          creds2 (base a') = (Return u2, w2) ->
        get_inventory_item Sample.hmac_sha256 Sample.int_of_str Sample.SECRET_KEY
          (InventoryItem.id item) creds2 a'
        = (Return (stored_item item), set_base w2 a').
Proof.
  apply (create_then_get Sample.hmac_sha256 Sample.int_of_str Sample.SECRET_KEY
           Shop.alice_credentials (Shop.shop ADMIN) (Sample.alice ADMIN)
           (set_queries [JStr "alice"] (Sample.process ∅ ADMIN))
           Shop.chain_create (alice_resolves ADMIN)).
  - left.
  - by_members.
  - by_members.
Defined.

Lemma create_keeps_skus_unique_witness :
  NoDup (InventoryItem.sku
           <$> inventory_items
                 (create_inventory_item Sample.hmac_sha256 Sample.int_of_str
                    Sample.SECRET_KEY Shop.chain_create Shop.alice_credentials
                    (Shop.shop ADMIN)).2).
Proof.
  apply (create_keeps_skus_unique Sample.hmac_sha256 Sample.int_of_str
           Sample.SECRET_KEY Shop.alice_credentials (Shop.shop ADMIN)
           Shop.chain_create).
  vm_compute. apply NoDup_singleton.
Defined.

Lemma delete_inventory_item_removes_witness :
  let a := Shop.shop MANAGER in
  let w1 := set_queries [JStr "alice"] (Sample.process ∅ MANAGER) in
  delete_inventory_item Sample.hmac_sha256 Sample.int_of_str Sample.SECRET_KEY
    "item-2" Shop.alice_credentials a
  = (Raise (HTTPException 404 "Item not found"), set_base w1 a)
  ∧ delete_inventory_item Sample.hmac_sha256 Sample.int_of_str Sample.SECRET_KEY
      "item-1" Shop.alice_credentials a
    = (Return deleted, set_inventory_items [] (set_base w1 a)).
Proof.
  cbv zeta. split.
  - apply (proj1 (delete_inventory_item_removes Sample.hmac_sha256
                    Sample.int_of_str Sample.SECRET_KEY Shop.alice_credentials
                    (Shop.shop MANAGER) (Sample.alice MANAGER)
                    (set_queries [JStr "alice"] (Sample.process ∅ MANAGER))
                    "item-2" (alice_resolves MANAGER) ltac:(right; left))).
    by_members.
  - apply (proj2 (delete_inventory_item_removes Sample.hmac_sha256
                    Sample.int_of_str Sample.SECRET_KEY Shop.alice_credentials
                    (Shop.shop MANAGER) (Sample.alice MANAGER)
                    (set_queries [JStr "alice"] (Sample.process ∅ MANAGER))
                    "item-1" (alice_resolves MANAGER) ltac:(right; left))
             [] Shop.ring []).
    + reflexivity.
    + reflexivity.
    + by_members.
Defined.

Lemma update_inventory_item_changes_witness :
  let a := Shop.shop MANAGER in
  let w1 := set_queries [JStr "alice"] (Sample.process ∅ MANAGER) in
  update_inventory_item Sample.hmac_sha256 Sample.int_of_str Sample.SECRET_KEY
    "item-2" Shop.engrave Shop.alice_credentials a
  = (Raise (HTTPException 404 "Item not found"), set_base w1 a)
  ∧ ∃ updated,
      update_inventory_item Sample.hmac_sha256 Sample.int_of_str
        Sample.SECRET_KEY "item-1" Shop.engrave Shop.alice_credentials a
      = (Return updated, set_inventory_items [updated] (set_base w1 a))
      ∧ InventoryItem.sku updated = "RING-001"
      ∧ InventoryItem.name updated = "Gold ring, engraved"
      ∧ InventoryItem.description updated = Some "Plain band"
      ∧ InventoryItem.updated_at updated = 1762000000200000.
Proof.
  cbv zeta. split.
  - apply (proj1 (update_inventory_item_changes Sample.hmac_sha256
                    Sample.int_of_str Sample.SECRET_KEY Shop.alice_credentials
                    (Shop.shop MANAGER) (Sample.alice MANAGER)
                    (set_queries [JStr "alice"] (Sample.process ∅ MANAGER))
                    "item-2" Shop.engrave (alice_resolves MANAGER)
                    ltac:(right; left))).
    by_members.
  - destruct (proj2 (update_inventory_item_changes Sample.hmac_sha256
                    Sample.int_of_str Sample.SECRET_KEY Shop.alice_credentials
                    (Shop.shop MANAGER) (Sample.alice MANAGER)
                    (set_queries [JStr "alice"] (Sample.process ∅ MANAGER))
                    "item-1" Shop.engrave (alice_resolves MANAGER)
                    ltac:(right; left))
                [] Shop.ring [])
      as (updated & Hrun & _ & Hsku & _ & _ & Hat & Hname & _ & Hkept & _).
    + reflexivity.
    + reflexivity.
    + by_members.
    + exists updated. split; [exact Hrun|]. split; [exact Hsku|].
      split; [exact Hname|]. split; [exact (Hkept eq_refl)|exact Hat].
Defined.

Lemma update_metal_prices_appends_witness :
  ∃ price a',
    update_metal_prices Sample.hmac_sha256 Sample.int_of_str Sample.SECRET_KEY
      Shop.prices Shop.alice_credentials (Shop.shop ADMIN)
    = (Return price, a')
    ∧ metal_prices a' = [stored_metal_price price]
    ∧ MetalPrice.updated_by price = "alice"
    ∧ MetalPrice.platinum_price price = float_zero.
Proof.
  destruct (update_metal_prices_appends Sample.hmac_sha256 Sample.int_of_str
              Sample.SECRET_KEY Shop.alice_credentials (Shop.shop ADMIN)
              (Sample.alice ADMIN)
              (set_queries [JStr "alice"] (Sample.process ∅ ADMIN))
              Shop.prices (alice_resolves ADMIN) eq_refl)
    as (price & a' & Hrun & Hprices & _ & Hby & _ & _ & _ & _ & _ & Hnone).
  exists price, a'. split; [exact Hrun|]. split; [exact Hprices|].
  split; [exact Hby|exact (Hnone eq_refl)].
Defined.

Lemma agent_is_built_once_witness :
  let s2 :=
    AgentState string "gpt-large"
      (Some {[ "search" := SearchAgent string "gpt-small" ]}) in
  _get_or_create_agent string "search" s2
  = (Return (SearchAgent string "gpt-small"), s2).
Proof.
  cbv zeta.
  apply (agent_is_built_once string "search" (AgentState string "gpt-small" None)
           (AgentState string "gpt-small"
              (Some {[ "search" := SearchAgent string "gpt-small" ]}))
           (SearchAgent string "gpt-small") "gpt-large").
  vm_compute. reflexivity.
Defined.

Lemma agent_cache_holds_known_kinds_witness :
  let s := AgentState string "gpt-small" None in
  (∀ k ag,
     (_get_agent_cache string (_get_or_create_agent string "chat" s).2).1 !! k
     = Some ag ->
     (k = "search" ∧ ∃ config, ag = SearchAgent string config)
     ∨ (k = "chat" ∧ ∃ config, ag = ChatAgent string config))
  ∧ _get_or_create_agent string "summary" s
    = (Raise (HTTPException 400 "Unknown agent type 'summary'"),
       AgentState string "gpt-small" (Some ∅)).
Proof.
  cbv zeta. split.
  - apply (proj1 (agent_cache_holds_known_kinds string "chat"
                    (AgentState string "gpt-small" None)
                    ltac:(intros k ag Hk; vm_compute in Hk; discriminate Hk))).
  - apply (proj2 (agent_cache_holds_known_kinds string "summary"
                    (AgentState string "gpt-small" None)
                    ltac:(intros k ag Hk; vm_compute in Hk; discriminate Hk)));
      discriminate.
Defined.
